(** * floor_plan_automation: a shallow embedding of the two pipeline scripts

    The repository holds two scripts, [floorplan_pipeline.py] and
    [nerfstudio_automate.py].  Each one trains a radiance field with an
    external tool, exports a mesh with a second external tool, slices the mesh
    just above its floor and writes the outline as an SVG and a PNG file.

    The scripts are sequential Python: they print, touch the file system, run
    subprocesses and call three libraries (trimesh, NumPy, Pillow).  They are
    embedded as computations in a state-and-exception monad [M] over a record
    [state] holding the file system, the two output streams and a trace of the
    external calls.  What the external tools, the libraries and the Python
    runtime answer is a parameter of the development, the record [World]. *)

From Stdlib Require Import List Ascii String ZArith QArith Qabs Qminmax Lia Lqa Bool.
From Stdlib Require Import Permutation Sorted DecimalString.
Import ListNotations.

Set Implicit Arguments.

Local Open Scope string_scope.
Local Open Scope list_scope.
Local Open Scope Z_scope.

(* ================================================================== *)
(** ** Python values shared by both scripts *)

Module Py.

(** A Python exception that is an instance of [Exception]: its class name
    and its message.  [KeyboardInterrupt] and [SystemExit] are not
    instances of [Exception] and are not raised by any call modelled here. *)
Record exn := Exn { exn_class : string; exn_msg : string }.

Inductive result (A : Type) : Type :=
| Ok (a : A)
| Raise (e : exn).
Arguments Ok {A} a.
Arguments Raise {A} e.

(** [pathlib.Path]: the components of the path, outermost first.  An
    absolute path starts with the empty component, as the split of its
    string at every [/] does; a relative path is relative to the working
    directory, which is the empty list.  A path stands for the place it
    names: [..] components and symbolic links are taken as resolved. *)
Definition path := list string.

(** [p == q] *)
Fixpoint path_eqb (p q : path) : bool :=
  match p, q with
  | [], [] => true
  | a :: p', b :: q' => String.eqb a b && path_eqb p' q'
  | _, _ => false
  end.

(** String concatenation, written apart from list concatenation. *)
Infix "+++" := String.append (at level 60, right associativity).

(** [str(path)] *)
Definition str_path (p : path) : string := String.concat "/" p.

(** [str(n)] for an [int] *)
Definition str_int (z : Z) : string := NilZero.string_of_int (Z.to_int z).

(** [s.split(sep)] *)
Fixpoint split_at (sep : Ascii.ascii) (s cur : string) : list string :=
  match s with
  | EmptyString => [cur]
  | String c rest =>
      if Ascii.eqb c sep then cur :: split_at sep rest ""
      else split_at sep rest (cur +++ String c "")
  end.

(** [Path(s)] for a POSIX path: the string is split at every [/], empty
    and [.] components are dropped, and a leading [/] is kept as the empty
    first component.  (A path that starts with exactly two slashes is not
    told apart.) *)
Definition Path (s : string) : path :=
  let parts :=
    filter (fun c => negb (String.eqb c "" || String.eqb c "."))
           (split_at "/"%char s "") in
  match s with
  | String "/"%char _ => "" :: parts
  | _ => parts
  end.

(** [path / name] *)
Definition div_path (p : path) (name : string) : path := p ++ [name].

(** [path.parent] *)
Definition parent (p : path) : path := removelast p.

(** ** NumPy's float64

    Mesh coordinates are finite numbers, taken here as rationals.  The
    result of an arithmetic operation is its exact value while that lies in
    the range of float64, a signed infinity when it overflows, and [nan]
    when the operation is invalid; rounding inside the range is not
    modelled, and neither is the sign of zero.  NumPy raises on none of
    these events: it sets a floating-point flag, which makes it warn. *)
Inductive npfloat := Fin (q : Q) | PInf | NInf | NaN.

(** The floating-point events NumPy reports (underflow is ignored). *)
Inductive fpflag := DivideByZero | Overflow | Invalid.

Definition fpflag_eqb (f g : fpflag) : bool :=
  match f, g with
  | DivideByZero, DivideByZero | Overflow, Overflow | Invalid, Invalid => true
  | _, _ => false
  end.

(** The least magnitude that rounds to an infinity: [2^1024 - 2^970], half
    way between the largest float64 and [2^1024]. *)
Definition overflow_threshold : Q := inject_Z (2 ^ 1024 - 2 ^ 970).

Definition overflows (q : Q) : bool := Qle_bool overflow_threshold (Qabs q).

(** An exact result as a float64, and the flag it raises. *)
Definition np_round (q : Q) : npfloat :=
  if overflows q then (if Qle_bool 0 q then PInf else NInf) else Fin q.

Definition round_flags (q : Q) : list fpflag :=
  if overflows q then [Overflow] else [].

(** [a - b] for two finite numbers *)
Definition np_sub (a b : Q) : npfloat := np_round (a - b).

Definition sub_flags (a b : Q) : list fpflag := round_flags (a - b).

(** [x / y] *)
Definition np_div (x y : npfloat) : npfloat :=
  match x, y with
  | NaN, _ | _, NaN => NaN
  | Fin a, Fin b =>
      if Qeq_bool b 0 then
        if Qeq_bool a 0 then NaN
        else if Qle_bool 0 a then PInf else NInf
      else np_round (a / b)
  | Fin _, PInf | Fin _, NInf => Fin 0
  | PInf, Fin b => if Qle_bool 0 b then PInf else NInf
  | NInf, Fin b => if Qle_bool 0 b then NInf else PInf
  | PInf, PInf | PInf, NInf | NInf, PInf | NInf, NInf => NaN
  end.

Definition div_flags (x y : npfloat) : list fpflag :=
  match x, y with
  | Fin a, Fin b =>
      if Qeq_bool b 0 then
        if Qeq_bool a 0 then [Invalid] else [DivideByZero]
      else round_flags (a / b)
  | PInf, PInf | PInf, NInf | NInf, PInf | NInf, NInf => [Invalid]
  | _, _ => []
  end.

(** [x * y] *)
Definition np_mul (x y : npfloat) : npfloat :=
  match x, y with
  | NaN, _ | _, NaN => NaN
  | Fin a, Fin b => np_round (a * b)
  | Fin a, PInf | PInf, Fin a =>
      if Qeq_bool a 0 then NaN else if Qle_bool 0 a then PInf else NInf
  | Fin a, NInf | NInf, Fin a =>
      if Qeq_bool a 0 then NaN else if Qle_bool 0 a then NInf else PInf
  | PInf, PInf | NInf, NInf => PInf
  | PInf, NInf | NInf, PInf => NInf
  end.

Definition mul_flags (x y : npfloat) : list fpflag :=
  match x, y with
  | Fin a, Fin b => round_flags (a * b)
  | Fin a, PInf | PInf, Fin a | Fin a, NInf | NInf, Fin a =>
      if Qeq_bool a 0 then [Invalid] else []
  | _, _ => []
  end.

(** [x + y] *)
Definition np_add (x y : npfloat) : npfloat :=
  match x, y with
  | NaN, _ | _, NaN => NaN
  | Fin a, Fin b => np_round (a + b)
  | PInf, NInf | NInf, PInf => NaN
  | PInf, _ | _, PInf => PInf
  | NInf, _ | _, NInf => NInf
  end.

Definition add_flags (x y : npfloat) : list fpflag :=
  match x, y with
  | Fin a, Fin b => round_flags (a + b)
  | PInf, NInf | NInf, PInf => [Invalid]
  | _, _ => []
  end.

Definition is_nan (x : npfloat) : bool :=
  match x with NaN => true | _ => false end.

(** [a.min()] and [a.max()] of a non-empty column [x0 :: xs] *)
Definition np_min (x0 : Q) (xs : list Q) : Q := fold_left Qmin xs x0.
Definition np_max (x0 : Q) (xs : list Q) : Q := fold_left Qmax xs x0.

(** ** trimesh values *)

Definition vec3 : Type := Q * Q * Q.

(** A loaded mesh: its vertices and its [bounds] (the two corners of the
    axis-aligned bounding box, [None] for a mesh without vertices). *)
Record Mesh := {
  mesh_vertices : list vec3;
  mesh_bounds : option (vec3 * vec3)
}.

(** A 3D section: line entities over 3D vertices. *)
Record Path3D := {
  p3_vertices : list vec3;
  p3_entities : list (list Z)
}.

(** A planar path: 2D vertices, and entities that list indices of vertices
    ([entity.points]). *)
Record Path2D := {
  vertices : list (Q * Q);
  entities : list (list Z)
}.

(** ** Pillow values *)

Definition point : Type := npfloat * npfloat.

(** One call of [draw.line]. *)
Record stroke := {
  stroke_points : list point;
  stroke_fill : string;
  stroke_width : Z
}.

(** An image: what [Image.new] was given and the lines drawn on it since,
    oldest first. *)
Record Image := {
  img_mode : string;
  img_size : Z * Z;
  img_color : string;
  img_strokes : list stroke
}.

(** [Image.new(mode, size, color)] *)
Definition Image_new (mode : string) (size : Z * Z) (color : string) : Image :=
  {| img_mode := mode; img_size := size; img_color := color;
     img_strokes := [] |}.

(** The image after [draw.line(xy, fill=fill, width=width)]. *)
Definition add_stroke (img : Image) (xy : list point) (fill : string)
           (width : Z) : Image :=
  {| img_mode := img_mode img; img_size := img_size img;
     img_color := img_color img;
     img_strokes := img_strokes img ++
       [{| stroke_points := xy; stroke_fill := fill;
           stroke_width := width |}] |}.

(** ** The file system *)

(** What a file holds: bytes of an external tool, the SVG serialisation of a
    planar path, or the PNG encoding of an image. *)
Inductive content :=
| Blob (s : string)
| SvgOf (p : Path2D)
| PngOf (i : Image).

Inductive node :=
| Dir (mtime : Z)
| File (mtime : Z) (c : content).

Definition st_mtime (n : node) : Z :=
  match n with Dir t => t | File t _ => t end.

(** The entries in the order in which a directory scan yields them, each
    under the path of the place it is at. *)
Definition filesystem := list (path * node).

Fixpoint lookup (fs : filesystem) (p : path) : option node :=
  match fs with
  | [] => None
  | (q, n) :: rest => if path_eqb q p then Some n else lookup rest p
  end.

(** [path.exists()]; the root always exists. *)
Definition exists_ (fs : filesystem) (p : path) : bool :=
  match p with
  | [] => true
  | _ => match lookup fs p with Some _ => true | None => false end
  end.

(** [path.is_dir()] *)
Definition is_dir (fs : filesystem) (p : path) : bool :=
  match p with
  | [] => true
  | _ => match lookup fs p with Some (Dir _) => true | _ => false end
  end.

(** [path.mkdir(parents=True, exist_ok=True)] at time [now]: the components
    [todo] are created below [done], outermost first; an existing directory
    is kept, an existing file makes the call fail. *)
Fixpoint mkdir_parents (now : Z) (fs : filesystem) (done todo : path)
  : result filesystem :=
  match todo with
  | [] => Ok fs
  | c :: rest =>
      let p := done ++ [c] in
      match lookup fs p with
      | Some (Dir _) => mkdir_parents now fs p rest
      | Some (File _ _) =>
          Raise (Exn (match rest with
                      | [] => "FileExistsError"
                      | _ => "NotADirectoryError"
                      end) (str_path p))
      | None => mkdir_parents now (fs ++ [(p, Dir now)]) p rest
      end
  end.

Fixpoint replace_node (fs : filesystem) (p : path) (n : node) : filesystem :=
  match fs with
  | [] => [(p, n)]
  | (q, m) :: rest =>
      if path_eqb q p then (q, n) :: rest
      else (q, m) :: replace_node rest p n
  end.

(** [open(path, 'wb').write(c)] at time [now]. *)
Definition write_file (now : Z) (fs : filesystem) (p : path) (c : content)
  : result filesystem :=
  if negb (is_dir fs (parent p)) then
    Raise (Exn "FileNotFoundError" (str_path p))
  else
    match lookup fs p with
    | Some (Dir _) => Raise (Exn "IsADirectoryError" (str_path p))
    | _ => Ok (replace_node fs p (File now c))
    end.

Fixpoint is_prefix (p q : path) : bool :=
  match p, q with
  | [], _ => true
  | a :: p', b :: q' => String.eqb a b && is_prefix p' q'
  | _ :: _, [] => false
  end.

Definition ends_with (suffix s : string) : bool :=
  let n := String.length s in
  let k := String.length suffix in
  (k <=? n)%nat && String.eqb (substring (n - k) k s) suffix.

(** [dir.glob("**/" + name)]: every entry below [dir], at any depth, whose
    last component is [name]. *)
Definition glob_rec (fs : filesystem) (dir : path) (name : string)
  : list path :=
  map fst
    (filter (fun e : path * node =>
               is_prefix dir (fst e)
               && (List.length dir <? List.length (fst e))%nat
               && String.eqb (last (fst e) "") name) fs).

(** [dir.glob("*" + ext)]: every entry directly inside [dir] whose name ends
    with [ext]. *)
Definition glob_ext (fs : filesystem) (dir : path) (ext : string)
  : list path :=
  map fst
    (filter (fun e : path * node =>
               is_prefix dir (fst e)
               && (List.length (fst e) =? S (List.length dir))%nat
               && ends_with ext (last (fst e) "")) fs).

(** ** [sorted(l, key=...)] and [l[-1]] *)

Section Sorted.
Variable A : Type.
Variable key : A -> Z.

(** [x] goes in front of the first element whose key is not smaller, so
    that elements with equal keys keep their order: the sort is stable. *)
Fixpoint insert (x : A) (l : list A) : list A :=
  match l with
  | [] => [x]
  | y :: ys => if key x <=? key y then x :: l else y :: insert x ys
  end.

Fixpoint sorted (l : list A) : list A :=
  match l with
  | [] => []
  | x :: xs => insert x (sorted xs)
  end.

(** [l[-1]] *)
Fixpoint last_item (l : list A) : result A :=
  match l with
  | [] => Raise (Exn "IndexError" "list index out of range")
  | [x] => Ok x
  | _ :: xs => last_item xs
  end.
End Sorted.

(** ** NumPy arrays of shape (n, 2) *)

Definition reduction_error (name : string) : exn :=
  Exn "ValueError"
      ("zero-size array to reduction operation " +++ name
       +++ " which has no identity").

(** [a.min(axis=0)] *)
Definition amin (a : list (Q * Q)) : result (Q * Q) :=
  match a with
  | [] => Raise (reduction_error "minimum")
  | v :: vs => Ok (np_min (fst v) (map fst vs), np_min (snd v) (map snd vs))
  end.

(** [a.max(axis=0)] *)
Definition amax (a : list (Q * Q)) : result (Q * Q) :=
  match a with
  | [] => Raise (reduction_error "maximum")
  | v :: vs => Ok (np_max (fst v) (map fst vs), np_max (snd v) (map snd vs))
  end.

(** [(a - lo) / (hi - lo)], the row vectors [lo] and [hi] broadcast over the
    rows of [a]. *)
Definition np_normalize (a : list (Q * Q)) (lo hi : Q * Q) : list point :=
  map (fun v => (np_div (np_sub (fst v) (fst lo)) (np_sub (fst hi) (fst lo)),
                 np_div (np_sub (snd v) (snd lo)) (np_sub (snd hi) (snd lo)))) a.

(** [a * k + c] for scalars [k] and [c] *)
Definition np_scale (a : list point) (k c : Z) : list point :=
  map (fun v : point =>
         (np_add (np_mul (fst v) (Fin (inject_Z k))) (Fin (inject_Z c)),
          np_add (np_mul (snd v) (Fin (inject_Z k))) (Fin (inject_Z c)))) a.

(** What one call of a ufunc reports: each flag that some element raised,
    once, in NumPy's order. *)
Definition ufunc_events (name : string) (raised : list fpflag)
  : list (string * fpflag) :=
  map (pair name)
      (filter (fun f => existsb (fpflag_eqb f) raised)
              [DivideByZero; Overflow; Invalid]).

(** The events of [(a - lo) / (hi - lo)]: of the subtraction on the left,
    of the one on the right, then of the division. *)
Definition np_normalize_events (a : list (Q * Q)) (lo hi : Q * Q)
  : list (string * fpflag) :=
  ufunc_events "subtract"
    (flat_map (fun v => sub_flags (fst v) (fst lo)
                        ++ sub_flags (snd v) (snd lo)) a)
  ++ ufunc_events "subtract"
       (sub_flags (fst hi) (fst lo) ++ sub_flags (snd hi) (snd lo))
  ++ ufunc_events "divide"
       (flat_map (fun v =>
                    div_flags (np_sub (fst v) (fst lo))
                              (np_sub (fst hi) (fst lo))
                    ++ div_flags (np_sub (snd v) (snd lo))
                                 (np_sub (snd hi) (snd lo))) a).

(** The events of [a * k + c]. *)
Definition np_scale_events (a : list point) (k c : Z)
  : list (string * fpflag) :=
  ufunc_events "multiply"
    (flat_map (fun v : point =>
                 mul_flags (fst v) (Fin (inject_Z k))
                 ++ mul_flags (snd v) (Fin (inject_Z k))) a)
  ++ ufunc_events "add"
       (flat_map (fun v : point =>
                    add_flags (np_mul (fst v) (Fin (inject_Z k)))
                              (Fin (inject_Z c))
                    ++ add_flags (np_mul (snd v) (Fin (inject_Z k)))
                                 (Fin (inject_Z c))) a).

(** [a[i]] for one index: a negative index counts from the end. *)
Definition np_item (a : list point) (i : Z) : result point :=
  let n := Z.of_nat (List.length a) in
  let j := if i <? 0 then i + n else i in
  if (0 <=? j) && (j <? n) then Ok (nth (Z.to_nat j) a (NaN, NaN))
  else Raise (Exn "IndexError"
                  ("index " +++ str_int i +++ " is out of bounds for axis 0 with size "
                   +++ str_int n)).

(** [a[idx].tolist()] for a list of indices *)
Fixpoint np_take (a : list point) (idx : list Z) : result (list point) :=
  match idx with
  | [] => Ok []
  | i :: rest =>
      match np_item a i with
      | Raise e => Raise e
      | Ok p =>
          match np_take a rest with
          | Raise e => Raise e
          | Ok ps => Ok (p :: ps)
          end
      end
  end.

(** [s * n] for a string *)
Fixpoint str_mul (s : string) (n : nat) : string :=
  match n with
  | O => ""
  | S k => s +++ str_mul s k
  end.

Definition nl : string := String (Ascii.ascii_of_nat 10) EmptyString.

(** ** The state of a run *)

(** The calls that leave the process. *)
Inductive event :=
| Spawn (cmd : list string)
| MeshLoad (p : path)
| MeshSection (m : Mesh) (plane_origin plane_normal : vec3).

Record state := mkState {
  fs : filesystem;
  now : Z;
  stdout : list string;
  stderr : list string;
  trace : list event
}.

Definition set_fs (s : state) (f : filesystem) : state :=
  mkState f (now s) (stdout s) (stderr s) (trace s).

Definition log_event (s : state) (e : event) : state :=
  mkState (fs s) (now s) (stdout s) (stderr s) (trace s ++ [e]).

Definition add_stderr (s : state) (lines : list string) : state :=
  mkState (fs s) (now s) (stdout s) (stderr s ++ lines) (trace s).

(** ** The world outside the scripts

    What the external programs, the libraries and the Python runtime
    answer.  A subprocess may change the file system and the clock; [None]
    as a fault means that the library call goes through.  [tb_frames] gives
    the stack entries that a traceback printed in the script [file] shows
    for an exception (and the text for its chained exceptions, if any);
    [np_warnings] gives what the warning machinery writes to stderr for the
    floating-point events of one statement of the script [file], which
    depends on the warning filters and on the version of NumPy. *)
Record World := {
  run_process : list string -> filesystem -> Z -> result (Z * filesystem * Z);
  trimesh_load : filesystem -> path -> result Mesh;
  trimesh_section : Mesh -> vec3 -> vec3 -> result (option Path3D);
  trimesh_to_planar : Path3D -> result Path2D;
  export_fault : Path2D -> path -> option exn;
  line_fault : list point -> option exn;
  save_fault : Image -> path -> option exn;
  repr_bounds : Mesh -> string;
  repr_float : Q -> string;
  tb_frames : string -> exn -> list string;
  np_warnings : string -> list (string * fpflag) -> list string
}.

(** ** The monad *)

Definition M (A : Type) : Type := state -> result A * state.

Definition ret {A} (a : A) : M A := fun s => (Ok a, s).

Definition raise {A} (e : exn) : M A := fun s => (Raise e, s).

Definition bind {A B} (m : M A) (k : A -> M B) : M B :=
  fun s =>
    match m s with
    | (Ok a, s') => k a s'
    | (Raise e, s') => (Raise e, s')
    end.

(** [try: body  except Exception as e: handler] *)
Definition try_except {A} (body : M A) (handler : exn -> M A) : M A :=
  fun s =>
    match body s with
    | (Ok a, s') => (Ok a, s')
    | (Raise e, s') => handler e s'
    end.

Definition lift {A} (r : result A) : M A := fun s => (r, s).

Module Import Notations.
  Notation "x <- c1 ;; c2" := (bind c1 (fun x => c2))
    (at level 61, c1 at next level, right associativity).
  Notation "c1 ;; c2" := (bind c1 (fun _ => c2))
    (at level 61, right associativity).
End Notations.

(** [for x in l: acc = body(x, acc)] *)
Fixpoint for_each {A S} (l : list A) (body : A -> S -> M S) (acc : S) : M S :=
  match l with
  | [] => ret acc
  | x :: xs => acc' <- body x acc ;; for_each xs body acc'
  end.

Fixpoint map_M {A B} (f : A -> M B) (l : list A) : M (list B) :=
  match l with
  | [] => ret []
  | x :: xs => y <- f x ;; ys <- map_M f xs ;; ret (y :: ys)
  end.

(** [print(line)] *)
Definition print (line : string) : M unit :=
  fun s => (Ok tt, mkState (fs s) (now s) (stdout s ++ [line]) (stderr s) (trace s)).

(** The last line of a traceback: the class of the exception and, unless it
    is empty, its message. *)
Definition exception_line (e : exn) : string :=
  if String.eqb (exn_msg e) "" then exn_class e
  else exn_class e +++ ": " +++ exn_msg e.

(** [p.exists()] *)
Definition path_exists (p : path) : M bool := fun s => (Ok (exists_ (fs s) p), s).

(** [p.mkdir(parents=True, exist_ok=True)] *)
Definition mkdir (p : path) : M unit :=
  fun s =>
    match mkdir_parents (now s) (fs s) [] p with
    | Ok f => (Ok tt, set_fs s f)
    | Raise e => (Raise e, s)
    end.

(** [p.stat().st_mtime] *)
Definition stat_mtime (p : path) : M Z :=
  fun s =>
    match lookup (fs s) p with
    | Some n => (Ok (st_mtime n), s)
    | None => (Raise (Exn "FileNotFoundError" (str_path p)), s)
    end.

(** [list(dir.glob("**/" + name))] and [list(dir.glob("*" + ext))] *)
Definition glob_name (dir : path) (name : string) : M (list path) :=
  fun s => (Ok (glob_rec (fs s) dir name), s).

Definition glob_suffix (dir : path) (ext : string) : M (list path) :=
  fun s => (Ok (glob_ext (fs s) dir ext), s).

(** [sorted(files, key=lambda x: x.stat().st_mtime)[-1]]: the keys are
    computed first, one per element, then the list is sorted on them. *)
Definition newest (files : list path) : M path :=
  keyed <- map_M (fun x => t <- stat_mtime x ;; ret (t, x)) files ;;
  lift (last_item (map snd (sorted fst keyed))).

Section Calls.
Variable w : World.

(** [subprocess.run(cmd).returncode] *)
Definition subprocess_run (cmd : list string) : M Z :=
  fun s =>
    let s1 := log_event s (Spawn cmd) in
    match run_process w cmd (fs s) (now s) with
    | Ok (rc, f, t) =>
        (Ok rc, mkState f t (stdout s1) (stderr s1) (trace s1))
    | Raise e => (Raise e, s1)
    end.

(** [trimesh.load(p)] *)
Definition load (p : path) : M Mesh :=
  fun s => (trimesh_load w (fs s) p, log_event s (MeshLoad p)).

(** [mesh.bounds[0][2]] *)
Definition bounds_min_z (mesh : Mesh) : M Q :=
  match mesh_bounds mesh with
  | Some (lo, _) => ret (snd lo)
  | None => raise (Exn "TypeError" "'NoneType' object is not subscriptable")
  end.

(** [mesh.section(plane_origin=o, plane_normal=n)] *)
Definition section (mesh : Mesh) (o n : vec3) : M (option Path3D) :=
  fun s => (trimesh_section w mesh o n, log_event s (MeshSection mesh o n)).

(** [path3d.to_planar()[0]] *)
Definition to_planar (p : Path3D) : M Path2D := lift (trimesh_to_planar w p).

(** [slice_2d.export(str(p))] *)
Definition export (slice_2d : Path2D) (p : path) : M unit :=
  fun s =>
    match export_fault w slice_2d p with
    | Some e => (Raise e, s)
    | None =>
        match write_file (now s) (fs s) p (SvgOf slice_2d) with
        | Ok f => (Ok tt, set_fs s f)
        | Raise e => (Raise e, s)
        end
    end.

(** [draw.line(xy, fill=fill, width=width)] on the image [draw] draws on *)
Definition draw_line (img : Image) (xy : list point) (fill : string)
           (width : Z) : M Image :=
  match line_fault w xy with
  | Some e => raise e
  | None => ret (add_stroke img xy fill width)
  end.

(** [img.save(str(p))] *)
Definition save (img : Image) (p : path) : M unit :=
  fun s =>
    match save_fault w img p with
    | Some e => (Raise e, s)
    | None =>
        match write_file (now s) (fs s) p (PngOf img) with
        | Ok f => (Ok tt, set_fs s f)
        | Raise e => (Raise e, s)
        end
    end.

(** [traceback.format_exc()] in the script [file], line by line: the
    header, the stack entries, and the line of the exception. *)
Definition format_exc (file : string) (e : exn) : list string :=
  "Traceback (most recent call last):" :: tb_frames w file e
  ++ [exception_line e].

(** [traceback.print_exc()] for the exception being handled *)
Definition print_exc (file : string) (e : exn) : M unit :=
  fun s => (Ok tt, add_stderr s (format_exc file e)).

(** What the events of one statement leave on stderr: nothing when no flag
    was raised. *)
Definition warn_lines (file : string) (events : list (string * fpflag))
  : list string :=
  match events with
  | [] => []
  | _ :: _ => np_warnings w file events
  end.

(** The warnings NumPy issues for the events of one statement. *)
Definition np_warn (file : string) (events : list (string * fpflag))
  : M unit :=
  fun s => (Ok tt, add_stderr s (warn_lines file events)).
End Calls.

End Py.

Import Py Py.Notations.

(* ================================================================== *)
(** ** floorplan_pipeline.py *)

Module FloorplanPipeline.

(** The name of the script, as tracebacks and warnings show it. *)
Definition file : string := "floorplan_pipeline.py".

Section Script.
Variable w : World.

Definition generate_floorplan_from_mesh (mesh_path output_dir : path)
  : M bool :=
  mkdir output_dir ;;
  try_except
    (print ("Loading mesh: " +++ str_path mesh_path) ;;
     mesh <- load w mesh_path ;;
     print ("Mesh: " +++ str_int (Z.of_nat (List.length (mesh_vertices mesh)))
            +++ " vertices") ;;
     print ("Bounds: " +++ repr_bounds w mesh) ;;
     min_z <- bounds_min_z mesh ;;
     let slice_height := (min_z + (1 # 10))%Q in
     print ("Slicing at: " +++ repr_float w slice_height) ;;
     slice_3d <- section w mesh (0, 0, slice_height)%Q (0, 0, 1)%Q ;;
     match slice_3d with
     | None =>
         print "❌ No valid slice!" ;;
         ret false
     | Some slice_3d =>
         print "✓ Slice created" ;;
         slice_2d <- to_planar w slice_3d ;;
         let svg_path := div_path output_dir "floorplan.svg" in
         export w slice_2d svg_path ;;
         print ("✓ SVG: " +++ str_path svg_path) ;;
         let img_size := 2000 in
         let img := Image_new "RGB" (img_size, img_size) "white" in
         let vertices := vertices slice_2d in
         img <- (if (0 <? List.length vertices)%nat then
                   lo <- lift (amin vertices) ;;
                   hi <- lift (amax vertices) ;;
                   np_warn w file (np_normalize_events vertices lo hi) ;;
                   let vertices := np_normalize vertices lo hi in
                   np_warn w file
                     (np_scale_events vertices (img_size - 100) 50) ;;
                   let vertices := np_scale vertices (img_size - 100) 50 in
                   for_each (entities slice_2d)
                     (fun entity img =>
                        points <- lift (np_take vertices entity) ;;
                        if (1 <? List.length points)%nat
                        then draw_line w img points "black" 5
                        else ret img)
                     img
                 else ret img) ;;
         let png_path := div_path output_dir "floorplan.png" in
         save w img png_path ;;
         print ("✓ PNG: " +++ str_path png_path) ;;
         ret true
     end)
    (fun e =>
       print ("❌ Error: " +++ exn_msg e) ;;
       print_exc w file e ;;
       ret false).

Definition train_and_export_floorplan
           (data_dir colmap_sparse_path output_dir : path)
           (max_iterations : Z) : M bool :=
  mkdir output_dir ;;
  data_ok <- path_exists data_dir ;;
  if negb data_ok then
    print ("❌ Data directory not found: " +++ str_path data_dir) ;;
    ret false
  else
  colmap_ok <- path_exists colmap_sparse_path ;;
  if negb colmap_ok then
    print ("❌ COLMAP data not found: " +++ str_path colmap_sparse_path) ;;
    ret false
  else
  print (str_mul "=" 60) ;;
  print "STEP 1: TRAINING NERF" ;;
  print (str_mul "=" 60) ;;
  print ("Data: " +++ str_path data_dir) ;;
  print ("COLMAP: " +++ str_path colmap_sparse_path) ;;
  print ("Output: " +++ str_path output_dir) ;;
  print ("Iterations: " +++ str_int max_iterations) ;;
  print "" ;;
  let train_cmd :=
    ["ns-train"; "nerfacto";
     "--output-dir"; str_path output_dir;
     "--max-num-iterations"; str_int max_iterations;
     "colmap";
     "--data"; str_path data_dir;
     "--colmap-path"; "colmap/sparse/0"] in
  print ("Running: " +++ String.concat " " train_cmd) ;;
  returncode <- subprocess_run w train_cmd ;;
  if negb (returncode =? 0) then
    print "❌ Training failed!" ;;
    ret false
  else
  print "✓ Training complete!" ;;
  print (nl +++ str_mul "=" 60) ;;
  print "STEP 2: EXPORTING MESH" ;;
  print (str_mul "=" 60) ;;
  config_files <- glob_name output_dir "config.yml" ;;
  match config_files with
  | [] =>
      print "❌ No config.yml found!" ;;
      ret false
  | _ :: _ =>
  config_path <- newest config_files ;;
  print ("Using config: " +++ str_path config_path) ;;
  let export_dir := div_path (div_path (parent config_path) "exports") "mesh" in
  mkdir export_dir ;;
  let export_cmd :=
    ["ns-export"; "poisson";
     "--load-config"; str_path config_path;
     "--output-dir"; str_path export_dir;
     "--num-points"; "1000000";
     "--remove-outliers"; "True"] in
  print ("Running: " +++ String.concat " " export_cmd) ;;
  returncode <- subprocess_run w export_cmd ;;
  if negb (returncode =? 0) then
    print "❌ Mesh export failed!" ;;
    ret false
  else
  print "✓ Mesh export complete!" ;;
  mesh_files <- glob_suffix export_dir ".ply" ;;
  match mesh_files with
  | [] =>
      print "❌ No mesh file found!" ;;
      ret false
  | _ :: _ =>
  mesh_path <- newest mesh_files ;;
  print ("Mesh: " +++ str_path mesh_path) ;;
  print (nl +++ str_mul "=" 60) ;;
  print "STEP 3: GENERATING FLOOR PLAN" ;;
  print (str_mul "=" 60) ;;
  success <- generate_floorplan_from_mesh mesh_path
               (div_path output_dir "floorplan") ;;
  (if success : bool then
     print (nl +++ str_mul "=" 60) ;;
     print "✓ PIPELINE COMPLETE!" ;;
     print (str_mul "=" 60) ;;
     print (nl +++ "Results:") ;;
     print ("  PNG: " +++ str_path
              (div_path (div_path output_dir "floorplan") "floorplan.png")) ;;
     print ("  SVG: " +++ str_path
              (div_path (div_path output_dir "floorplan") "floorplan.svg"))
   else ret tt) ;;
  ret success
  end
  end.

(** The parsed command line. *)
Record Args := {
  args_data : path;
  args_output : path;
  args_iterations : Z
}.

(** The defaults of the three options: [/workspace/data/room_1],
    [/workspace/output/room_1] and 10000. *)
Definition default_args : Args :=
  {| args_data := [""; "workspace"; "data"; "room_1"];
     args_output := [""; "workspace"; "output"; "room_1"];
     args_iterations := 10000 |}.

(** The script body after [parser.parse_args()], with the two path
    options as the paths the pipeline makes of them; the value is the exit
    status of the process. *)
Definition main (args : Args) : M Z :=
  let DATA_DIR := args_data args in
  let COLMAP_SPARSE_PATH := args_data args ++ ["colmap"; "sparse"; "0"] in
  let OUTPUT_DIR := args_output args in
  let MAX_ITERATIONS := args_iterations args in
  print (str_mul "=" 60) ;;
  print "FLOOR PLAN GENERATION PIPELINE" ;;
  print (str_mul "=" 60) ;;
  print ("Data: " +++ str_path DATA_DIR) ;;
  print ("Output: " +++ str_path OUTPUT_DIR) ;;
  print ("Iterations: " +++ str_int MAX_ITERATIONS) ;;
  print "" ;;
  in_docker <- path_exists [".dockerenv"] ;;
  (if in_docker : bool then print "✓ Running in Docker"
   else print "⚠ Not running in Docker") ;;
  try_except
    (returncode <- subprocess_run w ["nvidia-smi"] ;;
     if returncode =? 0 then print "✓ GPU detected"
     else print "⚠ No GPU detected")
    (fun _ => print "⚠ Could not check GPU") ;;
  print "" ;;
  success <- train_and_export_floorplan DATA_DIR COLMAP_SPARSE_PATH
               OUTPUT_DIR MAX_ITERATIONS ;;
  if success : bool then
    print (nl +++ "🎉 Done! Check output directory for results.") ;;
    ret 0
  else
    print (nl +++ "❌ Pipeline failed.") ;;
    ret 1.
End Script.
End FloorplanPipeline.

(* ================================================================== *)
(** ** nerfstudio_automate.py *)

Module NerfstudioAutomate.

(** The name of the script, as tracebacks and warnings show it. *)
Definition file : string := "nerfstudio_automate.py".

Section Script.
Variable w : World.

Definition generate_floorplan_from_mesh (mesh_path output_dir : path)
  : M bool :=
  mkdir output_dir ;;
  try_except
    (print ("Loading mesh from: " +++ str_path mesh_path) ;;
     mesh <- load w mesh_path ;;
     print ("Mesh bounds: " +++ repr_bounds w mesh) ;;
     print ("Mesh has " +++ str_int (Z.of_nat (List.length (mesh_vertices mesh)))
            +++ " vertices") ;;
     min_z <- bounds_min_z mesh ;;
     let slice_height := (min_z + (1 # 10))%Q in
     print ("Slicing at height: " +++ repr_float w slice_height) ;;
     slice_3d <- section w mesh (0, 0, slice_height)%Q (0, 0, 1)%Q ;;
     match slice_3d with
     | None =>
         print "❌ No valid slice found at this height!" ;;
         print "Try adjusting the slice height or check if the mesh is valid." ;;
         ret false
     | Some slice_3d =>
         print "✓ Slice created successfully" ;;
         slice_2d <- to_planar w slice_3d ;;
         let svg_path := div_path output_dir "floorplan.svg" in
         export w slice_2d svg_path ;;
         print ("✓ SVG saved: " +++ str_path svg_path) ;;
         let img_size := 2000 in
         let img := Image_new "RGB" (img_size, img_size) "white" in
         let vertices := vertices slice_2d in
         img <- (if (0 <? List.length vertices)%nat then
                   lo <- lift (amin vertices) ;;
                   hi <- lift (amax vertices) ;;
                   np_warn w file (np_normalize_events vertices lo hi) ;;
                   let vertices := np_normalize vertices lo hi in
                   np_warn w file
                     (np_scale_events vertices (img_size - 100) 50) ;;
                   let vertices := np_scale vertices (img_size - 100) 50 in
                   for_each (entities slice_2d)
                     (fun entity img =>
                        points <- lift (np_take vertices entity) ;;
                        if (1 <? List.length points)%nat
                        then draw_line w img points "black" 5
                        else ret img)
                     img
                 else ret img) ;;
         let png_path := div_path output_dir "floorplan.png" in
         save w img png_path ;;
         print ("✓ PNG saved: " +++ str_path png_path) ;;
         ret true
     end)
    (fun e =>
       print ("❌ Error generating floor plan: " +++ exn_msg e) ;;
       print_exc w file e ;;
       ret false).

Definition train_and_export_floorplan
           (data_dir colmap_sparse_path output_dir : path)
           (max_iterations : Z) : M bool :=
  mkdir output_dir ;;
  print (str_mul "=" 60) ;;
  print "STEP 1: TRAINING NERF" ;;
  print (str_mul "=" 60) ;;
  let train_cmd :=
    ["ns-train"; "nerfacto";
     "--output-dir"; str_path output_dir;
     "--max-num-iterations"; str_int max_iterations;
     "colmap";
     "--data"; str_path data_dir;
     "--colmap-path"; "colmap/sparse/0"] in
  print ("Running: " +++ String.concat " " train_cmd) ;;
  returncode <- subprocess_run w train_cmd ;;
  if negb (returncode =? 0) then
    print "❌ Training failed!" ;;
    ret false
  else
  print "✓ Training complete!" ;;
  print (nl +++ str_mul "=" 60) ;;
  print "STEP 2: EXPORTING MESH" ;;
  print (str_mul "=" 60) ;;
  config_files <- glob_name output_dir "config.yml" ;;
  match config_files with
  | [] =>
      print "❌ No config.yml found! Training may have failed." ;;
      ret false
  | _ :: _ =>
  config_path <- newest config_files ;;
  print ("Using config: " +++ str_path config_path) ;;
  let export_dir := div_path (div_path (parent config_path) "exports") "mesh" in
  mkdir export_dir ;;
  let export_cmd :=
    ["ns-export"; "poisson";
     "--load-config"; str_path config_path;
     "--output-dir"; str_path export_dir;
     "--num-points"; "1000000";
     "--remove-outliers"; "True"] in
  print ("Running: " +++ String.concat " " export_cmd) ;;
  returncode <- subprocess_run w export_cmd ;;
  if negb (returncode =? 0) then
    print "❌ Mesh export failed!" ;;
    ret false
  else
  print "✓ Mesh export complete!" ;;
  mesh_files <- glob_suffix export_dir ".ply" ;;
  match mesh_files with
  | [] =>
      print "❌ No mesh file found!" ;;
      ret false
  | _ :: _ =>
  mesh_path <- newest mesh_files ;;
  print ("Mesh saved at: " +++ str_path mesh_path) ;;
  print (nl +++ str_mul "=" 60) ;;
  print "STEP 3: GENERATING FLOOR PLAN" ;;
  print (str_mul "=" 60) ;;
  success <- generate_floorplan_from_mesh mesh_path
               (div_path output_dir "floorplan") ;;
  (if success : bool then
     print (nl +++ str_mul "=" 60) ;;
     print "✓ PIPELINE COMPLETE!" ;;
     print (str_mul "=" 60) ;;
     print (nl +++ "Floor plan saved to: " +++ str_path
              (div_path output_dir "floorplan")) ;;
     print ("  - PNG: " +++ str_path
              (div_path (div_path output_dir "floorplan") "floorplan.png")) ;;
     print ("  - SVG: " +++ str_path
              (div_path (div_path output_dir "floorplan") "floorplan.svg"))
   else ret tt) ;;
  ret success
  end
  end.

(** The script body: the configuration is fixed (the pipeline turns the
    three strings into paths), and the process ends with status 0 whatever
    the pipeline returned. *)
Definition main : M Z :=
  let DATA_DIR := "./data/room_1" in
  let COLMAP_SPARSE_PATH := "./data/room_1/colmap/sparse/0" in
  let OUTPUT_DIR := "./output/room_1" in
  let MAX_ITERATIONS := 10000 in
  print "Starting automated floor plan generation..." ;;
  print ("Data directory: " +++ DATA_DIR) ;;
  print ("COLMAP path: " +++ COLMAP_SPARSE_PATH) ;;
  print ("Output directory: " +++ OUTPUT_DIR) ;;
  print ("Max iterations: " +++ str_int MAX_ITERATIONS) ;;
  print "" ;;
  success <- train_and_export_floorplan (Path DATA_DIR)
               (Path COLMAP_SPARSE_PATH) (Path OUTPUT_DIR) MAX_ITERATIONS ;;
  (if success : bool then
     print (nl +++ "🎉 All done! Check your output directory for the floor plan.")
   else
     print (nl +++ "❌ Pipeline failed. Check errors above.")) ;;
  ret 0.
End Script.
End NerfstudioAutomate.

(* ================================================================== *)
(** ** Notions used in the statements *)

Unset Implicit Arguments.

(** The order of keys. *)
Definition key_le {A : Type} (key : A -> Z) (x y : A) : Prop :=
  key x <= key y.

(** The modification time the key function reads for [p]. *)
Definition mtime_of (f : filesystem) (p : path) : Z :=
  match lookup f p with
  | Some n => st_mtime n
  | None => 0
  end.

(** The two scripts. *)
Inductive script := floorplan_pipeline | nerfstudio_automate.

(** The name of the script [v]. *)
Definition script_file (v : script) : string :=
  match v with
  | floorplan_pipeline => FloorplanPipeline.file
  | nerfstudio_automate => NerfstudioAutomate.file
  end.

(** [generate_floorplan_from_mesh] of the script [v]. *)
Definition generate_floorplan_from_mesh (v : script) (w : World)
  : path -> path -> M bool :=
  match v with
  | floorplan_pipeline => FloorplanPipeline.generate_floorplan_from_mesh w
  | nerfstudio_automate => NerfstudioAutomate.generate_floorplan_from_mesh w
  end.

(** Where the rasterizer writes its two files. *)
Definition svg_path (output_dir : path) : path :=
  div_path output_dir "floorplan.svg".

Definition png_path (output_dir : path) : path :=
  div_path output_dir "floorplan.png".

(** A loop whose body leaves the state alone computes a fold. *)
Fixpoint fold_result {A S} (f : A -> S -> result S) (l : list A) (acc : S)
  : result S :=
  match l with
  | [] => Ok acc
  | x :: xs =>
      match f x acc with
      | Ok acc' => fold_result f xs acc'
      | Raise e => Raise e
      end
  end.

Section Painting.
Variable w : World.

(** What one round of the drawing loop does to the image. *)
Definition draw_entity (vs : list point) (entity : list Z) (img : Image)
  : result Image :=
  match np_take vs entity with
  | Ok points =>
      if (1 <? List.length points)%nat then
        match line_fault w points with
        | Some e => Raise e
        | None => Ok (add_stroke img points "black" 5)
        end
      else Ok img
  | Raise e => Raise e
  end.

(** The vertices in image space. *)
Definition to_image_space (vs : list (Q * Q)) (lo hi : Q * Q) : list point :=
  np_scale (np_normalize vs lo hi) (2000 - 100) 50.

(** The image that the drawing part of the rasterizer computes. *)
Definition paint (slice_2d : Path2D) : result Image :=
  let img := Image_new "RGB" (2000, 2000) "white" in
  if (0 <? List.length (vertices slice_2d))%nat then
    match amin (vertices slice_2d) with
    | Ok lo =>
        match amax (vertices slice_2d) with
        | Ok hi =>
            fold_result
              (draw_entity (to_image_space (vertices slice_2d) lo hi))
              (entities slice_2d) img
        | Raise e => Raise e
        end
    | Raise e => Raise e
    end
  else Ok img.

(** What the two statements of the normalization write to stderr in the
    script [file]: the warnings for the events of the first, then for the
    events of the second; nothing when there is no vertex. *)
Definition normalization_warnings (file : string) (slice_2d : Path2D)
  : list string :=
  match amin (vertices slice_2d), amax (vertices slice_2d) with
  | Ok lo, Ok hi =>
      warn_lines w file (np_normalize_events (vertices slice_2d) lo hi)
      ++ warn_lines w file
           (np_scale_events (np_normalize (vertices slice_2d) lo hi)
                            (2000 - 100) 50)
  | _, _ => []
  end.

(** The drawing part as both scripts write it. *)
Definition paint_block (file : string) (slice_2d : Path2D) : M Image :=
  let img_size := 2000 in
  let img := Image_new "RGB" (img_size, img_size) "white" in
  let vertices := vertices slice_2d in
  if (0 <? List.length vertices)%nat then
    lo <- lift (amin vertices) ;;
    hi <- lift (amax vertices) ;;
    np_warn w file (np_normalize_events vertices lo hi) ;;
    let vertices := np_normalize vertices lo hi in
    np_warn w file (np_scale_events vertices (img_size - 100) 50) ;;
    let vertices := np_scale vertices (img_size - 100) 50 in
    for_each (entities slice_2d)
      (fun entity img =>
         points <- lift (np_take vertices entity) ;;
         if (1 <? List.length points)%nat
         then draw_line w img points "black" 5
         else ret img)
      img
  else ret img.
End Painting.

(** The run reaches the drawing part with the planar slice [slice_2d]: the
    directory was made, the mesh loaded and cut, the section projected and
    its SVG written, which left the file system [f2]. *)
Definition sliced (w : World) (s : state) (mesh_path out : path)
           (slice_2d : Path2D) (f2 : filesystem) : Prop :=
  exists f1 mesh lo hi slice_3d,
    mkdir_parents (now s) (fs s) [] out = Ok f1 /\
    trimesh_load w f1 mesh_path = Ok mesh /\
    mesh_bounds mesh = Some (lo, hi) /\
    trimesh_section w mesh (0, 0, snd lo + (1 # 10))%Q (0, 0, 1)%Q
    = Ok (Some slice_3d) /\
    trimesh_to_planar w slice_3d = Ok slice_2d /\
    export_fault w slice_2d (div_path out "floorplan.svg") = None /\
    write_file (now s) f1 (div_path out "floorplan.svg") (SvgOf slice_2d)
    = Ok f2.

(** A point of the image whose coordinates keep the 50 pixel margin of
    the 2000 by 2000 canvas. *)
Definition on_canvas (p : point) : Prop :=
  match p with
  | (Fin x, Fin y) => (50 <= x <= 1950)%Q /\ (50 <= y <= 1950)%Q
  | _ => False
  end.

(** One coordinate in image space: [(a - lo) / (hi - lo) * 1900 + 50]. *)
Definition rescale (a lo hi : Q) : npfloat :=
  np_add (np_mul (np_div (np_sub a lo) (np_sub hi lo)) (Fin (inject_Z 1900)))
         (Fin (inject_Z 50)).

(** The extent [hi - lo] is positive and does not overflow. *)
Definition finite_extent (lo hi : Q) : Prop :=
  (lo < hi)%Q /\ overflows (hi - lo) = false.

(** The stroke that [draw.line] leaves for an entity: the image-space
    vertices the entity lists, in its order, joined in black, 5 pixels wide. *)
Definition drawn_from (vs : list point) (entity : list Z) (st : stroke) : Prop :=
  np_take vs entity = Ok (stroke_points st) /\
  stroke_fill st = "black" /\ stroke_width st = 5.

(** An entity has a line to draw when it lists two points or more. *)
Definition has_line (entity : list Z) : bool := (1 <? List.length entity)%nat.

(** The white canvas before any line is drawn. *)
Definition blank_canvas : Image := Image_new "RGB" (2000, 2000) "white".

(** Two states that differ at most in what was printed to stdout. *)
Definition same_but_stdout (s1 s2 : state) : Prop :=
  fs s1 = fs s2 /\ now s1 = now s2 /\
  stderr s1 = stderr s2 /\ trace s1 = trace s2.

(** The two lines that report a missing input. *)
Definition data_not_found (data_dir : path) : string :=
  "❌ Data directory not found: " +++ str_path data_dir.

Definition colmap_not_found (colmap_sparse_path : path) : string :=
  "❌ COLMAP data not found: " +++ str_path colmap_sparse_path.

(** [train_and_export_floorplan] of the script [v]. *)
Definition train_and_export_floorplan (v : script) (w : World)
  : path -> path -> path -> Z -> M bool :=
  match v with
  | floorplan_pipeline => FloorplanPipeline.train_and_export_floorplan w
  | nerfstudio_automate => NerfstudioAutomate.train_and_export_floorplan w
  end.

(** The command line of the trainer. *)
Definition train_cmd (data_dir output_dir : path) (max_iterations : Z)
  : list string :=
  ["ns-train"; "nerfacto";
   "--output-dir"; str_path output_dir;
   "--max-num-iterations"; str_int max_iterations;
   "colmap";
   "--data"; str_path data_dir;
   "--colmap-path"; "colmap/sparse/0"].

(** The directory the mesh is exported to, beside the configuration. *)
Definition export_dir_of (config_path : path) : path :=
  div_path (div_path (parent config_path) "exports") "mesh".

(** The command line of the exporter. *)
Definition export_cmd (config_path : path) : list string :=
  ["ns-export"; "poisson";
   "--load-config"; str_path config_path;
   "--output-dir"; str_path (export_dir_of config_path);
   "--num-points"; "1000000";
   "--remove-outliers"; "True"].

(** What the script [v] asks of its inputs, on the file system that the
    first [mkdir] leaves: [nerfstudio_automate.py] asks nothing. *)
Definition validated (v : script) (f1 : filesystem) (data colmap : path)
  : Prop :=
  match v with
  | floorplan_pipeline => exists_ f1 data = true /\ exists_ f1 colmap = true
  | nerfstudio_automate => True
  end.

(** The run reaches the trainer, which is started on the file system [f1]. *)
Definition reaches_training (v : script) (data colmap out : path) (s : state)
           (f1 : filesystem) : Prop :=
  mkdir_parents (now s) (fs s) [] out = Ok f1 /\ validated v f1 data colmap.

(** The trainer exits with status 0 and leaves the file system [f] at
    time [t]. *)
Definition trained (v : script) (w : World) (data colmap out : path)
           (iters : Z) (s : state) (f : filesystem) (t : Z) : Prop :=
  exists f1,
    reaches_training v data colmap out s f1 /\
    run_process w (train_cmd data out iters) f1 (now s) = Ok (0, f, t).

(** [sorted(files, key=mtime)[-1]] on the file system [f]. *)
Definition newest_of (f : filesystem) (files : list path) : result path :=
  last_item (sorted (mtime_of f) files).

(** The run reaches the exporter with the configuration [config]; the
    exporter is started on the file system [f2] at time [t]. *)
Definition reaches_export (v : script) (w : World) (data colmap out : path)
           (iters : Z) (s : state) (config : path) (f2 : filesystem) (t : Z)
  : Prop :=
  exists f,
    trained v w data colmap out iters s f t /\
    glob_rec f out "config.yml" <> [] /\
    newest_of f (glob_rec f out "config.yml") = Ok config /\
    mkdir_parents t f [] (export_dir_of config) = Ok f2.

(** The exporter exits with status 0 and leaves the file system [f3] at
    time [t3]. *)
Definition exported (v : script) (w : World) (data colmap out : path)
           (iters : Z) (s : state) (config : path) (f3 : filesystem) (t3 : Z)
  : Prop :=
  exists f2 t,
    reaches_export v w data colmap out iters s config f2 t /\
    run_process w (export_cmd config) f2 t = Ok (0, f3, t3).

(** The commands among the events of a trace. *)
Fixpoint spawned (l : list event) : list (list string) :=
  match l with
  | [] => []
  | Spawn cmd :: rest => cmd :: spawned rest
  | _ :: rest => spawned rest
  end.

(** The line that reports a caught exception. *)
Definition error_line (v : script) (e : exn) : string :=
  match v with
  | floorplan_pipeline => "❌ Error: " +++ exn_msg e
  | nerfstudio_automate => "❌ Error generating floor plan: " +++ exn_msg e
  end.

(** What a run of the rasterizer of the script [file] writes to stderr:
    the warnings of the normalization of the slice [warned], if the run got
    that far, and then the traceback of the exception [caught], if one was
    caught. *)
Definition stderr_report (w : World) (file : string)
           (warned : option Path2D) (caught : option exn) : list string :=
  match warned with
  | Some slice_2d => normalization_warnings w file slice_2d
  | None => []
  end ++
  match caught with
  | Some e => format_exc w file e
  | None => []
  end.

(** The run got as far as the normalization of the slice [warned], if
    there is one. *)
Definition reached_drawing (w : World) (s : state) (mesh_path out : path)
           (warned : option Path2D) : Prop :=
  match warned with
  | Some slice_2d => exists f2, sliced w s mesh_path out slice_2d f2
  | None => True
  end.

(** Two states with the same file system, clock and trace of calls. *)
Definition same_disk_and_calls (s1 s2 : state) : Prop :=
  fs s1 = fs s2 /\ now s1 = now s2 /\ trace s1 = trace s2.

(** Two runs, one of each script, from a state with the stderr [err]: they
    end with the same file system, clock and trace, and what they added to
    stderr reports the same warnings and the same exception, each in the
    words of its script.  Only stdout is left open. *)
Definition same_up_to_logging (w : World) (err : list string)
           (s1 s2 : state) : Prop :=
  same_disk_and_calls s1 s2 /\
  exists warned caught,
    stderr s1
    = err ++ stderr_report w FloorplanPipeline.file warned caught /\
    stderr s2
    = err ++ stderr_report w NerfstudioAutomate.file warned caught.

(** [p] and the directories on the way to it, from [done] on, are
    directories of [f]. *)
Fixpoint dirs_along (f : filesystem) (done todo : path) : bool :=
  match todo with
  | [] => true
  | c :: rest => is_dir f (done ++ [c]) && dirs_along f (done ++ [c]) rest
  end.

(** The file system and the clock that the GPU probe of
    [floorplan_pipeline.py] leaves: those of [nvidia-smi], or the ones it
    found when the program could not be started. *)
Definition probe_leaves (w : World) (s : state) : filesystem * Z :=
  match run_process w ["nvidia-smi"] (fs s) (now s) with
  | Ok (_, f, t) => (f, t)
  | Raise _ => (fs s, now s)
  end.

(** [i] is no index of an array of [n] rows. *)
Definition out_of_bounds (n : nat) (i : Z) : Prop :=
  i < - Z.of_nat n \/ Z.of_nat n <= i.

(** ** Worlds and disks for the examples *)

(** The three mesh files of the example. *)
Definition three_meshes : state :=
  mkState [(["a.ply"], File 1 (Blob "a"));
           (["b.ply"], File 3 (Blob "b"));
           (["c.ply"], File 2 (Blob "c"))] 4 [] [] [].

(** The unit square, with one entity that goes round it and one that
    lists a single point. *)
Definition unit_square : Path2D :=
  {| vertices := [(0, 0); (1, 0); (1, 1); (0, 1)]%Q;
     entities := [[0; 1; 2; 3; 0]; [2]] |}.

(** A mesh that spans the unit cube. *)
Definition unit_cube : Mesh :=
  {| mesh_vertices := [(0, 0, 0); (1, 1, 1)]%Q;
     mesh_bounds := Some ((0, 0, 0), (1, 1, 1))%Q |}.

(** How the example worlds word a floating-point event. *)
Definition flag_text (f : fpflag) : string :=
  match f with
  | DivideByZero => "divide by zero"
  | Overflow => "overflow"
  | Invalid => "invalid value"
  end.

(** A world in which every tool and library call goes through; the mesh
    is the unit cube and its section the unit square.  A traceback shows
    one stack entry, and every warning is shown. *)
Definition fair_world : World :=
  {| run_process := fun _ f t => Ok (0, f, t);
     trimesh_load := fun _ _ => Ok unit_cube;
     trimesh_section := fun _ _ _ =>
       Ok (Some {| p3_vertices := []; p3_entities := [] |});
     trimesh_to_planar := fun _ => Ok unit_square;
     export_fault := fun _ _ => None;
     line_fault := fun _ => None;
     save_fault := fun _ _ => None;
     repr_bounds := fun _ => "[[0. 0. 0.] [1. 1. 1.]]";
     repr_float := fun _ => "0.1";
     tb_frames := fun file _ =>
       ["  File " +++ file +++ ", in generate_floorplan_from_mesh"];
     np_warnings := fun file events =>
       map (fun ev => file +++ ": RuntimeWarning: " +++ flag_text (snd ev)
                      +++ " encountered in " +++ fst ev) events |}.

(** The same world, but the plane misses the mesh. *)
Definition no_section_world : World :=
  {| run_process := run_process fair_world;
     trimesh_load := trimesh_load fair_world;
     trimesh_section := fun _ _ _ => Ok None;
     trimesh_to_planar := trimesh_to_planar fair_world;
     export_fault := export_fault fair_world;
     line_fault := line_fault fair_world;
     save_fault := save_fault fair_world;
     repr_bounds := repr_bounds fair_world;
     repr_float := repr_float fair_world;
     tb_frames := tb_frames fair_world;
     np_warnings := np_warnings fair_world |}.

(** A slice without vertices whose entity still lists two indices. *)
Definition no_vertices_slice : Path2D :=
  {| vertices := []; entities := [[0; 1]] |}.

(** The fair world, but the section projects to that slice. *)
Definition no_vertices_world : World :=
  {| run_process := run_process fair_world;
     trimesh_load := trimesh_load fair_world;
     trimesh_section := trimesh_section fair_world;
     trimesh_to_planar := fun _ => Ok no_vertices_slice;
     export_fault := export_fault fair_world;
     line_fault := line_fault fair_world;
     save_fault := save_fault fair_world;
     repr_bounds := repr_bounds fair_world;
     repr_float := repr_float fair_world;
     tb_frames := tb_frames fair_world;
     np_warnings := np_warnings fair_world |}.

(** A slice whose two vertices share their X coordinate. *)
Definition flat_slice : Path2D :=
  {| vertices := [(1, 0); (1, 2)]%Q; entities := [[0; 1]] |}.

(** The fair world, but the section projects to the flat slice. *)
Definition flat_world : World :=
  {| run_process := run_process fair_world;
     trimesh_load := trimesh_load fair_world;
     trimesh_section := trimesh_section fair_world;
     trimesh_to_planar := fun _ => Ok flat_slice;
     export_fault := export_fault fair_world;
     line_fault := line_fault fair_world;
     save_fault := save_fault fair_world;
     repr_bounds := repr_bounds fair_world;
     repr_float := repr_float fair_world;
     tb_frames := tb_frames fair_world;
     np_warnings := np_warnings fair_world |}.

(** A world in which the PNG cannot be saved. *)
Definition save_fails_world : World :=
  {| run_process := run_process fair_world;
     trimesh_load := trimesh_load fair_world;
     trimesh_section := trimesh_section fair_world;
     trimesh_to_planar := trimesh_to_planar fair_world;
     export_fault := export_fault fair_world;
     line_fault := line_fault fair_world;
     save_fault := fun _ _ => Some (Exn "OSError" "No space left on device");
     repr_bounds := repr_bounds fair_world;
     repr_float := repr_float fair_world;
     tb_frames := tb_frames fair_world;
     np_warnings := np_warnings fair_world |}.

(** A slice that is wider than float64 can tell: its extent on the X axis
    is [2^1024]. *)
Definition wide_slice : Path2D :=
  {| vertices := [(- inject_Z (2 ^ 1023), 0); (0, 1); (inject_Z (2 ^ 1023), 2)]%Q;
     entities := [[0; 1; 2]] |}.

(** The fair world, but the section projects to the wide slice. *)
Definition wide_world : World :=
  {| run_process := run_process fair_world;
     trimesh_load := trimesh_load fair_world;
     trimesh_section := trimesh_section fair_world;
     trimesh_to_planar := fun _ => Ok wide_slice;
     export_fault := export_fault fair_world;
     line_fault := line_fault fair_world;
     save_fault := save_fault fair_world;
     repr_bounds := repr_bounds fair_world;
     repr_float := repr_float fair_world;
     tb_frames := tb_frames fair_world;
     np_warnings := np_warnings fair_world |}.

(** An empty disk at time 7. *)
Definition blank_state : state := mkState [] 7 [] [] [].

(** A disk that holds the root directory and nothing else. *)
Definition root_state : state := mkState [([""], Dir 0)] 7 [] [] [].

(** A disk on which the output directory is there already. *)
Definition output_there : state :=
  mkState [(["output"], Dir 1); (["output"; "room_1"], Dir 1)] 7 [] [] [].

(** A disk that holds the data directory and the COLMAP reconstruction. *)
Definition ready_state : state :=
  mkState [(["data"], Dir 1); (["data"; "room_1"], Dir 1);
           (["data"; "room_1"; "colmap"], Dir 1);
           (["data"; "room_1"; "colmap"; "sparse"], Dir 1);
           (["data"; "room_1"; "colmap"; "sparse"; "0"], Dir 1)]
          7 [] [] [].

(** The paths of the example run. *)
Definition room_data : path := ["data"; "room_1"].
Definition room_colmap : path := ["data"; "room_1"; "colmap"; "sparse"; "0"].
Definition room_out : path := ["output"; "room_1"].
Definition room_config : path :=
  ["output"; "room_1"; "nerfacto"; "config.yml"].
Definition room_mesh : path :=
  ["output"; "room_1"; "nerfacto"; "exports"; "mesh"; "poisson_mesh.ply"].

(** Tools that leave their results on disk: the trainer exits with
    [train_rc] after writing a configuration below the output directory,
    the exporter exits with [export_rc] and, if [writes_mesh], has written
    a mesh into the export directory.  Each takes one tick of the clock. *)
Definition studio_run (train_rc export_rc : Z) (writes_mesh : bool)
           (cmd : list string) (f : filesystem) (t : Z)
  : result (Z * filesystem * Z) :=
  match cmd with
  | tool :: _ =>
      if String.eqb tool "ns-train" then
        Ok (train_rc,
            f ++ [(["output"; "room_1"; "nerfacto"], Dir t);
                  (room_config, File t (Blob "config"))],
            t + 1)
      else if String.eqb tool "ns-export" then
        Ok (export_rc,
            if writes_mesh then f ++ [(room_mesh, File t (Blob "mesh"))]
            else f,
            t + 1)
      else Ok (0, f, t)
  | [] => Ok (0, f, t)
  end.

(** The fair world with these tools. *)
Definition studio (train_rc export_rc : Z) (writes_mesh : bool) : World :=
  {| run_process := studio_run train_rc export_rc writes_mesh;
     trimesh_load := trimesh_load fair_world;
     trimesh_section := trimesh_section fair_world;
     trimesh_to_planar := trimesh_to_planar fair_world;
     export_fault := export_fault fair_world;
     line_fault := line_fault fair_world;
     save_fault := save_fault fair_world;
     repr_bounds := repr_bounds fair_world;
     repr_float := repr_float fair_world;
     tb_frames := tb_frames fair_world;
     np_warnings := np_warnings fair_world |}.

(** The disk of [ready_state] as the run goes on: with the output
    directory, after the training, with the export directory, and after
    the export. *)
Definition ready_out : filesystem :=
  fs ready_state ++ [(["output"], Dir 7); (room_out, Dir 7)].

Definition trained_disk : filesystem :=
  ready_out ++ [(["output"; "room_1"; "nerfacto"], Dir 7);
                (room_config, File 7 (Blob "config"))].

Definition export_ready_disk : filesystem :=
  trained_disk ++ [(["output"; "room_1"; "nerfacto"; "exports"], Dir 8);
                   (["output"; "room_1"; "nerfacto"; "exports"; "mesh"], Dir 8)].

Definition exported_disk : filesystem :=
  export_ready_disk ++ [(room_mesh, File 8 (Blob "mesh"))].

(** A mesh without vertices: it has no bounds. *)
Definition empty_mesh : Mesh := {| mesh_vertices := []; mesh_bounds := None |}.

(** The fair world, but the file holds the empty mesh. *)
Definition empty_mesh_world : World :=
  {| run_process := run_process fair_world;
     trimesh_load := fun _ _ => Ok empty_mesh;
     trimesh_section := trimesh_section fair_world;
     trimesh_to_planar := trimesh_to_planar fair_world;
     export_fault := export_fault fair_world;
     line_fault := line_fault fair_world;
     save_fault := save_fault fair_world;
     repr_bounds := fun _ => "None";
     repr_float := repr_float fair_world;
     tb_frames := tb_frames fair_world;
     np_warnings := np_warnings fair_world |}.

(** A slice of two vertices whose second entity lists a third. *)
Definition stray_index_slice : Path2D :=
  {| vertices := [(0, 0); (1, 1)]%Q; entities := [[0; 1]; [1; 2]] |}.

(** The fair world, but the section projects to that slice. *)
Definition stray_index_world : World :=
  {| run_process := run_process fair_world;
     trimesh_load := trimesh_load fair_world;
     trimesh_section := trimesh_section fair_world;
     trimesh_to_planar := fun _ => Ok stray_index_slice;
     export_fault := export_fault fair_world;
     line_fault := line_fault fair_world;
     save_fault := save_fault fair_world;
     repr_bounds := repr_bounds fair_world;
     repr_float := repr_float fair_world;
     tb_frames := tb_frames fair_world;
     np_warnings := np_warnings fair_world |}.

(* ================================================================== *)
(** ** Facts about the Python values *)

Section SortedFacts.
Variable A : Type.
Variable key : A -> Z.

Lemma insert_perm (x : A) (l : list A) :
  Permutation (insert key x l) (x :: l).
Proof.
  induction l as [|y ys IH]; simpl.
  - apply Permutation_refl.
  - destruct (key x <=? key y).
    + apply Permutation_refl.
    + apply perm_trans with (y :: x :: ys).
      * now apply perm_skip.
      * apply perm_swap.
Qed.

Lemma sorted_perm (l : list A) : Permutation (sorted key l) l.
Proof.
  induction l as [|x xs IH]; simpl.
  - apply perm_nil.
  - apply perm_trans with (x :: sorted key xs).
    + apply insert_perm.
    + now apply perm_skip.
Qed.

Lemma insert_sorted (x : A) (l : list A) :
  StronglySorted (key_le key) l -> StronglySorted (key_le key) (insert key x l).
Proof.
  induction 1 as [|y ys Hs IH Hy]; simpl.
  - repeat constructor.
  - destruct (key x <=? key y) eqn:E.
    + apply Z.leb_le in E. constructor.
      * now constructor.
      * constructor; [exact E|].
        eapply Forall_impl; [|exact Hy].
        intros z Hz. unfold key_le in *. lia.
    + apply Z.leb_gt in E. constructor; [exact IH|].
      eapply Permutation_Forall.
      * apply Permutation_sym, insert_perm.
      * constructor; [unfold key_le; lia | exact Hy].
Qed.

(** The result of [sorted] is in non-decreasing key order. *)
Lemma sorted_StronglySorted (l : list A) : StronglySorted (key_le key) (sorted key l).
Proof.
  induction l as [|x xs IH]; simpl.
  - constructor.
  - now apply insert_sorted.
Qed.

Lemma filter_insert (k : Z) (x : A) (l : list A) :
  filter (fun y => key y =? k) (insert key x l)
  = filter (fun y => key y =? k) (x :: l).
Proof.
  induction l as [|y ys IH]; [reflexivity|].
  simpl insert. destruct (key x <=? key y) eqn:E; [reflexivity|].
  apply Z.leb_gt in E.
  change (filter (fun y0 => key y0 =? k) (y :: insert key x ys))
    with (if key y =? k then y :: filter (fun y0 => key y0 =? k) (insert key x ys)
          else filter (fun y0 => key y0 =? k) (insert key x ys)).
  rewrite IH. simpl.
  destruct (key x =? k) eqn:Ex, (key y =? k) eqn:Ey; try reflexivity.
  apply Z.eqb_eq in Ex, Ey. lia.
Qed.

(** The sort is stable: the elements of one key keep their order. *)
Lemma sorted_stable (k : Z) (l : list A) :
  filter (fun y => key y =? k) (sorted key l)
  = filter (fun y => key y =? k) l.
Proof.
  induction l as [|x xs IH]; [reflexivity|].
  simpl sorted. rewrite filter_insert. simpl. now rewrite IH.
Qed.

Lemma last_item_cons (x y : A) (l : list A) :
  last_item (x :: y :: l) = last_item (y :: l).
Proof. reflexivity. Qed.

Lemma last_item_insert_le (a x : A) (l : list A) :
  last_item l = Ok x -> key a <= key x ->
  last_item (insert key a l) = Ok x.
Proof.
  induction l as [|y ys IH]; intros Hl Ha; [discriminate|].
  simpl insert. destruct (key a <=? key y) eqn:E.
  - now rewrite last_item_cons.
  - apply Z.leb_gt in E. destruct ys as [|z zs].
    + simpl in Hl. injection Hl as ->. lia.
    + rewrite last_item_cons in Hl. specialize (IH Hl Ha).
      destruct (insert key a (z :: zs)) eqn:Ei.
      * destruct (key a <=? key z); discriminate.
      * now rewrite last_item_cons.
Qed.

Lemma last_item_insert_gt (a : A) (l : list A) :
  Forall (fun y => key y < key a) l ->
  last_item (insert key a l) = Ok a.
Proof.
  induction 1 as [|y ys Hy _ IH]; [reflexivity|].
  simpl insert. destruct (key a <=? key y) eqn:E.
  - apply Z.leb_le in E. lia.
  - destruct (insert key a ys) eqn:Ei; [discriminate|].
    now rewrite last_item_cons.
Qed.

(** What [sorted(l, key=key)[-1]] is for a non-empty [l]: an element of
    greatest key, and of those the one that comes last in [l]. *)
Lemma last_item_sorted (l : list A) :
  l <> [] ->
  exists x l1 l2,
    last_item (sorted key l) = Ok x /\ l = l1 ++ x :: l2 /\
    Forall (fun y => key y <= key x) l1 /\
    Forall (fun y => key y < key x) l2.
Proof.
  induction l as [|a l' IH]; intros Hne; [congruence|].
  destruct l' as [|b l''].
  - exists a, [], []. repeat split; constructor.
  - destruct IH as (x & l1 & l2 & Hlast & Heq & H1 & H2); [discriminate|].
    simpl sorted in *. fold (sorted key (b :: l'')) in *.
    destruct (Z_le_gt_dec (key a) (key x)) as [Hle|Hgt].
    + exists x, (a :: l1), l2. repeat split; auto.
      * change (last_item (insert key a (sorted key (b :: l''))) = Ok x).
        now apply last_item_insert_le.
      * simpl. now rewrite Heq.
    + exists a, [], (b :: l''). repeat split; auto.
      * change (last_item (insert key a (sorted key (b :: l''))) = Ok a).
        apply last_item_insert_gt.
        eapply Permutation_Forall; [apply Permutation_sym, sorted_perm|].
        rewrite Heq. apply Forall_app. split.
        -- eapply Forall_impl; [|exact H1]. simpl. intros; lia.
        -- constructor; [lia|].
           eapply Forall_impl; [|exact H2]. simpl. intros; lia.
      * rewrite Heq. apply Forall_app. split.
        -- eapply Forall_impl; [|exact H1]. simpl. intros; lia.
        -- constructor; [lia|].
           eapply Forall_impl; [|exact H2]. simpl. intros; lia.
Qed.
End SortedFacts.

Lemma map_M_stat (s : state) (files : list path) :
  Forall (fun p => lookup (fs s) p <> None) files ->
  map_M (fun x => t <- stat_mtime x ;; ret (t, x)) files s
  = (Ok (map (fun p => (mtime_of (fs s) p, p)) files), s).
Proof.
  induction 1 as [|p ps Hp _ IH]; [reflexivity|].
  simpl. unfold bind in *. unfold stat_mtime at 1. unfold mtime_of at 1.
  destruct (lookup (fs s) p) as [n|]; [|congruence].
  unfold ret at 1. rewrite IH. reflexivity.
Qed.

Lemma insert_decorated (k : path -> Z) (p : path) (l : list (Z * path)) :
  Forall (fun e : Z * path => fst e = k (snd e)) l ->
  map snd (insert fst (k p, p) l) = insert k p (map snd l).
Proof.
  induction 1 as [|e es He _ IH]; [reflexivity|].
  simpl. rewrite He. destruct (k p <=? k (snd e)); [reflexivity|].
  simpl. now rewrite IH.
Qed.

(** Sorting the decorated list on its keys sorts the files on their keys. *)
Lemma sorted_decorated (k : path -> Z) (files : list path) :
  map snd (sorted fst (map (fun p => (k p, p)) files)) = sorted k files.
Proof.
  induction files as [|p ps IH]; [reflexivity|].
  simpl. rewrite insert_decorated, IH; [reflexivity|].
  eapply Permutation_Forall; [apply Permutation_sym, sorted_perm|].
  apply Forall_forall. intros e He. apply in_map_iff in He.
  destruct He as (q & <- & _). reflexivity.
Qed.

(** [newest] runs without touching the state and yields the last element
    of the files sorted on their modification times. *)
Lemma newest_run (s : state) (files : list path) :
  Forall (fun p => lookup (fs s) p <> None) files ->
  newest files s = (last_item (sorted (mtime_of (fs s)) files), s).
Proof.
  intros H. unfold newest, bind. rewrite map_M_stat by assumption.
  unfold lift. now rewrite sorted_decorated.
Qed.

Lemma path_eqb_spec (p q : path) : reflect (p = q) (path_eqb p q).
Proof.
  revert q. induction p as [|a p IH]; intros [|b q]; simpl;
    try (constructor; congruence).
  destruct (String.eqb_spec a b) as [->|Hne]; simpl.
  - destruct (IH q) as [->|Hne]; constructor; congruence.
  - constructor. congruence.
Qed.

Lemma path_eqb_refl (p : path) : path_eqb p p = true.
Proof. destruct (path_eqb_spec p p); congruence. Qed.

Lemma lookup_In (f : filesystem) (p : path) (n : node) :
  In (p, n) f -> lookup f p <> None.
Proof.
  induction f as [|[q m] rest IH]; simpl; [tauto|].
  intros [H|H]; destruct (path_eqb_spec q p); try discriminate; auto.
  injection H as -> ->. congruence.
Qed.

(** Every path a glob yields is in the file system, so its [stat] works. *)
Lemma glob_rec_found (f : filesystem) (dir : path) (name : string) :
  Forall (fun p => lookup f p <> None) (glob_rec f dir name).
Proof.
  apply Forall_forall. intros p Hp. unfold glob_rec in Hp.
  apply in_map_iff in Hp. destruct Hp as ([q n] & <- & Hq).
  apply filter_In in Hq. eapply lookup_In, Hq.
Qed.

Lemma glob_ext_found (f : filesystem) (dir : path) (ext : string) :
  Forall (fun p => lookup f p <> None) (glob_ext f dir ext).
Proof.
  apply Forall_forall. intros p Hp. unfold glob_ext in Hp.
  apply in_map_iff in Hp. destruct Hp as ([q n] & <- & Hq).
  apply filter_In in Hq. eapply lookup_In, Hq.
Qed.

(** C1. [sorted] is a stable sort on the modification times: its result
    is a permutation in non-decreasing order in which the files of one
    time keep their order.  The selection step
    [sorted(files, key=mtime)[-1]], used for [config.yml] and for [*.ply]
    alike, returns for every non-empty list of existing files the last
    element of that sorted list: a file of greatest modification time, and
    among those of that time the one that comes last.  For a.ply (mtime 1),
    b.ply (mtime 3), c.ply (mtime 2) it returns b.ply. *)
Theorem newest_selects_latest :
  (forall (s : state) (files : list path),
      Permutation (sorted (mtime_of (fs s)) files) files /\
      StronglySorted (key_le (mtime_of (fs s)))
                     (sorted (mtime_of (fs s)) files) /\
      forall t, filter (fun p => mtime_of (fs s) p =? t)
                       (sorted (mtime_of (fs s)) files)
                = filter (fun p => mtime_of (fs s) p =? t) files) /\
  (forall (s : state) (files : list path),
      files <> [] ->
      Forall (fun p => lookup (fs s) p <> None) files ->
      exists f before after,
        newest files s = (Ok f, s) /\
        last_item (sorted (mtime_of (fs s)) files) = Ok f /\
        files = before ++ f :: after /\
        Forall (fun g => mtime_of (fs s) g <= mtime_of (fs s) f) before /\
        Forall (fun g => mtime_of (fs s) g < mtime_of (fs s) f) after) /\
  newest [["a.ply"]; ["b.ply"]; ["c.ply"]] three_meshes
  = (Ok ["b.ply"], three_meshes).
Proof.
  split; [|split; [|reflexivity]].
  { intros s files. split; [apply sorted_perm|].
    split; [apply sorted_StronglySorted|].
    intros t. apply sorted_stable. }
  intros s files Hne Hex.
  destruct (@last_item_sorted _ (mtime_of (fs s)) files Hne)
    as (f & before & after & Hlast & Heq & Hb & Ha).
  exists f, before, after. rewrite newest_run by assumption. rewrite Hlast. auto.
Qed.

Lemma newest_selects_latest_witness :
  exists f before after,
    newest [["a.ply"]; ["b.ply"]; ["c.ply"]] three_meshes = (Ok f, three_meshes) /\
    last_item (sorted (mtime_of (fs three_meshes))
                      [["a.ply"]; ["b.ply"]; ["c.ply"]]) = Ok f /\
    [["a.ply"]; ["b.ply"]; ["c.ply"]] = before ++ f :: after /\
    Forall (fun g => mtime_of (fs three_meshes) g <= mtime_of (fs three_meshes) f)
           before /\
    Forall (fun g => mtime_of (fs three_meshes) g < mtime_of (fs three_meshes) f)
           after.
Proof.
  apply (proj1 (proj2 newest_selects_latest) three_meshes).
  - discriminate.
  - repeat constructor; discriminate.
Defined.

(* ================================================================== *)
(** ** Running the rasterizer *)

Local Arguments String.append : simpl never.
Local Arguments String.concat : simpl never.
Local Arguments str_mul : simpl never.
Local Arguments str_path : simpl never.
Local Arguments str_int : simpl never.

Lemma for_each_pure {A S} (body : A -> S -> M S) (f : A -> S -> result S) :
  (forall x acc s, body x acc s = (f x acc, s)) ->
  forall l acc s, for_each l body acc s = (fold_result f l acc, s).
Proof.
  intros Hbody. induction l as [|x xs IH]; intros acc s; [reflexivity|].
  simpl. unfold bind. rewrite Hbody.
  destruct (f x acc); [apply IH | reflexivity].
Qed.

Lemma add_stderr_twice (s : state) (l1 l2 : list string) :
  add_stderr (add_stderr s l1) l2 = add_stderr s (l1 ++ l2).
Proof. unfold add_stderr. simpl. now rewrite app_assoc. Qed.

Lemma add_stderr_nil (s : state) : add_stderr s [] = s.
Proof. destruct s. unfold add_stderr. simpl. now rewrite app_nil_r. Qed.

(** The drawing part computes [paint] and writes the warnings of the
    normalization. *)
Lemma paint_block_run (w : World) (file : string) (slice_2d : Path2D)
      (s : state) :
  paint_block w file slice_2d s
  = (paint w slice_2d, add_stderr s (normalization_warnings w file slice_2d)).
Proof.
  unfold paint_block, paint, normalization_warnings.
  destruct (vertices slice_2d) as [|v0 vs].
  - simpl. now rewrite add_stderr_nil.
  - change (0 <? List.length (v0 :: vs))%nat with true. cbv iota.
    destruct (amin (v0 :: vs)) as [lo|e] eqn:Elo; [|discriminate Elo].
    destruct (amax (v0 :: vs)) as [hi|e] eqn:Ehi; [|discriminate Ehi].
    unfold bind at 1, lift at 1. unfold bind at 1, lift at 1.
    unfold bind at 1, np_warn at 1. unfold bind at 1, np_warn at 1.
    rewrite add_stderr_twice.
    apply for_each_pure. intros entity img s0.
    unfold bind, lift, draw_entity, draw_line, ret, raise.
    destruct (np_take _ entity) as [points|e]; [|reflexivity].
    destruct (1 <? List.length points)%nat; [|reflexivity].
    destruct (line_fault w points); reflexivity.
Qed.

Local Arguments normalization_warnings : simpl never.
Local Arguments format_exc : simpl never.

Ltac unfold_script :=
  unfold generate_floorplan_from_mesh,
    FloorplanPipeline.generate_floorplan_from_mesh,
    NerfstudioAutomate.generate_floorplan_from_mesh,
    bind, try_except, mkdir, print, print_exc, load, section, bounds_min_z,
    ret, raise, to_planar, lift, export, save, set_fs, log_event.

(** Name the drawing part where it shows up applied to a state. *)
Ltac fold_paint w :=
  match goal with
  | |- context C [match (0 <? List.length (vertices ?p))%nat with _ => _ end ?s] =>
      first
        [ let g := context C [paint_block w FloorplanPipeline.file p s] in
          change g; rewrite (paint_block_run w FloorplanPipeline.file p s)
        | let g := context C [paint_block w NerfstudioAutomate.file p s] in
          change g; rewrite (paint_block_run w NerfstudioAutomate.file p s) ]
  end.

(** One step of a run: use what is known about the next call, or split on
    its outcome. *)
Ltac run_step w :=
  first
    [ fold_paint w
    | match goal with
      | H : ?x = _ |- context [match ?x with _ => _ end] => rewrite H
      end
    | match goal with
      | |- context [match ?x with _ => _ end] =>
          lazymatch x with
          | context [match _ with _ => _ end] => fail
          | _ => destruct x eqn:?
          end
      end ]; simpl.

Ltac run_script w := unfold_script; simpl; repeat run_step w.

(* ================================================================== *)
(** ** Facts about the file system *)

Lemma lookup_app_found (f g : filesystem) (p : path) (n : node) :
  lookup f p = Some n -> lookup (f ++ g) p = Some n.
Proof.
  induction f as [|[q m] rest IH]; simpl; [discriminate|].
  destruct (path_eqb q p); auto.
Qed.

Lemma lookup_app_new (f : filesystem) (p q : path) (n : node) :
  lookup f q = None ->
  lookup (f ++ [(p, n)]) q = if path_eqb p q then Some n else None.
Proof.
  induction f as [|[r m] rest IH]; simpl; [reflexivity|].
  destruct (path_eqb r q); [discriminate | exact IH].
Qed.

Lemma is_prefix_app (p r : path) : is_prefix p (p ++ r) = true.
Proof.
  induction p as [|a p IH]; [reflexivity|].
  simpl. now rewrite String.eqb_refl.
Qed.

Lemma is_prefix_longer (p : path) (x : string) : is_prefix (p ++ [x]) p = false.
Proof.
  induction p as [|a p IH]; [reflexivity|].
  simpl. rewrite IH. apply andb_false_r.
Qed.

Lemma app_one_neq (p : path) (x : string) : p ++ [x] <> p.
Proof.
  intros H. apply (f_equal (@List.length string)) in H.
  rewrite length_app in H. simpl in H. lia.
Qed.

(** [mkdir] leaves alone every path that is not the directory or one of
    its ancestors. *)
Lemma mkdir_parents_other (t : Z) (todo : path) :
  forall (f f' : filesystem) (done q : path),
    mkdir_parents t f done todo = Ok f' ->
    is_prefix q (done ++ todo) = false ->
    lookup f' q = lookup f q.
Proof.
  induction todo as [|c rest IH]; intros f f' done q Hm Hq; simpl in Hm.
  - now injection Hm as <-.
  - replace (done ++ c :: rest) with ((done ++ [c]) ++ rest) in Hq
      by (now rewrite <- app_assoc).
    destruct (lookup f (done ++ [c])) as [[t'|t' c']|] eqn:Hl.
    + eapply IH; eauto.
    + discriminate.
    + rewrite (IH _ _ _ _ Hm Hq).
      destruct (lookup f q) as [n|] eqn:Hfq.
      * now apply lookup_app_found.
      * rewrite lookup_app_new by assumption.
        destruct (path_eqb_spec (done ++ [c]) q) as [<-|]; [|reflexivity].
        now rewrite is_prefix_app in Hq.
Qed.

(** [mkdir] keeps every entry that was there. *)
Lemma mkdir_parents_keeps (t : Z) (todo : path) :
  forall (f f' : filesystem) (done q : path) (n : node),
    mkdir_parents t f done todo = Ok f' ->
    lookup f q = Some n -> lookup f' q = Some n.
Proof.
  induction todo as [|c rest IH]; intros f f' done q n Hm Hq; simpl in Hm.
  - now injection Hm as <-.
  - destruct (lookup f (done ++ [c])) as [[t'|t' c']|] eqn:Hl.
    + eapply IH; eauto.
    + discriminate.
    + eapply IH; eauto. now apply lookup_app_found.
Qed.

Lemma is_dir_snoc (f : filesystem) (p : path) (c : string) :
  is_dir f (p ++ [c]) =
  match lookup f (p ++ [c]) with Some (Dir _) => true | _ => false end.
Proof. unfold is_dir. destruct p; reflexivity. Qed.

(** After [mkdir] the directory is there. *)
Lemma mkdir_parents_is_dir (t : Z) (todo : path) :
  forall (f f' : filesystem) (done : path),
    is_dir f done = true ->
    mkdir_parents t f done todo = Ok f' ->
    is_dir f' (done ++ todo) = true.
Proof.
  induction todo as [|c rest IH]; intros f f' done Hd Hm; simpl in Hm.
  - injection Hm as <-. now rewrite app_nil_r.
  - replace (done ++ c :: rest) with ((done ++ [c]) ++ rest)
      by (now rewrite <- app_assoc).
    destruct (lookup f (done ++ [c])) as [[t'|t' c']|] eqn:Hl.
    + eapply IH; eauto. rewrite is_dir_snoc. now rewrite Hl.
    + discriminate.
    + eapply IH; eauto. rewrite is_dir_snoc.
      rewrite lookup_app_new by assumption.
      now rewrite path_eqb_refl.
Qed.

(** [mkdir] tolerates what is there: where the directories exist
    already, it succeeds and changes nothing. *)
Lemma mkdir_parents_existing (t : Z) (todo : path) :
  forall (f : filesystem) (done : path),
    dirs_along f done todo = true -> mkdir_parents t f done todo = Ok f.
Proof.
  induction todo as [|c rest IH]; intros f done H; [reflexivity|].
  simpl in H. apply andb_prop in H. destruct H as [Hd Hrest].
  rewrite is_dir_snoc in Hd. simpl.
  destruct (lookup f (done ++ [c])) as [[t'|t' c']|]; try discriminate.
  now apply IH.
Qed.

(** After [mkdir] the directory and those on the way to it are there. *)
Lemma mkdir_parents_dirs_along (t : Z) (todo : path) :
  forall (f f' : filesystem) (done : path),
    mkdir_parents t f done todo = Ok f' -> dirs_along f' done todo = true.
Proof.
  induction todo as [|c rest IH]; intros f f' done Hm; [reflexivity|].
  simpl in Hm. simpl. apply andb_true_intro.
  destruct (lookup f (done ++ [c])) as [[t'|t' c']|] eqn:Hl.
  - split; [|eapply IH; eauto].
    rewrite is_dir_snoc.
    now rewrite (mkdir_parents_keeps _ _ _ _ _ _ _ Hm Hl).
  - discriminate.
  - split; [|eapply IH; eauto].
    rewrite is_dir_snoc.
    rewrite (mkdir_parents_keeps t rest _ f' (done ++ [c]) (done ++ [c])
               (Dir t) Hm); [reflexivity|].
    rewrite lookup_app_new by assumption. simpl. now rewrite path_eqb_refl.
Qed.

Lemma lookup_replace_same (f : filesystem) (p : path) (n : node) :
  lookup (replace_node f p n) p = Some n.
Proof.
  induction f as [|[q m] rest IH]; simpl.
  - now rewrite path_eqb_refl.
  - destruct (path_eqb q p) eqn:E; simpl.
    + now rewrite E.
    + now rewrite E.
Qed.

Lemma lookup_replace_other (f : filesystem) (p q : path) (n : node) :
  p <> q -> lookup (replace_node f p n) q = lookup f q.
Proof.
  intros Hne. induction f as [|[r m] rest IH]; simpl.
  - destruct (path_eqb_spec p q); congruence.
  - destruct (path_eqb_spec r p) as [->|Hrp]; simpl.
    + destruct (path_eqb_spec p q); congruence.
    + destruct (path_eqb r q); congruence.
Qed.

Lemma write_file_same (t : Z) (f f' : filesystem) (p : path) (c : content) :
  write_file t f p c = Ok f' -> lookup f' p = Some (File t c).
Proof.
  unfold write_file. destruct (negb (is_dir f (parent p))); [discriminate|].
  destruct (lookup f p) as [[?|? ?]|]; try discriminate;
    intros H; injection H as <-; apply lookup_replace_same.
Qed.

Lemma write_file_other (t : Z) (f f' : filesystem) (p q : path) (c : content) :
  write_file t f p c = Ok f' -> p <> q -> lookup f' q = lookup f q.
Proof.
  unfold write_file. destruct (negb (is_dir f (parent p))); [discriminate|].
  destruct (lookup f p) as [[?|? ?]|]; try discriminate;
    intros H Hne; injection H as <-; now apply lookup_replace_other.
Qed.

Lemma write_file_is_dir (t : Z) (f f' : filesystem) (p q : path) (c : content) :
  write_file t f p c = Ok f' -> p <> q -> is_dir f' q = is_dir f q.
Proof.
  intros Hw Hne. unfold is_dir. now rewrite (write_file_other _ _ _ _ _ _ Hw Hne).
Qed.

(* ================================================================== *)
(** ** The rasterizer, [generate_floorplan_from_mesh] *)

(** C4. When the section at the computed height is empty ([mesh.section]
    returns [None]), [generate_floorplan_from_mesh] returns [False] in both
    scripts; the file system is the one [mkdir] left, so neither
    floorplan.svg nor floorplan.png is written or changed, and the trace
    holds one single section call: there is no second attempt at another
    height. *)
Theorem empty_section_fails (v : script) (w : World) (mesh_path out : path)
        (s : state) (f1 : filesystem) (mesh : Mesh) (lo hi : vec3) :
  mkdir_parents (now s) (fs s) [] out = Ok f1 ->
  trimesh_load w f1 mesh_path = Ok mesh ->
  mesh_bounds mesh = Some (lo, hi) ->
  trimesh_section w mesh (0, 0, snd lo + (1 # 10))%Q (0, 0, 1)%Q = Ok None ->
  exists s',
    generate_floorplan_from_mesh v w mesh_path out s = (Ok false, s') /\
    fs s' = f1 /\
    lookup (fs s') (svg_path out) = lookup (fs s) (svg_path out) /\
    lookup (fs s') (png_path out) = lookup (fs s) (png_path out) /\
    trace s' = trace s ++
      [MeshLoad mesh_path;
       MeshSection mesh (0, 0, snd lo + (1 # 10))%Q (0, 0, 1)%Q].
Proof.
  intros Hmk Hload Hb Hsec.
  assert (Hsvg : lookup f1 (svg_path out) = lookup (fs s) (svg_path out)).
  { eapply mkdir_parents_other; [exact Hmk|]. apply is_prefix_longer. }
  assert (Hpng : lookup f1 (png_path out) = lookup (fs s) (png_path out)).
  { eapply mkdir_parents_other; [exact Hmk|]. apply is_prefix_longer. }
  destruct v; run_script w; eexists; (split; [reflexivity|]); simpl;
    rewrite <- app_assoc; auto.
Qed.

Lemma empty_section_fails_witness :
  exists s',
    generate_floorplan_from_mesh floorplan_pipeline no_section_world
      ["mesh.ply"] ["out"; "floorplan"] blank_state = (Ok false, s') /\
    fs s' = [(["out"], Dir 7); (["out"; "floorplan"], Dir 7)] /\
    lookup (fs s') (svg_path ["out"; "floorplan"])
    = lookup (fs blank_state) (svg_path ["out"; "floorplan"]) /\
    lookup (fs s') (png_path ["out"; "floorplan"])
    = lookup (fs blank_state) (png_path ["out"; "floorplan"]) /\
    trace s' = trace blank_state ++
      [MeshLoad ["mesh.ply"];
       MeshSection unit_cube (0, 0, snd (0, 0, 0)%Q + (1 # 10))%Q (0, 0, 1)%Q].
Proof.
  apply (empty_section_fails floorplan_pipeline no_section_world
           ["mesh.ply"] ["out"; "floorplan"] blank_state
           [(["out"], Dir 7); (["out"; "floorplan"], Dir 7)]
           unit_cube (0, 0, 0)%Q (1, 1, 1)%Q); reflexivity.
Defined.

(** C5. Whenever the mesh loads and has bounds, both scripts ask for one
    section, through the plane with origin [(0, 0, min_z + 0.1)], where
    [min_z] is the Z coordinate of the lower corner of the bounding box
    taken as it is, and with normal [(0, 0, 1)]. *)
Theorem slicing_plane (v : script) (w : World) (mesh_path out : path)
        (s : state) (f1 : filesystem) (mesh : Mesh) (lo hi : vec3) :
  mkdir_parents (now s) (fs s) [] out = Ok f1 ->
  trimesh_load w f1 mesh_path = Ok mesh ->
  mesh_bounds mesh = Some (lo, hi) ->
  trace (snd (generate_floorplan_from_mesh v w mesh_path out s))
  = trace s ++
      [MeshLoad mesh_path;
       MeshSection mesh (0, 0, snd lo + (1 # 10))%Q (0, 0, 1)%Q].
Proof.
  intros Hmk Hload Hb.
  destruct v; run_script w; rewrite <- app_assoc; reflexivity.
Qed.

Lemma slicing_plane_witness :
  trace (snd (generate_floorplan_from_mesh nerfstudio_automate fair_world
                ["mesh.ply"] ["out"; "floorplan"] blank_state))
  = trace blank_state ++
      [MeshLoad ["mesh.ply"];
       MeshSection unit_cube (0, 0, snd (0, 0, 0)%Q + (1 # 10))%Q (0, 0, 1)%Q].
Proof.
  apply (slicing_plane nerfstudio_automate fair_world
           ["mesh.ply"] ["out"; "floorplan"] blank_state
           [(["out"], Dir 7); (["out"; "floorplan"], Dir 7)]
           unit_cube (0, 0, 0)%Q (1, 1, 1)%Q); reflexivity.
Defined.

Ltac open_sliced H :=
  destruct H as (?f1 & ?mesh & ?lo & ?hi & ?slice_3d &
                 ?Hmk & ?Hload & ?Hbounds & ?Hsection & ?Hplanar &
                 ?Hexport & ?Hsvg).

Lemma fair_world_sliced :
  sliced fair_world blank_state ["mesh.ply"] ["out"; "floorplan"] unit_square
    [(["out"], Dir 7); (["out"; "floorplan"], Dir 7);
     (["out"; "floorplan"; "floorplan.svg"], File 7 (SvgOf unit_square))].
Proof.
  exists [(["out"], Dir 7); (["out"; "floorplan"], Dir 7)], unit_cube,
    (0, 0, 0)%Q, (1, 1, 1)%Q, {| p3_vertices := []; p3_entities := [] |}.
  repeat split.
Defined.

(** Once the output directory is made, the run ends with a boolean. *)
Lemma exceptions_are_caught_aux (v : script) (w : World) (mesh_path out : path)
      (s : state) (f1 : filesystem) :
  mkdir_parents (now s) (fs s) [] out = Ok f1 ->
  (exists b s', generate_floorplan_from_mesh v w mesh_path out s = (Ok b, s')) /\
  is_dir (fs (snd (generate_floorplan_from_mesh v w mesh_path out s))) out = true.
Proof.
  intros Hmk.
  assert (Hdir : is_dir f1 out = true)
    by (exact (mkdir_parents_is_dir _ _ _ _ [] eq_refl Hmk)).
  assert (Hkeep : forall t f p c,
             write_file t f1 (div_path out p) c = Ok f -> is_dir f out = true).
  { intros t f p c Hw. rewrite (write_file_is_dir _ _ _ _ out _ Hw); auto.
    apply app_one_neq. }
  assert (Hkeep2 : forall t t' f f' p p' c c',
             write_file t f1 (div_path out p) c = Ok f ->
             write_file t' f (div_path out p') c' = Ok f' ->
             is_dir f' out = true).
  { intros t t' f f' p p' c c' Hw Hw'.
    rewrite (write_file_is_dir _ _ _ _ out _ Hw'); eauto. apply app_one_neq. }
  split.
  - destruct v; run_script w; do 2 eexists; reflexivity.
  - destruct v; run_script w; eauto.
Qed.

(** C7. Once the output directory is made, no exception leaves
    [generate_floorplan_from_mesh]: it returns a boolean.  It returns
    [True] only if the load, the section, the projection, the SVG export,
    the drawing and the PNG save all went through (the run is [sliced],
    [paint] yields an image and the image is written), so an exception in
    any of them gives [False].  Nothing is cleaned up: once the SVG is written
    it is on disk when the function returns, also when the drawing or the
    save fails afterwards. *)
Theorem exceptions_are_caught (v : script) (w : World) (mesh_path out : path)
        (s : state) (f1 : filesystem) :
  mkdir_parents (now s) (fs s) [] out = Ok f1 ->
  (exists b s', generate_floorplan_from_mesh v w mesh_path out s = (Ok b, s')) /\
  (forall s',
      generate_floorplan_from_mesh v w mesh_path out s = (Ok true, s') ->
      exists slice_2d f2 img,
        sliced w s mesh_path out slice_2d f2 /\
        paint w slice_2d = Ok img /\
        save_fault w img (png_path out) = None /\
        write_file (now s) f2 (png_path out) (PngOf img) = Ok (fs s')) /\
  (forall slice_2d f2,
      sliced w s mesh_path out slice_2d f2 ->
      lookup (fs (snd (generate_floorplan_from_mesh v w mesh_path out s)))
             (svg_path out)
      = Some (File (now s) (SvgOf slice_2d))).
Proof.
  intros Hmk. split; [|split].
  - exact (proj1 (exceptions_are_caught_aux v w mesh_path out s f1 Hmk)).
  - intros s'. unfold svg_path, png_path, sliced. rewrite Hmk.
    destruct v; run_script w; intros H; try discriminate;
      injection H as <-; do 3 eexists;
      (split; [do 5 eexists; repeat split; eauto|]);
      simpl; repeat split; eauto.
  - intros slice_2d f2 H. open_sliced H. unfold svg_path.
    assert (f0 = f1) as -> by congruence.
    pose proof (write_file_same _ _ _ _ _ Hsvg) as Hthere.
    destruct v; run_script w; auto;
      match goal with
      | Hw : write_file _ f2 _ _ = Ok _ |- _ =>
          rewrite (write_file_other _ _ _ _ _ _ Hw); auto;
          intros Heq; apply app_inv_head in Heq; discriminate
      end.
Qed.

(** A run whose value is known, paired with its final state. *)
Lemma run_pair {A} (m : M A) (s : state) (r : result A) :
  fst (m s) = r -> m s = (r, snd (m s)).
Proof. intros <-. apply surjective_pairing. Qed.

(** In the fair world the rasterizer returns [True]. *)
Lemma fair_world_run :
  generate_floorplan_from_mesh floorplan_pipeline fair_world
    ["mesh.ply"] ["out"; "floorplan"] blank_state
  = (Ok true,
     snd (generate_floorplan_from_mesh floorplan_pipeline fair_world
            ["mesh.ply"] ["out"; "floorplan"] blank_state)).
Proof.
  exact (run_pair (generate_floorplan_from_mesh floorplan_pipeline fair_world
                     ["mesh.ply"] ["out"; "floorplan"])
                  blank_state (Ok true) eq_refl).
Defined.

(** There the run returns [False], the traceback goes to stderr, the SVG
    written before the failure stays and no PNG exists. *)
Example svg_survives_failed_save :
  fst (generate_floorplan_from_mesh floorplan_pipeline save_fails_world
         ["mesh.ply"] ["out"; "floorplan"] blank_state) = Ok false /\
  stderr (snd (generate_floorplan_from_mesh floorplan_pipeline save_fails_world
                 ["mesh.ply"] ["out"; "floorplan"] blank_state))
  = ["Traceback (most recent call last):";
     "  File floorplan_pipeline.py, in generate_floorplan_from_mesh";
     "OSError: No space left on device"] /\
  lookup (fs (snd (generate_floorplan_from_mesh floorplan_pipeline
                     save_fails_world ["mesh.ply"] ["out"; "floorplan"]
                     blank_state)))
         (svg_path ["out"; "floorplan"])
  = Some (File 7 (SvgOf unit_square)) /\
  lookup (fs (snd (generate_floorplan_from_mesh floorplan_pipeline
                     save_fails_world ["mesh.ply"] ["out"; "floorplan"]
                     blank_state)))
         (png_path ["out"; "floorplan"])
  = None.
Proof. repeat split. Qed.

Lemma exceptions_are_caught_witness :
  exists b s',
    generate_floorplan_from_mesh floorplan_pipeline fair_world
      ["mesh.ply"] ["out"; "floorplan"] blank_state = (Ok b, s').
Proof.
  exact (proj1 (exceptions_are_caught floorplan_pipeline fair_world
                  ["mesh.ply"] ["out"; "floorplan"] blank_state
                  [(["out"], Dir 7); (["out"; "floorplan"], Dir 7)]
                  eq_refl)).
Defined.

(* ================================================================== *)
(** ** NumPy: minimum, maximum and the rescaling *)

Lemma np_min_le_init (xs : list Q) : forall x0 : Q, (np_min x0 xs <= x0)%Q.
Proof.
  unfold np_min. induction xs as [|x xs IH]; intros x0; simpl.
  - apply Qle_refl.
  - eapply Qle_trans; [apply IH | apply Q.le_min_l].
Qed.

Lemma np_min_le (xs : list Q) :
  forall x0 x : Q, In x (x0 :: xs) -> (np_min x0 xs <= x)%Q.
Proof.
  induction xs as [|y ys IH]; intros x0 x Hin.
  - destruct Hin as [<-|[]]. apply Qle_refl.
  - destruct Hin as [<-|[<-|Hin]].
    + apply np_min_le_init.
    + change (np_min (Qmin x0 y) ys <= y)%Q.
      eapply Qle_trans; [apply np_min_le_init | apply Q.le_min_r].
    + change (np_min (Qmin x0 y) ys <= x)%Q. apply IH. now right.
Qed.

Lemma np_max_ge_init (xs : list Q) : forall x0 : Q, (x0 <= np_max x0 xs)%Q.
Proof.
  unfold np_max. induction xs as [|x xs IH]; intros x0; simpl.
  - apply Qle_refl.
  - eapply Qle_trans; [apply Q.le_max_l | apply IH].
Qed.

Lemma np_max_ge (xs : list Q) :
  forall x0 x : Q, In x (x0 :: xs) -> (x <= np_max x0 xs)%Q.
Proof.
  induction xs as [|y ys IH]; intros x0 x Hin.
  - destruct Hin as [<-|[]]. apply Qle_refl.
  - destruct Hin as [<-|[<-|Hin]].
    + apply np_max_ge_init.
    + change (y <= np_max (Qmax x0 y) ys)%Q.
      eapply Qle_trans; [apply Q.le_max_r | apply np_max_ge_init].
    + change (x <= np_max (Qmax x0 y) ys)%Q. apply IH. now right.
Qed.

(** Every vertex lies between the column minima and the column maxima. *)
Lemma amin_amax_bounds (vs : list (Q * Q)) (lo hi : Q * Q) :
  amin vs = Ok lo -> amax vs = Ok hi ->
  Forall (fun v => (fst lo <= fst v <= fst hi)%Q /\
                   (snd lo <= snd v <= snd hi)%Q) vs.
Proof.
  destruct vs as [|v0 vs]; [discriminate|]. simpl.
  intros Hlo Hhi. injection Hlo as <-. injection Hhi as <-. simpl.
  apply Forall_forall. intros v Hv.
  assert (Hx : In (fst v) (fst v0 :: map fst vs)).
  { destruct Hv as [->|Hv]; [now left | right; now apply in_map]. }
  assert (Hy : In (snd v) (snd v0 :: map snd vs)).
  { destruct Hv as [->|Hv]; [now left | right; now apply in_map]. }
  repeat split;
    auto using np_min_le, np_max_ge.
Qed.

Lemma to_image_space_map (vs : list (Q * Q)) (lo hi : Q * Q) :
  to_image_space vs lo hi
  = map (fun v => (rescale (fst v) (fst lo) (fst hi),
                   rescale (snd v) (snd lo) (snd hi))) vs.
Proof.
  unfold to_image_space, np_scale, np_normalize. rewrite map_map. reflexivity.
Qed.

(** The range of float64 holds the numbers the canvas needs. *)
Lemma overflow_threshold_canvas : (1950 < overflow_threshold)%Q.
Proof. vm_compute. reflexivity. Qed.

Lemma overflows_false (q : Q) :
  overflows q = false <-> (Qabs q < overflow_threshold)%Q.
Proof.
  unfold overflows. rewrite <- not_true_iff_false, Qle_bool_iff.
  split; [apply Qnot_le_lt | apply Qlt_not_le].
Qed.

Lemma np_round_fin (q : Q) : overflows q = false -> np_round q = Fin q.
Proof. unfold np_round. now intros ->. Qed.

Lemma round_flags_fin (q : Q) : overflows q = false -> round_flags q = [].
Proof. unfold round_flags. now intros ->. Qed.

(** A number between 0 and a number that does not overflow does not
    overflow. *)
Lemma overflows_below (q r : Q) :
  (0 <= q <= r)%Q -> overflows r = false -> overflows q = false.
Proof.
  intros [H0 Hr]. rewrite !overflows_false.
  rewrite !Qabs_pos by lra. lra.
Qed.

Lemma overflows_canvas (q : Q) : (0 <= q <= 1950)%Q -> overflows q = false.
Proof.
  intros [H0 H1]. apply overflows_false. rewrite Qabs_pos by lra.
  pose proof overflow_threshold_canvas. lra.
Qed.

(** The steps of the rescaling of a coordinate between the bounds of an
    extent that is positive and does not overflow: each is exact. *)
Lemma rescale_steps (a lo hi : Q) :
  finite_extent lo hi -> (lo <= a <= hi)%Q ->
  np_sub a lo = Fin (a - lo) /\ np_sub hi lo = Fin (hi - lo) /\
  Qeq_bool (hi - lo) 0 = false /\
  overflows ((a - lo) / (hi - lo)) = false /\
  overflows ((a - lo) / (hi - lo) * inject_Z 1900) = false /\
  overflows ((a - lo) / (hi - lo) * inject_Z 1900 + inject_Z 50) = false /\
  (0 <= (a - lo) / (hi - lo) <= 1)%Q.
Proof.
  intros [Hlt Hfin] [Hlo Hhi].
  assert (Hpos : (0 < hi - lo)%Q) by lra.
  assert (H0 : (0 <= (a - lo) / (hi - lo))%Q)
    by (apply Qle_shift_div_l; lra).
  assert (H1 : ((a - lo) / (hi - lo) <= 1)%Q)
    by (apply Qle_shift_div_r; lra).
  change (inject_Z 1900) with 1900%Q. change (inject_Z 50) with 50%Q.
  repeat split; try assumption.
  - apply np_round_fin. apply (overflows_below _ (hi - lo)); [lra | exact Hfin].
  - apply np_round_fin. exact Hfin.
  - destruct (Qeq_bool (hi - lo) 0) eqn:E; [|reflexivity].
    apply Qeq_bool_iff in E. lra.
  - apply overflows_canvas. lra.
  - apply overflows_canvas. lra.
  - apply overflows_canvas. lra.
Qed.

Lemma rescale_exact (a lo hi : Q) :
  finite_extent lo hi -> (lo <= a <= hi)%Q ->
  rescale a lo hi
  = Fin ((a - lo) / (hi - lo) * inject_Z 1900 + inject_Z 50).
Proof.
  intros Hext Ha.
  destruct (rescale_steps a lo hi Hext Ha)
    as (Es1 & Es2 & Ez & Ed & Em & Ea & _).
  unfold rescale. rewrite Es1, Es2. unfold np_div. rewrite Ez.
  rewrite (np_round_fin _ Ed). unfold np_mul. rewrite (np_round_fin _ Em).
  unfold np_add. now rewrite (np_round_fin _ Ea).
Qed.

Lemma rescale_in_range (a lo hi : Q) :
  finite_extent lo hi -> (lo <= a <= hi)%Q ->
  exists x, rescale a lo hi = Fin x /\ (50 <= x <= 1950)%Q.
Proof.
  intros Hext Ha. rewrite (rescale_exact a lo hi Hext Ha).
  destruct (rescale_steps a lo hi Hext Ha) as (_ & _ & _ & _ & _ & _ & H01).
  eexists. split; [reflexivity|].
  change (inject_Z 1900) with 1900%Q. change (inject_Z 50) with 50%Q.
  split; lra.
Qed.

Lemma overflows_zero (q : Q) : (q == 0)%Q -> overflows q = false.
Proof.
  intros Hq. apply overflows_false. rewrite Hq.
  pose proof overflow_threshold_canvas. simpl. lra.
Qed.

Lemma rescale_nan (a lo hi : Q) :
  (lo == hi)%Q -> (lo <= a <= hi)%Q -> rescale a lo hi = NaN.
Proof.
  intros Heq [Hlo Hhi]. unfold rescale, np_sub.
  rewrite (np_round_fin (a - lo)) by (apply overflows_zero; lra).
  rewrite (np_round_fin (hi - lo)) by (apply overflows_zero; lra).
  unfold np_div.
  assert (E1 : Qeq_bool (hi - lo) 0 = true) by (apply Qeq_bool_iff; lra).
  assert (E2 : Qeq_bool (a - lo) 0 = true) by (apply Qeq_bool_iff; lra).
  now rewrite E1, E2.
Qed.

(** With an extent on both axes that is positive and does not overflow,
    every vertex lands on the canvas, inside the margin. *)
Lemma to_image_space_on_canvas (vs : list (Q * Q)) (lo hi : Q * Q) :
  amin vs = Ok lo -> amax vs = Ok hi ->
  finite_extent (fst lo) (fst hi) -> finite_extent (snd lo) (snd hi) ->
  Forall on_canvas (to_image_space vs lo hi).
Proof.
  intros Hlo Hhi Hx Hy. rewrite to_image_space_map. apply Forall_map.
  eapply Forall_impl; [|exact (amin_amax_bounds _ _ _ Hlo Hhi)].
  intros v [Hvx Hvy]. simpl.
  destruct (rescale_in_range _ _ _ Hx Hvx) as (x & -> & Hxr).
  destruct (rescale_in_range _ _ _ Hy Hvy) as (y & -> & Hyr).
  split; assumption.
Qed.

(** With no extent on an axis every coordinate on that axis is [nan]. *)
Lemma to_image_space_nan_x (vs : list (Q * Q)) (lo hi : Q * Q) :
  amin vs = Ok lo -> amax vs = Ok hi -> (fst lo == fst hi)%Q ->
  Forall (fun p : point => fst p = NaN) (to_image_space vs lo hi).
Proof.
  intros Hlo Hhi Hx. rewrite to_image_space_map. apply Forall_map.
  eapply Forall_impl; [|exact (amin_amax_bounds _ _ _ Hlo Hhi)].
  intros v [Hvx _]. simpl. now apply rescale_nan.
Qed.

Lemma to_image_space_nan_y (vs : list (Q * Q)) (lo hi : Q * Q) :
  amin vs = Ok lo -> amax vs = Ok hi -> (snd lo == snd hi)%Q ->
  Forall (fun p : point => snd p = NaN) (to_image_space vs lo hi).
Proof.
  intros Hlo Hhi Hy. rewrite to_image_space_map. apply Forall_map.
  eapply Forall_impl; [|exact (amin_amax_bounds _ _ _ Hlo Hhi)].
  intros v [_ Hvy]. simpl. now apply rescale_nan.
Qed.

(** ** NumPy: indexing *)

Lemma np_item_In (a : list point) (i : Z) (p : point) :
  np_item a i = Ok p -> In p a.
Proof.
  unfold np_item.
  set (n := Z.of_nat (List.length a)).
  set (j := if i <? 0 then i + n else i).
  destruct ((0 <=? j) && (j <? n)) eqn:E; [|discriminate].
  intros H. injection H as <-.
  apply andb_prop in E. destruct E as [E0 E1].
  apply Z.leb_le in E0. apply Z.ltb_lt in E1.
  apply nth_In. unfold n in E1. lia.
Qed.

Lemma np_take_spec (a : list point) (idx : list Z) :
  forall pts, np_take a idx = Ok pts ->
              List.length pts = List.length idx /\ Forall (fun p => In p a) pts.
Proof.
  induction idx as [|i rest IH]; simpl; intros pts H.
  - injection H as <-. split; [reflexivity | constructor].
  - destruct (np_item a i) as [p|e] eqn:Ei; [|discriminate].
    destruct (np_take a rest) as [ps|e]; [|discriminate].
    injection H as <-. destruct (IH ps eq_refl) as [Hlen Hin].
    split; [simpl; congruence|].
    constructor; [eapply np_item_In; eauto | assumption].
Qed.

(* ================================================================== *)
(** ** What ends up in the image *)

Section PaintFacts.
Variable w : World.

Lemma fold_draw_spec (vs : list point) (es : list (list Z)) :
  forall img0 img,
    fold_result (draw_entity w vs) es img0 = Ok img ->
    img_mode img = img_mode img0 /\ img_size img = img_size img0 /\
    img_color img = img_color img0 /\
    exists new,
      img_strokes img = img_strokes img0 ++ new /\
      Forall2 (drawn_from vs) (filter has_line es) new.
Proof.
  induction es as [|e es IH]; simpl; intros img0 img H.
  - injection H as <-. repeat split. exists []. rewrite app_nil_r. auto.
  - unfold draw_entity at 1 in H.
    destruct (np_take vs e) as [points|x] eqn:Et; [|discriminate].
    destruct (np_take_spec _ _ _ Et) as [Hlen _].
    unfold has_line at 1. rewrite <- Hlen.
    destruct (1 <? List.length points)%nat.
    + destruct (line_fault w points); [discriminate|].
      destruct (IH _ _ H) as (Hm & Hs & Hc & new & Hnew & Hall).
      repeat split; auto.
      exists ({| stroke_points := points; stroke_fill := "black";
                 stroke_width := 5 |} :: new).
      split.
      * rewrite Hnew. simpl. now rewrite <- app_assoc.
      * constructor; [|exact Hall]. repeat split. exact Et.
    + apply IH, H.
Qed.

(** The image the drawing part yields: the 2000 by 2000 white canvas with,
    if there are vertices, one stroke for each entity that has a line, in
    the order of the entities, and no other stroke. *)
Lemma paint_spec (p : Path2D) (img : Image) :
  paint w p = Ok img ->
  img_mode img = "RGB" /\ img_size img = (2000, 2000) /\
  img_color img = "white" /\
  (vertices p = [] -> img_strokes img = []) /\
  (forall lo hi,
      amin (vertices p) = Ok lo -> amax (vertices p) = Ok hi ->
      Forall2 (drawn_from (to_image_space (vertices p) lo hi))
              (filter has_line (entities p)) (img_strokes img)).
Proof.
  unfold paint. destruct (vertices p) as [|v0 vs] eqn:Ev.
  - simpl. intros H. injection H as <-. repeat split. discriminate.
  - change (0 <? List.length (v0 :: vs))%nat with true. cbv iota.
    destruct (amin (v0 :: vs)) as [lo|x] eqn:Elo; [|discriminate].
    destruct (amax (v0 :: vs)) as [hi|x] eqn:Ehi; [|discriminate].
    intros H. destruct (fold_draw_spec _ _ _ _ H) as (Hm & Hs & Hc & new & Hnew & Hall).
    repeat split; auto; [discriminate|].
    intros lo' hi' Hlo' Hhi'. injection Hlo' as <-. injection Hhi' as <-.
    simpl in Hnew. now rewrite Hnew.
Qed.

(** Without vertices the drawing part cannot fail and draws nothing. *)
Lemma paint_no_vertices (p : Path2D) :
  vertices p = [] -> paint w p = Ok blank_canvas.
Proof. unfold paint. now intros ->. Qed.
End PaintFacts.

(** A run that returns [True] has drawn the slice and saved the image. *)
Lemma returns_true_inv (v : script) (w : World) (mesh_path out : path)
      (s s' : state) (slice_2d : Path2D) (f2 : filesystem) :
  sliced w s mesh_path out slice_2d f2 ->
  generate_floorplan_from_mesh v w mesh_path out s = (Ok true, s') ->
  exists img,
    paint w slice_2d = Ok img /\
    save_fault w img (png_path out) = None /\
    write_file (now s) f2 (png_path out) (PngOf img) = Ok (fs s') /\
    lookup (fs s') (png_path out) = Some (File (now s) (PngOf img)).
Proof.
  intros H. open_sliced H. unfold png_path.
  destruct v; run_script w; intros Heq; try discriminate;
    injection Heq as <-; simpl; eexists; repeat split; eauto;
    eapply write_file_same; eauto.
Qed.

(** When every call after the SVG export goes through, the run returns
    [True] and the image is on disk. *)
Lemma returns_true (v : script) (w : World) (mesh_path out : path)
      (s : state) (slice_2d : Path2D) (f2 f3 : filesystem) (img : Image) :
  sliced w s mesh_path out slice_2d f2 ->
  paint w slice_2d = Ok img ->
  save_fault w img (png_path out) = None ->
  write_file (now s) f2 (png_path out) (PngOf img) = Ok f3 ->
  exists s',
    generate_floorplan_from_mesh v w mesh_path out s = (Ok true, s') /\
    fs s' = f3.
Proof.
  intros H Hpaint Hsave Hpng. open_sliced H. unfold png_path in *.
  destruct v; run_script w; eexists; split; reflexivity.
Qed.

Lemma Forall2_Forall_r {A B} (R : A -> B -> Prop) (P : B -> Prop)
      (l1 : list A) (l2 : list B) :
  (forall x y, In x l1 -> R x y -> P y) -> Forall2 R l1 l2 -> Forall P l2.
Proof.
  intros HR H. induction H as [|x y l1 l2 Hxy _ IH]; constructor.
  - apply (HR x y); [now left | exact Hxy].
  - apply IH. intros x' y' Hin. apply HR. now right.
Qed.

(** The strokes of a painted image, whatever the vertices are. *)
Lemma paint_strokes (w : World) (p : Path2D) (img : Image) (P : stroke -> Prop) :
  paint w p = Ok img ->
  (forall lo hi entity st,
      amin (vertices p) = Ok lo -> amax (vertices p) = Ok hi ->
      In entity (entities p) ->
      drawn_from (to_image_space (vertices p) lo hi) entity st -> P st) ->
  Forall P (img_strokes img).
Proof.
  intros Hp HP.
  destruct (paint_spec w p img Hp) as (_ & _ & _ & Hnil & Hall).
  destruct (vertices p) as [|v0 vs] eqn:Ev.
  - rewrite Hnil by reflexivity. constructor.
  - eapply Forall2_Forall_r; [|exact (Hall _ _ eq_refl eq_refl)].
    intros entity st Hin Hd. apply filter_In in Hin.
    eapply (HP _ _ entity st); [reflexivity | reflexivity | apply Hin | exact Hd].
Qed.

Lemma flat_map_nil {A B} (f : A -> list B) (l : list A) :
  (forall x, In x l -> f x = []) -> flat_map f l = [].
Proof.
  intros H. induction l as [|x xs IH]; [reflexivity|].
  simpl. rewrite (H x) by now left. apply IH. intros y Hy. apply H. now right.
Qed.

(** The rescaling of a coordinate between the bounds of an extent that is
    positive and does not overflow raises no flag. *)
Lemma rescale_quiet (a lo hi : Q) :
  finite_extent lo hi -> (lo <= a <= hi)%Q ->
  sub_flags a lo = [] /\ sub_flags hi lo = [] /\
  div_flags (np_sub a lo) (np_sub hi lo) = [] /\
  mul_flags (np_div (np_sub a lo) (np_sub hi lo)) (Fin (inject_Z 1900)) = [] /\
  add_flags (np_mul (np_div (np_sub a lo) (np_sub hi lo))
                    (Fin (inject_Z 1900))) (Fin (inject_Z 50)) = [].
Proof.
  intros Hext Ha.
  destruct (rescale_steps a lo hi Hext Ha)
    as (Es1 & Es2 & Ez & Ed & Em & Ea & H01).
  destruct Hext as [Hlt Hfin]. destruct Ha as [Hlo Hhi].
  assert (Hsub : overflows (a - lo) = false)
    by (apply (overflows_below _ (hi - lo)); [lra | exact Hfin]).
  unfold sub_flags. rewrite (round_flags_fin _ Hsub), (round_flags_fin _ Hfin).
  rewrite Es1, Es2. unfold div_flags, np_div. rewrite Ez.
  rewrite (round_flags_fin _ Ed), (np_round_fin _ Ed).
  unfold mul_flags, np_mul. rewrite (round_flags_fin _ Em), (np_round_fin _ Em).
  unfold add_flags. rewrite (round_flags_fin _ Ea). repeat split.
Qed.

(** With such an extent on both axes the normalization warns of nothing. *)
Lemma finite_extent_quiet (vs : list (Q * Q)) (lo hi : Q * Q) :
  amin vs = Ok lo -> amax vs = Ok hi ->
  finite_extent (fst lo) (fst hi) -> finite_extent (snd lo) (snd hi) ->
  np_normalize_events vs lo hi = [] /\
  np_scale_events (np_normalize vs lo hi) (2000 - 100) 50 = [].
Proof.
  intros Hlo Hhi Hx Hy.
  pose proof (amin_amax_bounds _ _ _ Hlo Hhi) as Hb.
  rewrite Forall_forall in Hb.
  assert (Hhix : (fst lo <= fst hi <= fst hi)%Q)
    by (destruct Hx; split; [now apply Qlt_le_weak | apply Qle_refl]).
  assert (Hhiy : (snd lo <= snd hi <= snd hi)%Q)
    by (destruct Hy; split; [now apply Qlt_le_weak | apply Qle_refl]).
  destruct (rescale_quiet _ _ _ Hx Hhix) as (_ & Ex & _).
  destruct (rescale_quiet _ _ _ Hy Hhiy) as (_ & Ey & _).
  unfold np_normalize_events, np_scale_events, np_normalize.
  change (2000 - 100) with 1900.
  rewrite Ex, Ey.
  rewrite !flat_map_nil; [split; reflexivity | | | |].
  - intros p Hp. apply in_map_iff in Hp. destruct Hp as (v & <- & Hv).
    destruct (Hb v Hv) as [Hvx Hvy]. cbn [fst snd].
    destruct (rescale_quiet _ _ _ Hx Hvx) as (_ & _ & _ & _ & ->).
    destruct (rescale_quiet _ _ _ Hy Hvy) as (_ & _ & _ & _ & ->).
    reflexivity.
  - intros p Hp. apply in_map_iff in Hp. destruct Hp as (v & <- & Hv).
    destruct (Hb v Hv) as [Hvx Hvy]. cbn [fst snd].
    destruct (rescale_quiet _ _ _ Hx Hvx) as (_ & _ & _ & -> & _).
    destruct (rescale_quiet _ _ _ Hy Hvy) as (_ & _ & _ & -> & _).
    reflexivity.
  - intros v Hv. destruct (Hb v Hv) as [Hvx Hvy].
    destruct (rescale_quiet _ _ _ Hx Hvx) as (_ & _ & -> & _).
    destruct (rescale_quiet _ _ _ Hy Hvy) as (_ & _ & -> & _).
    reflexivity.
  - intros v Hv. destruct (Hb v Hv) as [Hvx Hvy].
    destruct (rescale_quiet _ _ _ Hx Hvx) as (-> & _).
    destruct (rescale_quiet _ _ _ Hy Hvy) as (-> & _).
    reflexivity.
Qed.

(** On the wide slice both extents are positive, and the one on the X
    axis overflows: the subtraction yields an infinity, the division of
    that infinity by itself [nan].  The run returns [True]; the saved line
    has [nan] as the X coordinate of its last point, which is thus not in
    [[50, 1950]]; NumPy has warned of the overflow and of the invalid
    division. *)
Lemma wide_slice_is_drawn :
  amin (vertices wide_slice) = Ok (- inject_Z (2 ^ 1023), 0)%Q /\
  amax (vertices wide_slice) = Ok (inject_Z (2 ^ 1023), 2)%Q /\
  (- inject_Z (2 ^ 1023) < inject_Z (2 ^ 1023))%Q /\ (0 < 2)%Q /\
  fst (generate_floorplan_from_mesh floorplan_pipeline wide_world
         ["mesh.ply"] ["out"; "floorplan"] blank_state) = Ok true /\
  match lookup (fs (snd (generate_floorplan_from_mesh floorplan_pipeline
                           wide_world ["mesh.ply"] ["out"; "floorplan"]
                           blank_state)))
               (png_path ["out"; "floorplan"]) with
  | Some (File _ (PngOf img)) =>
      map (fun st => map (fun p : point => is_nan (fst p)) (stroke_points st))
          (img_strokes img)
  | _ => []
  end = [[false; false; true]] /\
  stderr (snd (generate_floorplan_from_mesh floorplan_pipeline wide_world
                 ["mesh.ply"] ["out"; "floorplan"] blank_state))
  = ["floorplan_pipeline.py: RuntimeWarning: overflow encountered in subtract";
     "floorplan_pipeline.py: RuntimeWarning: overflow encountered in subtract";
     "floorplan_pipeline.py: RuntimeWarning: invalid value encountered in divide"].
Proof. vm_compute. repeat split. Qed.

(** C6, amended. The rescaling [(v - min) / (max - min) * (2000 - 100) + 50]
    sends every vertex of a set whose extent on both axes is positive and
    does not overflow float64 to a point whose two coordinates lie in
    [[50, 1950]], and NumPy has nothing to warn of.  Every image the
    rasterizer saves is an RGB canvas of 2000 by 2000 pixels, white; it
    holds one stroke for each entity that lists two points or more, in the
    order of the entities, and no other: a black line, 5 pixels wide,
    through the image-space vertices the entity lists, in its order.  With
    such an extent on both axes all points of all strokes keep the 50
    pixel margin.  (An extent that overflows makes coordinates [nan], as
    on the wide slice above.  Rounding inside the range of float64 is not
    part of the model.) *)
Theorem canvas_and_margin :
  (forall (vs : list (Q * Q)) (lo hi : Q * Q),
      amin vs = Ok lo -> amax vs = Ok hi ->
      finite_extent (fst lo) (fst hi) -> finite_extent (snd lo) (snd hi) ->
      Forall on_canvas (np_scale (np_normalize vs lo hi) (2000 - 100) 50) /\
      np_normalize_events vs lo hi = [] /\
      np_scale_events (np_normalize vs lo hi) (2000 - 100) 50 = []) /\
  (forall (v : script) (w : World) (mesh_path out : path) (s s' : state)
          (slice_2d : Path2D) (f2 : filesystem),
      sliced w s mesh_path out slice_2d f2 ->
      generate_floorplan_from_mesh v w mesh_path out s = (Ok true, s') ->
      exists img,
        lookup (fs s') (png_path out) = Some (File (now s) (PngOf img)) /\
        img_mode img = "RGB" /\ img_size img = (2000, 2000) /\
        img_color img = "white" /\
        (vertices slice_2d = [] -> img_strokes img = []) /\
        (forall lo hi,
            amin (vertices slice_2d) = Ok lo ->
            amax (vertices slice_2d) = Ok hi ->
            Forall2 (drawn_from
                       (np_scale (np_normalize (vertices slice_2d) lo hi)
                                 (2000 - 100) 50))
                    (filter has_line (entities slice_2d))
                    (img_strokes img) /\
            (finite_extent (fst lo) (fst hi) ->
             finite_extent (snd lo) (snd hi) ->
             Forall (fun st => Forall on_canvas (stroke_points st))
                    (img_strokes img)))).
Proof.
  split.
  - intros vs lo hi Hlo Hhi Hx Hy. split.
    + exact (to_image_space_on_canvas vs lo hi Hlo Hhi Hx Hy).
    + exact (finite_extent_quiet vs lo hi Hlo Hhi Hx Hy).
  - intros v w mesh_path out s s' slice_2d f2 Hsl Hrun.
    destruct (returns_true_inv _ _ _ _ _ _ _ _ Hsl Hrun)
      as (img & Hpaint & _ & _ & Hpng).
    exists img.
    destruct (paint_spec w slice_2d img Hpaint) as (Hm & Hs & Hc & Hnil & Hall).
    repeat split; auto.
    + exact (Hall lo hi H H0).
    + intros Hx Hy.
      apply (paint_strokes w slice_2d img); [exact Hpaint|].
      intros lo' hi' entity st Hlo' Hhi' _ (Ht & _ & _).
      assert (lo' = lo) as -> by congruence.
      assert (hi' = hi) as -> by congruence.
      destruct (np_take_spec _ _ _ Ht) as [_ Hin].
      pose proof (to_image_space_on_canvas _ _ _ H H0 Hx Hy) as Hcan.
      rewrite Forall_forall in Hcan.
      eapply Forall_impl; [|exact Hin]. intros p Hp. now apply Hcan.
Qed.

(** The unit square has an extent of 1 on both axes: its vertices land on
    the canvas, and the saved image holds one stroke, for the entity that
    goes round the square, with all of its points inside the margin. *)
Lemma canvas_and_margin_witness :
  Forall on_canvas
    (np_scale (np_normalize (vertices unit_square) (0, 0)%Q (1, 1)%Q)
              (2000 - 100) 50) /\
  exists img,
    lookup (fs (snd (generate_floorplan_from_mesh floorplan_pipeline fair_world
                       ["mesh.ply"] ["out"; "floorplan"] blank_state)))
           (png_path ["out"; "floorplan"])
    = Some (File (now blank_state) (PngOf img)) /\
    img_size img = (2000, 2000) /\
    List.length (img_strokes img) = 1%nat /\
    Forall (fun st => Forall on_canvas (stroke_points st)) (img_strokes img).
Proof.
  assert (Hext : finite_extent 0 1) by (split; reflexivity).
  split.
  - exact (proj1 (proj1 canvas_and_margin (vertices unit_square)
                        (0, 0)%Q (1, 1)%Q eq_refl eq_refl Hext Hext)).
  - destruct (proj2 canvas_and_margin floorplan_pipeline fair_world
                ["mesh.ply"] ["out"; "floorplan"] blank_state _ unit_square _
                fair_world_sliced fair_world_run)
      as (img & Hpng & _ & Hsize & _ & _ & Hstrokes).
    destruct (Hstrokes (0, 0)%Q (1, 1)%Q eq_refl eq_refl) as [Hall Hmargin].
    exists img. split; [exact Hpng|]. split; [exact Hsize|]. split.
    + exact (eq_sym (Forall2_length Hall)).
    + exact (Hmargin Hext Hext).
Defined.

(** C8. If the planar slice has no vertices, nothing is drawn, whatever the
    entities are, and when the save goes through the run returns [True]
    with the blank white 2000 by 2000 canvas on disk.  If it has vertices,
    the image a successful run saves holds one stroke for each entity that
    lists two points or more, in the order of the entities, and none for an
    entity with fewer points. *)
Theorem drawing_edge_cases (v : script) (w : World) (mesh_path out : path)
        (s : state) (slice_2d : Path2D) (f2 : filesystem) :
  sliced w s mesh_path out slice_2d f2 ->
  (vertices slice_2d = [] ->
   forall f3,
     save_fault w blank_canvas (png_path out) = None ->
     write_file (now s) f2 (png_path out) (PngOf blank_canvas) = Ok f3 ->
     exists s',
       generate_floorplan_from_mesh v w mesh_path out s = (Ok true, s') /\
       lookup (fs s') (png_path out)
       = Some (File (now s) (PngOf blank_canvas)) /\
       img_strokes blank_canvas = [] /\
       img_size blank_canvas = (2000, 2000) /\
       img_color blank_canvas = "white") /\
  (forall s',
      generate_floorplan_from_mesh v w mesh_path out s = (Ok true, s') ->
      exists img,
        lookup (fs s') (png_path out) = Some (File (now s) (PngOf img)) /\
        forall lo hi,
          amin (vertices slice_2d) = Ok lo ->
          amax (vertices slice_2d) = Ok hi ->
          Forall2 (drawn_from
                     (np_scale (np_normalize (vertices slice_2d) lo hi)
                               (2000 - 100) 50))
                  (filter (fun entity => (1 <? List.length entity)%nat)
                          (entities slice_2d))
                  (img_strokes img)).
Proof.
  intros Hsl. split.
  - intros Hnil f3 Hsave Hpng.
    destruct (returns_true v w mesh_path out s slice_2d f2 f3 blank_canvas
                Hsl (paint_no_vertices w slice_2d Hnil) Hsave Hpng)
      as (s' & Hrun & Hfs).
    exists s'. repeat split; auto.
    rewrite Hfs. eapply write_file_same; eauto.
  - intros s' Hrun.
    destruct (returns_true_inv _ _ _ _ _ _ _ _ Hsl Hrun)
      as (img & Hpaint & _ & _ & Hpng).
    exists img. split; [exact Hpng|].
    intros lo hi Hlo Hhi.
    exact (proj2 (proj2 (proj2 (proj2 (paint_spec w slice_2d img Hpaint))))
                 lo hi Hlo Hhi).
Qed.

Lemma no_vertices_world_sliced :
  sliced no_vertices_world blank_state ["mesh.ply"] ["out"; "floorplan"]
    no_vertices_slice
    [(["out"], Dir 7); (["out"; "floorplan"], Dir 7);
     (["out"; "floorplan"; "floorplan.svg"], File 7 (SvgOf no_vertices_slice))].
Proof.
  exists [(["out"], Dir 7); (["out"; "floorplan"], Dir 7)], unit_cube,
    (0, 0, 0)%Q, (1, 1, 1)%Q, {| p3_vertices := []; p3_entities := [] |}.
  repeat split.
Defined.

(** Without vertices the blank canvas is saved.  The unit square has one
    entity with five points and one with a single point: the saved image
    holds one stroke. *)
Lemma drawing_edge_cases_witness :
  (exists s',
      generate_floorplan_from_mesh floorplan_pipeline no_vertices_world
        ["mesh.ply"] ["out"; "floorplan"] blank_state = (Ok true, s') /\
      lookup (fs s') (png_path ["out"; "floorplan"])
      = Some (File (now blank_state) (PngOf blank_canvas)) /\
      img_strokes blank_canvas = [] /\
      img_size blank_canvas = (2000, 2000) /\
      img_color blank_canvas = "white") /\
  (exists img,
      lookup (fs (snd (generate_floorplan_from_mesh floorplan_pipeline
                         fair_world ["mesh.ply"] ["out"; "floorplan"]
                         blank_state)))
             (png_path ["out"; "floorplan"])
      = Some (File (now blank_state) (PngOf img)) /\
      List.length (img_strokes img) = 1%nat).
Proof.
  split.
  - exact (proj1 (drawing_edge_cases floorplan_pipeline no_vertices_world
                    ["mesh.ply"] ["out"; "floorplan"] blank_state
                    no_vertices_slice _ no_vertices_world_sliced)
                 eq_refl
                 [(["out"], Dir 7); (["out"; "floorplan"], Dir 7);
                  (["out"; "floorplan"; "floorplan.svg"],
                   File 7 (SvgOf no_vertices_slice));
                  (["out"; "floorplan"; "floorplan.png"],
                   File 7 (PngOf blank_canvas))]
                 eq_refl eq_refl).
  - destruct (proj2 (drawing_edge_cases floorplan_pipeline fair_world
                       ["mesh.ply"] ["out"; "floorplan"] blank_state
                       unit_square _ fair_world_sliced) _ fair_world_run)
      as (img & Hpng & Hall).
    exists img. split; [exact Hpng|].
    exact (eq_sym (Forall2_length (Hall (0, 0)%Q (1, 1)%Q eq_refl eq_refl))).
Defined.

(** On the flat slice the normalization raises nothing: the run returns
    [True], stderr holds the warning of NumPy for the invalid division and
    no traceback, and the saved image holds the line, with [nan] as the X
    coordinate of both of its points. *)
Lemma flat_slice_is_drawn :
  fst (generate_floorplan_from_mesh floorplan_pipeline flat_world
         ["mesh.ply"] ["out"; "floorplan"] blank_state) = Ok true /\
  stderr (snd (generate_floorplan_from_mesh floorplan_pipeline flat_world
                 ["mesh.ply"] ["out"; "floorplan"] blank_state))
  = ["floorplan_pipeline.py: RuntimeWarning: invalid value encountered in divide"] /\
  lookup (fs (snd (generate_floorplan_from_mesh floorplan_pipeline flat_world
                     ["mesh.ply"] ["out"; "floorplan"] blank_state)))
         (png_path ["out"; "floorplan"])
  = Some (File 7 (PngOf
       {| img_mode := "RGB"; img_size := (2000, 2000); img_color := "white";
          img_strokes :=
            [{| stroke_points := [(NaN, Fin (100 # 2)); (NaN, Fin (3900 # 2))];
                stroke_fill := "black"; stroke_width := 5 |}] |})).
Proof. repeat split. Qed.

(** C3, amended. For a slice with no extent on an axis the normalization
    divides zero by zero and raises nothing: every image-space coordinate
    on that axis is [nan].  The caller is not crashed:
    [generate_floorplan_from_mesh] returns a boolean, and when it returns
    [True] the strokes of the saved image carry the [nan] coordinates. *)
Theorem zero_extent_gives_nan (v : script) (w : World) (mesh_path out : path)
        (s : state) (slice_2d : Path2D) (f2 : filesystem) (lo hi : Q * Q) :
  sliced w s mesh_path out slice_2d f2 ->
  amin (vertices slice_2d) = Ok lo ->
  amax (vertices slice_2d) = Ok hi ->
  ((fst lo == fst hi)%Q ->
   Forall (fun p : point => fst p = NaN)
          (np_scale (np_normalize (vertices slice_2d) lo hi) (2000 - 100) 50)) /\
  ((snd lo == snd hi)%Q ->
   Forall (fun p : point => snd p = NaN)
          (np_scale (np_normalize (vertices slice_2d) lo hi) (2000 - 100) 50)) /\
  (exists b s', generate_floorplan_from_mesh v w mesh_path out s = (Ok b, s')) /\
  (forall s',
      generate_floorplan_from_mesh v w mesh_path out s = (Ok true, s') ->
      exists img,
        lookup (fs s') (png_path out) = Some (File (now s) (PngOf img)) /\
        ((fst lo == fst hi)%Q ->
         Forall (fun st => Forall (fun p : point => fst p = NaN)
                                  (stroke_points st)) (img_strokes img)) /\
        ((snd lo == snd hi)%Q ->
         Forall (fun st => Forall (fun p : point => snd p = NaN)
                                  (stroke_points st)) (img_strokes img))).
Proof.
  intros Hsl Hlo Hhi.
  split; [exact (to_image_space_nan_x _ _ _ Hlo Hhi)|].
  split; [exact (to_image_space_nan_y _ _ _ Hlo Hhi)|].
  split.
  - pose proof Hsl as Hsl'. open_sliced Hsl'.
    exact (proj1 (exceptions_are_caught_aux v w mesh_path out s f1 Hmk)).
  - intros s' Hrun.
    destruct (returns_true_inv _ _ _ _ _ _ _ _ Hsl Hrun)
      as (img & Hpaint & _ & _ & Hpng).
    exists img. split; [exact Hpng|]. split; intros Hflat.
    + apply (paint_strokes w slice_2d img); [exact Hpaint|].
      intros lo' hi' entity st Hlo' Hhi' _ (Ht & _ & _).
      assert (lo' = lo) as -> by congruence.
      assert (hi' = hi) as -> by congruence.
      destruct (np_take_spec _ _ _ Ht) as [_ Hin].
      pose proof (to_image_space_nan_x _ _ _ Hlo Hhi Hflat) as Hnan.
      rewrite Forall_forall in Hnan.
      eapply Forall_impl; [|exact Hin]. intros p Hp. now apply Hnan.
    + apply (paint_strokes w slice_2d img); [exact Hpaint|].
      intros lo' hi' entity st Hlo' Hhi' _ (Ht & _ & _).
      assert (lo' = lo) as -> by congruence.
      assert (hi' = hi) as -> by congruence.
      destruct (np_take_spec _ _ _ Ht) as [_ Hin].
      pose proof (to_image_space_nan_y _ _ _ Hlo Hhi Hflat) as Hnan.
      rewrite Forall_forall in Hnan.
      eapply Forall_impl; [|exact Hin]. intros p Hp. now apply Hnan.
Qed.

Lemma flat_world_sliced :
  sliced flat_world blank_state ["mesh.ply"] ["out"; "floorplan"] flat_slice
    [(["out"], Dir 7); (["out"; "floorplan"], Dir 7);
     (["out"; "floorplan"; "floorplan.svg"], File 7 (SvgOf flat_slice))].
Proof.
  exists [(["out"], Dir 7); (["out"; "floorplan"], Dir 7)], unit_cube,
    (0, 0, 0)%Q, (1, 1, 1)%Q, {| p3_vertices := []; p3_entities := [] |}.
  repeat split.
Defined.

Lemma zero_extent_gives_nan_witness :
  Forall (fun p : point => fst p = NaN)
         (np_scale (np_normalize (vertices flat_slice) (1, 0)%Q (1, 2)%Q)
                   (2000 - 100) 50).
Proof.
  apply (proj1 (zero_extent_gives_nan floorplan_pipeline flat_world
                  ["mesh.ply"] ["out"; "floorplan"] blank_state flat_slice _
                  (1, 0)%Q (1, 2)%Q flat_world_sliced eq_refl eq_refl)).
  reflexivity.
Defined.

(* ================================================================== *)
(** ** The two rasterizers side by side *)

(** What a run has added to stderr, as a report. *)
Ltac stderr_report_found w :=
  let solve :=
    (unfold stderr_report; cbn [app]; rewrite ?app_nil_r, <- ?app_assoc;
     repeat split; reflexivity) in
  first
    [ exists None, None; solve
    | match goal with
      | |- context [normalization_warnings w _ ?p] =>
          first
            [ exists (Some p), None; solve
            | match goal with
              | |- context [format_exc w _ ?e] => exists (Some p), (Some e); solve
              end ]
      end
    | match goal with
      | |- context [format_exc w _ ?e] => exists None, (Some e); solve
      end ].

(** The two rasterizers, started on the same disk at the same time. *)
Lemma rasterizers_agree_from (w : World) (mesh_path out : path)
      (s1 s2 : state) :
  same_disk_and_calls s1 s2 ->
  fst (FloorplanPipeline.generate_floorplan_from_mesh w mesh_path out s1)
  = fst (NerfstudioAutomate.generate_floorplan_from_mesh w mesh_path out s2) /\
  same_disk_and_calls
    (snd (FloorplanPipeline.generate_floorplan_from_mesh w mesh_path out s1))
    (snd (NerfstudioAutomate.generate_floorplan_from_mesh w mesh_path out s2)) /\
  exists warned caught,
    stderr (snd (FloorplanPipeline.generate_floorplan_from_mesh
                   w mesh_path out s1))
    = stderr s1 ++ stderr_report w FloorplanPipeline.file warned caught /\
    stderr (snd (NerfstudioAutomate.generate_floorplan_from_mesh
                   w mesh_path out s2))
    = stderr s2 ++ stderr_report w NerfstudioAutomate.file warned caught.
Proof.
  destruct s1 as [f1 t1 o1 e1 tr1], s2 as [f2 t2 o2 e2 tr2].
  unfold same_disk_and_calls. simpl. intros (<- & <- & <-).
  run_script w; (split; [reflexivity|]); (split; [repeat split|]);
    stderr_report_found w.
Qed.

(* ================================================================== *)
(** ** The pipeline, [train_and_export_floorplan] *)

Lemma bind_run {A B} (m : M A) (k : A -> M B) (s : state) :
  bind m k s
  = match m s with
    | (Ok a, s') => k a s'
    | (Raise e, s') => (Raise e, s')
    end.
Proof. reflexivity. Qed.

Lemma print_run (line : string) (s : state) :
  print line s
  = (Ok tt, mkState (fs s) (now s) (stdout s ++ [line]) (stderr s) (trace s)).
Proof. reflexivity. Qed.

Lemma path_exists_run (p : path) (s : state) :
  path_exists p s = (Ok (exists_ (fs s) p), s).
Proof. reflexivity. Qed.

(** Run the calls at the head of a computation, as far as their outcome is
    known. *)
Ltac mrun :=
  repeat first
    [ rewrite bind_run
    | rewrite print_run
    | rewrite path_exists_run
    | progress cbv beta iota
    | progress cbn [fs now stdout stderr trace] ].

(** The validation of [floorplan_pipeline.py], seen from the file system
    [f1] that the first [mkdir] leaves: the data directory is looked at
    first, and one line is printed. *)
Lemma validation_fails (w : World) (data colmap out : path) (iters : Z)
      (s : state) (f1 : filesystem) :
  mkdir_parents (now s) (fs s) [] out = Ok f1 ->
  exists_ f1 data = false \/ exists_ f1 colmap = false ->
  FloorplanPipeline.train_and_export_floorplan w data colmap out iters s
  = (Ok false,
     mkState f1 (now s)
       (stdout s ++ [if exists_ f1 data then colmap_not_found colmap
                     else data_not_found data])
       (stderr s) (trace s)).
Proof.
  intros Hmk Hmiss. unfold FloorplanPipeline.train_and_export_floorplan.
  rewrite bind_run. unfold mkdir at 1. rewrite Hmk. cbv beta iota.
  rewrite bind_run. unfold path_exists at 1. cbv beta iota.
  change (fs (set_fs s f1)) with f1.
  destruct (exists_ f1 data) eqn:Ed; cbv beta iota delta [negb].
  - rewrite bind_run. unfold path_exists at 1. cbv beta iota.
    change (fs (set_fs s f1)) with f1.
    destruct Hmiss as [Hd|Hc]; [discriminate|]. rewrite Hc.
    reflexivity.
  - reflexivity.
Qed.

(** When the output directory cannot be made, the pipeline of either script
    ends there. *)
Lemma mkdir_fails_pipeline (w : World) (data colmap out : path) (iters : Z)
      (s : state) (e : exn) :
  mkdir_parents (now s) (fs s) [] out = Raise e ->
  FloorplanPipeline.train_and_export_floorplan w data colmap out iters s
  = (Raise e, s) /\
  NerfstudioAutomate.train_and_export_floorplan w data colmap out iters s
  = (Raise e, s).
Proof.
  intros Hmk. split.
  - unfold FloorplanPipeline.train_and_export_floorplan.
    rewrite bind_run. unfold mkdir at 1. rewrite Hmk. reflexivity.
  - unfold NerfstudioAutomate.train_and_export_floorplan.
    rewrite bind_run. unfold mkdir at 1. rewrite Hmk. reflexivity.
Qed.

(** C10. [train_and_export_floorplan] of [floorplan_pipeline.py] makes the
    output directory first and validates afterwards: a run that finds an
    input missing returns [False] and leaves the directory on disk (what
    was on disk before is kept), and when the directory cannot be made the
    exception leaves the function before anything is validated or printed.
    In both scripts [generate_floorplan_from_mesh] makes its output
    directory outside the [try]: a failing [mkdir] is not caught and comes
    before any other work, and whenever the function returns the directory
    is there.  The directory is made with its parents, and what exists is
    tolerated: after [mkdir] the directory and all those on the way to it
    are directories; where they were so already, [mkdir] succeeds and
    leaves the disk as it was, so that the pipeline goes on to validate and
    the rasterizer to its [try]; and a second [mkdir] changes nothing. *)
Theorem output_dir_is_made_first (w : World) (out : path) (s : state) :
  (forall data colmap iters f1,
      mkdir_parents (now s) (fs s) [] out = Ok f1 ->
      exists_ f1 data = false \/ exists_ f1 colmap = false ->
      exists s',
        FloorplanPipeline.train_and_export_floorplan w data colmap out iters s
        = (Ok false, s') /\
        fs s' = f1 /\ is_dir (fs s') out = true /\
        forall q n, lookup (fs s) q = Some n -> lookup (fs s') q = Some n) /\
  (forall data colmap iters e,
      mkdir_parents (now s) (fs s) [] out = Raise e ->
      FloorplanPipeline.train_and_export_floorplan w data colmap out iters s
      = (Raise e, s)) /\
  (forall v mesh_path e,
      mkdir_parents (now s) (fs s) [] out = Raise e ->
      generate_floorplan_from_mesh v w mesh_path out s = (Raise e, s)) /\
  (forall v mesh_path f1,
      mkdir_parents (now s) (fs s) [] out = Ok f1 ->
      exists b s',
        generate_floorplan_from_mesh v w mesh_path out s = (Ok b, s') /\
        is_dir (fs s') out = true) /\
  (forall f1 t,
      mkdir_parents (now s) (fs s) [] out = Ok f1 ->
      dirs_along f1 [] out = true /\ mkdir_parents t f1 [] out = Ok f1) /\
  (dirs_along (fs s) [] out = true ->
   mkdir_parents (now s) (fs s) [] out = Ok (fs s) /\
   (forall data colmap iters,
       exists_ (fs s) data = false \/ exists_ (fs s) colmap = false ->
       exists s',
         FloorplanPipeline.train_and_export_floorplan w data colmap out iters s
         = (Ok false, s') /\
         fs s' = fs s) /\
   (forall v mesh_path,
       exists b s',
         generate_floorplan_from_mesh v w mesh_path out s = (Ok b, s'))).
Proof.
  repeat split.
  - intros data colmap iters f1 Hmk Hmiss.
    rewrite (validation_fails w data colmap out iters s f1 Hmk Hmiss).
    eexists. split; [reflexivity|]. simpl. split; [reflexivity|]. split.
    + exact (mkdir_parents_is_dir _ _ _ _ [] eq_refl Hmk).
    + intros q n Hq. exact (mkdir_parents_keeps _ _ _ _ _ _ _ Hmk Hq).
  - intros data colmap iters e Hmk.
    exact (proj1 (mkdir_fails_pipeline w data colmap out iters s e Hmk)).
  - intros v mesh_path e Hmk. destruct v; unfold_script; now rewrite Hmk.
  - intros v mesh_path f1 Hmk.
    destruct (exceptions_are_caught_aux v w mesh_path out s f1 Hmk)
      as ((b & s' & Hrun) & Hdir).
    exists b, s'. split; [exact Hrun|]. now rewrite Hrun in Hdir.
  - exact (mkdir_parents_dirs_along _ _ _ _ _ H).
  - apply mkdir_parents_existing.
    exact (mkdir_parents_dirs_along _ _ _ _ _ H).
  - now apply mkdir_parents_existing.
  - intros data colmap iters Hmiss.
    rewrite (validation_fails w data colmap out iters s (fs s)
               (mkdir_parents_existing _ _ _ _ H) Hmiss).
    eexists. split; reflexivity.
  - intros v mesh_path.
    exact (proj1 (exceptions_are_caught_aux v w mesh_path out s (fs s)
                    (mkdir_parents_existing _ _ _ _ H))).
Qed.

(** On an empty disk the data directory is missing: the run returns
    [False], and the output directory, which was not there, is.  On a disk
    that holds the output directory already, the run returns [False] just
    the same, and the disk is as it was. *)
Lemma output_dir_is_made_first_witness :
  (is_dir (fs blank_state) room_out = false /\
   exists s',
     FloorplanPipeline.train_and_export_floorplan fair_world
       room_data room_colmap room_out 10000 blank_state = (Ok false, s') /\
     fs s' = [(["output"], Dir 7); (room_out, Dir 7)] /\
     is_dir (fs s') room_out = true) /\
  (is_dir (fs output_there) room_out = true /\
   exists s',
     FloorplanPipeline.train_and_export_floorplan fair_world
       room_data room_colmap room_out 10000 output_there = (Ok false, s') /\
     fs s' = fs output_there).
Proof.
  split; (split; [reflexivity|]).
  - destruct (proj1 (output_dir_is_made_first fair_world room_out blank_state)
                    room_data room_colmap 10000
                    [(["output"], Dir 7); (room_out, Dir 7)]
                    eq_refl (or_introl eq_refl))
      as (s' & Hrun & Hfs & Hdir & _).
    exists s'. auto.
  - destruct (proj2 (proj2 (proj2 (proj2 (proj2
                (output_dir_is_made_first fair_world room_out output_there)))))
                eq_refl)
      as (_ & Hrun & _).
    exact (Hrun room_data room_colmap 10000 (or_introl eq_refl)).
Defined.

Local Arguments FloorplanPipeline.train_and_export_floorplan : simpl never.
Local Arguments NerfstudioAutomate.train_and_export_floorplan : simpl never.
Local Arguments generate_floorplan_from_mesh : simpl never.

(** [main] of [floorplan_pipeline.py] when the validation fails on the
    disk that the GPU probe leaves. *)
Lemma main_aborts (w : World) (args : FloorplanPipeline.Args) (s0 : state)
      (f1 : filesystem) :
  mkdir_parents (snd (probe_leaves w s0)) (fst (probe_leaves w s0)) []
                (FloorplanPipeline.args_output args) = Ok f1 ->
  exists_ f1 (FloorplanPipeline.args_data args) = false \/
  exists_ f1 (FloorplanPipeline.args_data args ++ ["colmap"; "sparse"; "0"])
  = false ->
  exists s3,
    FloorplanPipeline.main w args s0 = (Ok 1, s3) /\
    trace s3 = trace s0 ++ [Spawn ["nvidia-smi"]] /\
    fs s3 = f1 /\ stderr s3 = stderr s0.
Proof.
  destruct s0 as [f0 t0 o0 e0 tr0]. destruct args as [data out iters].
  unfold probe_leaves. cbn [fs now FloorplanPipeline.args_output
                            FloorplanPipeline.args_data].
  intros Hmk Hmiss.
  cbv -[FloorplanPipeline.train_and_export_floorplan exists_ run_process
        Z.eqb app String.append str_mul str_path str_int].
  destruct (exists_ f0 _);
    destruct (run_process w _ f0 t0) as [[[rc f] t]|e];
    try destruct (rc =? 0);
    cbn [fst snd] in Hmk; cbv beta iota;
    match goal with
    | |- context [FloorplanPipeline.train_and_export_floorplan
                    w ?d ?c ?o ?i ?st] =>
        rewrite (validation_fails w d c o i st f1 Hmk Hmiss)
    end;
    cbv beta iota; eexists; repeat split.
Qed.

(** With tools that all exit with status 0: on a disk that holds the root
    only, [main] of [floorplan_pipeline.py] with its default arguments has
    run the GPU probe when the pipeline stops for the missing data
    directory; on an empty disk [nerfstudio_automate.py], which validates
    nothing, starts the trainer; and [floorplan_pipeline.py] itself starts
    the trainer when the missing inputs are on the way to the output
    directory, which the first [mkdir] creates. *)
Lemma subprocess_before_abort :
  exists_ (fs root_state) [""; "workspace"; "data"; "room_1"] = false /\
  FloorplanPipeline.main fair_world FloorplanPipeline.default_args root_state
  = (Ok 1,
     mkState [([""], Dir 0); ([""; "workspace"], Dir 7);
              ([""; "workspace"; "output"], Dir 7);
              ([""; "workspace"; "output"; "room_1"], Dir 7)] 7
       [str_mul "=" 60; "FLOOR PLAN GENERATION PIPELINE"; str_mul "=" 60;
        "Data: /workspace/data/room_1"; "Output: /workspace/output/room_1";
        "Iterations: 10000"; ""; "⚠ Not running in Docker";
        "✓ GPU detected"; "";
        "❌ Data directory not found: /workspace/data/room_1";
        nl +++ "❌ Pipeline failed."]
       [] [Spawn ["nvidia-smi"]]) /\
  exists_ (fs blank_state) ["data"; "room_1"] = false /\
  NerfstudioAutomate.train_and_export_floorplan fair_world
    ["data"; "room_1"] ["data"; "room_1"; "colmap"; "sparse"; "0"]
    ["output"; "room_1"] 10000 blank_state
  = (Ok false,
     mkState [(["output"], Dir 7); (["output"; "room_1"], Dir 7)] 7
       [str_mul "=" 60; "STEP 1: TRAINING NERF"; str_mul "=" 60;
        "Running: ns-train nerfacto --output-dir output/room_1 --max-num-iterations 10000 colmap --data data/room_1 --colmap-path colmap/sparse/0";
        "✓ Training complete!";
        nl +++ str_mul "=" 60; "STEP 2: EXPORTING MESH"; str_mul "=" 60;
        "❌ No config.yml found! Training may have failed."]
       []
       [Spawn ["ns-train"; "nerfacto"; "--output-dir"; "output/room_1";
               "--max-num-iterations"; "10000"; "colmap";
               "--data"; "data/room_1"; "--colmap-path"; "colmap/sparse/0"]]) /\
  exists_ (fs blank_state) ["room"] = false /\
  exists_ (fs blank_state) ["room"; "colmap"; "sparse"; "0"] = false /\
  trace (snd (FloorplanPipeline.train_and_export_floorplan fair_world
                ["room"] ["room"; "colmap"; "sparse"; "0"]
                ["room"; "colmap"; "sparse"; "0"; "out"] 10000 blank_state))
  = [Spawn ["ns-train"; "nerfacto";
            "--output-dir"; "room/colmap/sparse/0/out";
            "--max-num-iterations"; "10000"; "colmap";
            "--data"; "room"; "--colmap-path"; "colmap/sparse/0"]].
Proof. repeat split. Qed.

(** C2, amended. In [floorplan_pipeline.py], whenever the data directory or
    the COLMAP path does not exist once the output directory is made (the
    [mkdir] comes first, and makes the output directory and those on the
    way to it), [train_and_export_floorplan] runs no subprocess: it prints
    one line, which names the data directory if that is missing and the
    COLMAP path otherwise, returns [False], and leaves everything else as
    [mkdir] left it; when the output directory cannot be made, the
    exception leaves the function before anything else.  The script's
    [main] has by then run exactly one subprocess, the GPU probe, whatever
    its outcome; on the disk the probe leaves it runs nothing more, and
    exits with status 1. *)
Theorem missing_input_aborts :
  (forall (w : World) (data colmap out : path) (iters : Z) (s : state)
          (f1 : filesystem),
      mkdir_parents (now s) (fs s) [] out = Ok f1 ->
      exists_ f1 data = false \/ exists_ f1 colmap = false ->
      FloorplanPipeline.train_and_export_floorplan w data colmap out iters s
      = (Ok false,
         mkState f1 (now s)
           (stdout s ++ [if exists_ f1 data then colmap_not_found colmap
                         else data_not_found data])
           (stderr s) (trace s))) /\
  (forall (w : World) (data colmap out : path) (iters : Z) (s : state)
          (e : exn),
      mkdir_parents (now s) (fs s) [] out = Raise e ->
      FloorplanPipeline.train_and_export_floorplan w data colmap out iters s
      = (Raise e, s)) /\
  (forall (w : World) (args : FloorplanPipeline.Args) (s0 : state)
          (f1 : filesystem),
      mkdir_parents (snd (probe_leaves w s0)) (fst (probe_leaves w s0)) []
                    (FloorplanPipeline.args_output args) = Ok f1 ->
      exists_ f1 (FloorplanPipeline.args_data args) = false \/
      exists_ f1 (FloorplanPipeline.args_data args
                  ++ ["colmap"; "sparse"; "0"]) = false ->
      exists s3,
        FloorplanPipeline.main w args s0 = (Ok 1, s3) /\
        trace s3 = trace s0 ++ [Spawn ["nvidia-smi"]] /\
        fs s3 = f1 /\ stderr s3 = stderr s0).
Proof.
  split; [|split].
  - exact validation_fails.
  - intros w data colmap out iters s e Hmk.
    exact (proj1 (mkdir_fails_pipeline w data colmap out iters s e Hmk)).
  - exact main_aborts.
Qed.

(** On an empty disk the pipeline reports the data directory and runs
    nothing; on a disk that holds the root only, [main] with the default
    arguments runs the probe and nothing else. *)
Lemma missing_input_aborts_witness :
  trace (snd (FloorplanPipeline.train_and_export_floorplan fair_world
                room_data room_colmap room_out 10000 blank_state))
  = trace blank_state /\
  exists s3,
    FloorplanPipeline.main fair_world FloorplanPipeline.default_args root_state
    = (Ok 1, s3) /\
    trace s3 = trace root_state ++ [Spawn ["nvidia-smi"]].
Proof.
  split.
  - rewrite (proj1 missing_input_aborts fair_world
               room_data room_colmap room_out 10000 blank_state
               [(["output"], Dir 7); (room_out, Dir 7)]
               eq_refl (or_introl eq_refl)).
    reflexivity.
  - destruct (proj2 (proj2 missing_input_aborts) fair_world
                FloorplanPipeline.default_args root_state
                [([""], Dir 0); ([""; "workspace"], Dir 7);
                 ([""; "workspace"; "output"], Dir 7);
                 ([""; "workspace"; "output"; "room_1"], Dir 7)]
                eq_refl (or_introl eq_refl))
      as (s3 & Hrun & Htr & _).
    exists s3. split; assumption.
Defined.

(* ================================================================== *)
(** ** The two pipelines side by side *)

Ltac split_head :=
  match goal with
  | |- context [match ?x with _ => _ end] =>
      lazymatch x with
      | context [match _ with _ => _ end] => fail
      | _ => destruct x eqn:?
      end
  end; cbv beta iota.

(** Whenever the validation of [floorplan_pipeline.py] passes, the two
    [train_and_export_floorplan] run the same commands on the same files. *)
Lemma pipelines_agree_aux (w : World) (data colmap out : path) (iters : Z)
      (s : state) :
  (forall f1, mkdir_parents (now s) (fs s) [] out = Ok f1 ->
              exists_ f1 data = true /\ exists_ f1 colmap = true) ->
  fst (FloorplanPipeline.train_and_export_floorplan w data colmap out iters s)
  = fst (NerfstudioAutomate.train_and_export_floorplan w data colmap out iters s) /\
  same_up_to_logging w (stderr s)
    (snd (FloorplanPipeline.train_and_export_floorplan w data colmap out iters s))
    (snd (NerfstudioAutomate.train_and_export_floorplan w data colmap out iters s)).
Proof.
  destruct s as [f0 t0 o0 e0 tr0]. cbn [fs now stderr]. intros Hin.
  cbv -[mkdir_parents exists_ run_process glob_rec glob_ext newest
        FloorplanPipeline.generate_floorplan_from_mesh
        NerfstudioAutomate.generate_floorplan_from_mesh
        Z.eqb app String.append String.concat str_mul str_path str_int
        div_path parent stderr_report FloorplanPipeline.file
        NerfstudioAutomate.file].
  destruct (mkdir_parents t0 f0 [] out) as [f1|e] eqn:Hmk; cbv beta iota;
    [|repeat split; exists None, None; unfold stderr_report; cbn [app];
      rewrite app_nil_r; split; reflexivity].
  destruct (Hin f1 eq_refl) as [Hd Hc]. rewrite Hd, Hc. cbv beta iota.
  repeat first
    [ match goal with
      | |- context [newest ?files ?st] =>
          rewrite (newest_run st files)
            by (cbn [fs];
                match goal with H : _ = files |- _ => rewrite <- H end;
                first [apply glob_rec_found | apply glob_ext_found]);
          cbn [fs]; cbv beta iota
      end
    | match goal with
      | |- context [FloorplanPipeline.generate_floorplan_from_mesh w ?mp ?od ?st1] =>
          match goal with
          | |- context [NerfstudioAutomate.generate_floorplan_from_mesh w mp od ?st2] =>
              let Hr := fresh "Hr" in
              let Hs := fresh "Hs" in
              let Hl := fresh "Hl" in
              destruct (rasterizers_agree_from w mp od st1 st2)
                as (Hr & Hs & Hl);
              [repeat split|];
              destruct (FloorplanPipeline.generate_floorplan_from_mesh w mp od st1)
                as [r1 [? ? ? ? ?]];
              destruct (NerfstudioAutomate.generate_floorplan_from_mesh w mp od st2)
                as [r2 [? ? ? ? ?]];
              cbn [fst snd] in Hr, Hs, Hl; destruct Hs as (? & ? & ?);
              destruct Hl as (?warned & ?caught & ? & ?);
              cbn [fs now stderr trace] in *; subst; cbv beta iota
          end
      end
    | split_head ];
    (split; [reflexivity|]); (split; [repeat split|]);
    first
      [ exists None, None; unfold stderr_report; cbn [app];
        rewrite app_nil_r; split; reflexivity
      | do 2 eexists; split; reflexivity ].
Qed.

(** With tools that write their results, on an empty disk, the scripts
    part: [floorplan_pipeline.py] finds its data directory missing, runs
    nothing and returns [False], and its entry point exits with status 1;
    given the same paths, [nerfstudio_automate.py] trains, exports and
    rasterizes, returns [True], and its entry point exits with status 0. *)
Lemma scripts_differ :
  fst (FloorplanPipeline.train_and_export_floorplan (studio 0 0 true)
         room_data room_colmap room_out 10000 blank_state) = Ok false /\
  spawned (trace (snd (FloorplanPipeline.train_and_export_floorplan
                         (studio 0 0 true) room_data room_colmap room_out
                         10000 blank_state))) = [] /\
  fst (NerfstudioAutomate.train_and_export_floorplan (studio 0 0 true)
         room_data room_colmap room_out 10000 blank_state) = Ok true /\
  spawned (trace (snd (NerfstudioAutomate.train_and_export_floorplan
                         (studio 0 0 true) room_data room_colmap room_out
                         10000 blank_state)))
  = [train_cmd room_data room_out 10000; export_cmd room_config] /\
  fst (FloorplanPipeline.main (studio 0 0 true)
         {| FloorplanPipeline.args_data := room_data;
            FloorplanPipeline.args_output := room_out;
            FloorplanPipeline.args_iterations := 10000 |} blank_state)
  = Ok 1 /\
  fst (NerfstudioAutomate.main (studio 0 0 true) blank_state) = Ok 0.
Proof. vm_compute. repeat split. Qed.

(** C9, amended. For every world, mesh path, output directory and starting
    state the two [generate_floorplan_from_mesh] return the same value and
    leave the same file system, hence the same floorplan.svg and
    floorplan.png, the same clock and the same trace of library calls.
    They differ in what they log: stdout is left open, and what they add to
    stderr reports the same warnings and the same caught exception, each
    with the name (and the lines) of its own script.  The two
    [train_and_export_floorplan] agree in the same sense on every input
    that passes the validation of [floorplan_pipeline.py], the only one of
    the two that validates.  (On other inputs the scripts part, and their
    entry points end with different statuses, as in the example above.) *)
Theorem rasterizers_agree (w : World) :
  (forall (mesh_path out : path) (s : state),
      fst (FloorplanPipeline.generate_floorplan_from_mesh w mesh_path out s)
      = fst (NerfstudioAutomate.generate_floorplan_from_mesh w mesh_path out s) /\
      same_up_to_logging w (stderr s)
        (snd (FloorplanPipeline.generate_floorplan_from_mesh w mesh_path out s))
        (snd (NerfstudioAutomate.generate_floorplan_from_mesh w mesh_path out s)) /\
      lookup (fs (snd (FloorplanPipeline.generate_floorplan_from_mesh
                         w mesh_path out s))) (svg_path out)
      = lookup (fs (snd (NerfstudioAutomate.generate_floorplan_from_mesh
                           w mesh_path out s))) (svg_path out) /\
      lookup (fs (snd (FloorplanPipeline.generate_floorplan_from_mesh
                         w mesh_path out s))) (png_path out)
      = lookup (fs (snd (NerfstudioAutomate.generate_floorplan_from_mesh
                           w mesh_path out s))) (png_path out)) /\
  (forall (data colmap out : path) (iters : Z) (s : state),
      (forall f1, mkdir_parents (now s) (fs s) [] out = Ok f1 ->
                  exists_ f1 data = true /\ exists_ f1 colmap = true) ->
      fst (FloorplanPipeline.train_and_export_floorplan
             w data colmap out iters s)
      = fst (NerfstudioAutomate.train_and_export_floorplan
               w data colmap out iters s) /\
      same_up_to_logging w (stderr s)
        (snd (FloorplanPipeline.train_and_export_floorplan
                w data colmap out iters s))
        (snd (NerfstudioAutomate.train_and_export_floorplan
                w data colmap out iters s))).
Proof.
  split.
  - intros mesh_path out s.
    destruct (rasterizers_agree_from w mesh_path out s s)
      as (Hr & Hs & Hl); [repeat split|].
    split; [exact Hr|]. split; [split; [exact Hs | exact Hl]|].
    destruct Hs as (Hfs & _). rewrite Hfs. split; reflexivity.
  - exact (pipelines_agree_aux w).
Qed.

(** On a disk that holds the inputs, in the world whose tools write their
    results, both pipelines return the same value; there the rasterizers
    do, too. *)
Lemma rasterizers_agree_witness :
  fst (FloorplanPipeline.train_and_export_floorplan (studio 0 0 true)
         room_data room_colmap room_out 10000 ready_state)
  = fst (NerfstudioAutomate.train_and_export_floorplan (studio 0 0 true)
           room_data room_colmap room_out 10000 ready_state).
Proof.
  apply (proj2 (rasterizers_agree (studio 0 0 true))
               room_data room_colmap room_out 10000 ready_state).
  intros f1 H. cbv in H. injection H as <-. split; reflexivity.
Defined.

(** X1. Whenever the data directory and the COLMAP path exist once the
    output directory is made, or the output directory cannot be made, the
    two [train_and_export_floorplan] return the same value and leave the
    same file system, clock and trace of commands and library calls; what
    they add to stderr reports the same warnings and the same exception,
    each in the words of its script; stdout is left open. *)
Theorem pipelines_agree (w : World) (data colmap out : path) (iters : Z)
        (s : state) :
  (forall f1, mkdir_parents (now s) (fs s) [] out = Ok f1 ->
              exists_ f1 data = true /\ exists_ f1 colmap = true) ->
  fst (FloorplanPipeline.train_and_export_floorplan w data colmap out iters s)
  = fst (NerfstudioAutomate.train_and_export_floorplan w data colmap out iters s) /\
  same_up_to_logging w (stderr s)
    (snd (FloorplanPipeline.train_and_export_floorplan w data colmap out iters s))
    (snd (NerfstudioAutomate.train_and_export_floorplan w data colmap out iters s)).
Proof. exact (pipelines_agree_aux w data colmap out iters s). Qed.

Lemma pipelines_agree_witness :
  fst (FloorplanPipeline.train_and_export_floorplan fair_world
         ["data"; "room_1"] ["data"; "room_1"; "colmap"; "sparse"; "0"]
         ["output"; "room_1"] 10000 ready_state)
  = fst (NerfstudioAutomate.train_and_export_floorplan fair_world
           ["data"; "room_1"] ["data"; "room_1"; "colmap"; "sparse"; "0"]
           ["output"; "room_1"] 10000 ready_state).
Proof.
  apply (pipelines_agree fair_world
           ["data"; "room_1"] ["data"; "room_1"; "colmap"; "sparse"; "0"]
           ["output"; "room_1"] 10000 ready_state).
  intros f1 H. cbv in H. injection H as <-. split; reflexivity.
Defined.

(* ================================================================== *)
(** ** The stages of the pipeline *)

Ltac pipeline_cbv :=
  cbv -[mkdir_parents exists_ run_process glob_rec glob_ext newest
        FloorplanPipeline.generate_floorplan_from_mesh
        NerfstudioAutomate.generate_floorplan_from_mesh
        Z.eqb app String.append String.concat str_mul str_path str_int
        div_path parent mtime_of sorted last_item is_dir lookup].

(** Use what is known about the next call of a pipeline. *)
Ltac known_step :=
  first
    [ match goal with
      | H : ?x = _ |- context [match ?x with _ => _ end] => rewrite H
      end
    | match goal with
      | |- context [newest ?files ?st] =>
          rewrite (newest_run st files)
            by (cbn [fs];
                match goal with H : _ = files |- _ => rewrite <- H end;
                first [apply glob_rec_found | apply glob_ext_found]);
          cbn [fs]
      end
    | progress change (0 =? 0) with true ]; cbv beta iota.

(** Open the stages a run has gone through. *)
Ltac open_stages :=
  repeat match goal with
    | H : exported _ _ _ _ _ _ _ _ _ _ |- _ =>
        destruct H as (?f2 & ?t & H & ?Hexport)
    | H : reaches_export _ _ _ _ _ _ _ _ _ _ |- _ =>
        destruct H as (?f & H & ?Hfound & ?Hconfig & ?Hmkexp)
    | H : trained _ _ _ _ _ _ _ _ _ |- _ =>
        destruct H as (?f1 & H & ?Htrain)
    | H : reaches_training _ _ _ _ _ _ |- _ =>
        destruct H as (?Hmk & ?Hval)
    end.

Ltac finish_pipeline :=
  eexists; repeat split;
  try (cbn [app]; rewrite <- ?app_assoc; reflexivity);
  try (eexists; reflexivity).

Ltac start_pipeline v s :=
  open_stages;
  destruct s as [f0 t0 o0 e0 tr0];
  unfold train_cmd, export_cmd, export_dir_of, newest_of in *;
  cbn [fs now stderr trace stdout] in *;
  destruct v;
  [ match goal with H : validated floorplan_pipeline _ _ _ |- _ =>
      destruct H as [?Hd ?Hc] end
  | match goal with H : validated nerfstudio_automate _ _ _ |- _ =>
      clear H end ];
  pipeline_cbv.

(** The example run, stage by stage. *)
Lemma studio_reaches_training (v : script) :
  reaches_training v room_data room_colmap room_out ready_state ready_out.
Proof. split; [reflexivity | destruct v; simpl; auto]. Defined.

Lemma studio_trained (v : script) (export_rc : Z) (writes_mesh : bool) :
  trained v (studio 0 export_rc writes_mesh) room_data room_colmap room_out
    10000 ready_state trained_disk 8.
Proof.
  exists ready_out. split; [apply studio_reaches_training | reflexivity].
Defined.

Lemma studio_reaches_export (v : script) (export_rc : Z) (writes_mesh : bool) :
  reaches_export v (studio 0 export_rc writes_mesh) room_data room_colmap
    room_out 10000 ready_state room_config export_ready_disk 8.
Proof.
  exists trained_disk. split; [apply studio_trained|].
  split; [cbv; discriminate|]. split; reflexivity.
Defined.

Lemma studio_exported (v : script) (writes_mesh : bool) :
  exported v (studio 0 0 writes_mesh) room_data room_colmap room_out 10000
    ready_state room_config
    (if writes_mesh then exported_disk else export_ready_disk) 9.
Proof.
  exists export_ready_disk, 8. split; [apply studio_reaches_export|].
  destruct writes_mesh; reflexivity.
Defined.

(** X2. Once the output directory is made and the inputs are validated,
    the trainer is the first command: when it exits with a
    non-zero status, [train_and_export_floorplan] prints that the training
    failed and returns [False], leaving the disk and the clock as the
    trainer left them, and nothing else is run; when the trainer cannot be
    started, the exception leaves the function with the call logged. *)
Theorem training_failure_aborts (v : script) (w : World)
        (data colmap out : path) (iters : Z) (s : state) (f1 : filesystem) :
  reaches_training v data colmap out s f1 ->
  (forall rc f t,
      run_process w (train_cmd data out iters) f1 (now s) = Ok (rc, f, t) ->
      rc <> 0 ->
      exists s',
        train_and_export_floorplan v w data colmap out iters s
        = (Ok false, s') /\
        fs s' = f /\ now s' = t /\ stderr s' = stderr s /\
        trace s' = trace s ++ [Spawn (train_cmd data out iters)] /\
        exists printed, stdout s' = printed ++ ["❌ Training failed!"]) /\
  (forall e,
      run_process w (train_cmd data out iters) f1 (now s) = Raise e ->
      exists s',
        train_and_export_floorplan v w data colmap out iters s
        = (Raise e, s') /\
        fs s' = f1 /\
        trace s' = trace s ++ [Spawn (train_cmd data out iters)]).
Proof.
  intros Hreach. split.
  - intros rc f t Hrun Hrc. apply Z.eqb_neq in Hrc.
    start_pipeline v s; repeat known_step;
      eexists; repeat split; eexists; reflexivity.
  - intros e Hrun.
    start_pipeline v s; repeat known_step; eexists; repeat split.
Qed.

Lemma training_failure_aborts_witness :
  fst (train_and_export_floorplan floorplan_pipeline (studio 1 0 true)
         room_data room_colmap room_out 10000 ready_state) = Ok false.
Proof.
  destruct (proj1 (training_failure_aborts floorplan_pipeline (studio 1 0 true)
                     room_data room_colmap room_out 10000 ready_state
                     ready_out (studio_reaches_training floorplan_pipeline))
                  1 trained_disk 8 eq_refl)
    as (s' & Hrun & _); [discriminate|].
  now rewrite Hrun.
Defined.

(** X3. After a training that exits with status 0, a run that finds no
    [config.yml] below the output directory returns [False]; the exporter
    is not started, and the disk is the one the trainer left. *)
Theorem no_config_aborts_before_export (v : script) (w : World)
        (data colmap out : path) (iters : Z) (s : state)
        (f : filesystem) (t : Z) :
  trained v w data colmap out iters s f t ->
  glob_rec f out "config.yml" = [] ->
  exists s',
    train_and_export_floorplan v w data colmap out iters s = (Ok false, s') /\
    fs s' = f /\ now s' = t /\ stderr s' = stderr s /\
    trace s' = trace s ++ [Spawn (train_cmd data out iters)].
Proof.
  intros Htr Hglob.
  start_pipeline v s; repeat known_step; eexists; repeat split.
Qed.

Lemma no_config_aborts_before_export_witness :
  fst (train_and_export_floorplan floorplan_pipeline fair_world
         room_data room_colmap room_out 10000 ready_state) = Ok false.
Proof.
  destruct (no_config_aborts_before_export floorplan_pipeline fair_world
              room_data room_colmap room_out 10000 ready_state ready_out 7)
    as (s' & Hrun & _).
  - exists ready_out. split; [apply studio_reaches_training | reflexivity].
  - reflexivity.
  - now rewrite Hrun.
Defined.

(** X4. The exporter is started only after its output directory, beside
    the newest configuration, has been made.  When it exits with a non-zero
    status the run returns [False] after exactly two commands, the trainer
    and the exporter, and reports the failed export; when it cannot be
    started, the exception leaves the function. *)
Theorem export_failure_aborts (v : script) (w : World)
        (data colmap out : path) (iters : Z) (s : state)
        (config : path) (f2 : filesystem) (t : Z) :
  reaches_export v w data colmap out iters s config f2 t ->
  is_dir f2 (export_dir_of config) = true /\
  (forall rc f3 t3,
      run_process w (export_cmd config) f2 t = Ok (rc, f3, t3) ->
      rc <> 0 ->
      exists s',
        train_and_export_floorplan v w data colmap out iters s
        = (Ok false, s') /\
        fs s' = f3 /\ now s' = t3 /\ stderr s' = stderr s /\
        trace s' = trace s ++ [Spawn (train_cmd data out iters);
                               Spawn (export_cmd config)] /\
        exists printed, stdout s' = printed ++ ["❌ Mesh export failed!"]) /\
  (forall e,
      run_process w (export_cmd config) f2 t = Raise e ->
      exists s',
        train_and_export_floorplan v w data colmap out iters s
        = (Raise e, s') /\
        fs s' = f2 /\
        trace s' = trace s ++ [Spawn (train_cmd data out iters);
                               Spawn (export_cmd config)]).
Proof.
  intros Hreach. split; [|split].
  - open_stages.
    exact (mkdir_parents_is_dir _ _ _ _ [] eq_refl Hmkexp).
  - intros rc f3 t3 Hrun Hrc. apply Z.eqb_neq in Hrc.
    start_pipeline v s; repeat known_step;
      (destruct (glob_rec f out "config.yml") as [|c cs] eqn:Hg;
       [congruence|]); cbv beta iota; repeat known_step;
      finish_pipeline.
  - intros e Hrun.
    start_pipeline v s; repeat known_step;
      (destruct (glob_rec f out "config.yml") as [|c cs] eqn:Hg;
       [congruence|]); cbv beta iota; repeat known_step;
      finish_pipeline.
Qed.

Lemma export_failure_aborts_witness :
  fst (train_and_export_floorplan nerfstudio_automate (studio 0 1 true)
         room_data room_colmap room_out 10000 ready_state) = Ok false.
Proof.
  destruct (proj1 (proj2 (export_failure_aborts nerfstudio_automate
                            (studio 0 1 true) room_data room_colmap room_out
                            10000 ready_state room_config export_ready_disk 8
                            (studio_reaches_export nerfstudio_automate 1 true)))
                  1 exported_disk 9 eq_refl)
    as (s' & Hrun & _); [discriminate|].
  now rewrite Hrun.
Defined.

(** X5. After an export that exits with status 0, a run that finds no
    [*.ply] file directly inside the export directory returns [False]: no
    mesh is loaded, and the disk is the one the exporter left. *)
Theorem no_mesh_aborts (v : script) (w : World)
        (data colmap out : path) (iters : Z) (s : state)
        (config : path) (f3 : filesystem) (t3 : Z) :
  exported v w data colmap out iters s config f3 t3 ->
  glob_ext f3 (export_dir_of config) ".ply" = [] ->
  exists s',
    train_and_export_floorplan v w data colmap out iters s = (Ok false, s') /\
    fs s' = f3 /\ now s' = t3 /\ stderr s' = stderr s /\
    trace s' = trace s ++ [Spawn (train_cmd data out iters);
                           Spawn (export_cmd config)] /\
    exists printed, stdout s' = printed ++ ["❌ No mesh file found!"].
Proof.
  intros Hexp Hglob.
  start_pipeline v s; repeat known_step;
    (destruct (glob_rec f out "config.yml") as [|c cs] eqn:Hg;
     [congruence|]); cbv beta iota; repeat known_step;
    finish_pipeline.
Qed.

Lemma no_mesh_aborts_witness :
  fst (train_and_export_floorplan floorplan_pipeline (studio 0 0 false)
         room_data room_colmap room_out 10000 ready_state) = Ok false.
Proof.
  destruct (no_mesh_aborts floorplan_pipeline (studio 0 0 false)
              room_data room_colmap room_out 10000 ready_state room_config
              export_ready_disk 9 (studio_exported floorplan_pipeline false)
              eq_refl)
    as (s' & Hrun & _).
  now rewrite Hrun.
Defined.

(** X6. When the exporter has left meshes, the pipeline hands the newest
    of them to [generate_floorplan_from_mesh], with [<output>/floorplan]
    as output directory, on the disk the exporter left: the pipeline
    returns what the rasterizer returns there, and ends in the state the
    rasterizer ends in, up to what is printed. *)
Theorem newest_mesh_is_rasterized (v : script) (w : World)
        (data colmap out : path) (iters : Z) (s : state)
        (config mesh_path : path) (f3 : filesystem) (t3 : Z) :
  exported v w data colmap out iters s config f3 t3 ->
  glob_ext f3 (export_dir_of config) ".ply" <> [] ->
  newest_of f3 (glob_ext f3 (export_dir_of config) ".ply") = Ok mesh_path ->
  exists s_mid,
    fs s_mid = f3 /\ now s_mid = t3 /\ stderr s_mid = stderr s /\
    trace s_mid = trace s ++ [Spawn (train_cmd data out iters);
                              Spawn (export_cmd config)] /\
    fst (train_and_export_floorplan v w data colmap out iters s)
    = fst (generate_floorplan_from_mesh v w mesh_path
             (div_path out "floorplan") s_mid) /\
    same_but_stdout
      (snd (train_and_export_floorplan v w data colmap out iters s))
      (snd (generate_floorplan_from_mesh v w mesh_path
              (div_path out "floorplan") s_mid)).
Proof.
  intros Hexp Hne Hmesh.
  start_pipeline v s; repeat known_step;
    (destruct (glob_rec f out "config.yml") as [|c cs] eqn:Hg;
     [congruence|]); cbv beta iota; repeat known_step;
    (destruct (glob_ext f3 _ ".ply") as [|m ms] eqn:Hgm;
     [congruence|]); cbv beta iota; repeat known_step;
    match goal with
    | |- context [?gen w mesh_path (div_path out "floorplan") ?st] =>
        exists st; destruct (gen w mesh_path (div_path out "floorplan") st)
          as [[[|]|e] [? ? ? ? ?]]
    end;
    cbv beta iota; repeat split; rewrite <- app_assoc; reflexivity.
Qed.

Lemma newest_mesh_is_rasterized_witness :
  exists s_mid,
    fs s_mid = exported_disk /\
    fst (train_and_export_floorplan nerfstudio_automate (studio 0 0 true)
           room_data room_colmap room_out 10000 ready_state)
    = fst (generate_floorplan_from_mesh nerfstudio_automate (studio 0 0 true)
             room_mesh (div_path room_out "floorplan") s_mid).
Proof.
  destruct (newest_mesh_is_rasterized nerfstudio_automate (studio 0 0 true)
              room_data room_colmap room_out 10000 ready_state room_config
              room_mesh exported_disk 9
              (studio_exported nerfstudio_automate true))
    as (s_mid & Hfs & _ & _ & _ & Hres & _).
  - cbv; discriminate.
  - reflexivity.
  - exists s_mid. split; assumption.
Defined.

(* ================================================================== *)
(** ** What the rasterizer touches *)


(** The events a run of the rasterizer adds to the trace. *)
Lemma rasterizer_trace (v : script) (w : World) (mesh_path out : path)
      (s : state) :
  trace (snd (generate_floorplan_from_mesh v w mesh_path out s)) = trace s \/
  trace (snd (generate_floorplan_from_mesh v w mesh_path out s))
  = trace s ++ [MeshLoad mesh_path] \/
  exists mesh o n,
    trace (snd (generate_floorplan_from_mesh v w mesh_path out s))
    = trace s ++ [MeshLoad mesh_path; MeshSection mesh o n].
Proof.
  destruct v; run_script w; rewrite <- ?app_assoc; simpl; eauto 8.
Qed.

Lemma rasterizer_clock (v : script) (w : World) (mesh_path out : path)
      (s : state) :
  now (snd (generate_floorplan_from_mesh v w mesh_path out s)) = now s.
Proof. destruct v; run_script w; reflexivity. Qed.

Lemma spawned_app (l1 l2 : list event) :
  spawned (l1 ++ l2) = spawned l1 ++ spawned l2.
Proof.
  induction l1 as [|[cmd|p|m o n] l1 IH]; simpl; congruence.
Qed.

Lemma rasterizer_spawns_nothing (v : script) (w : World)
      (mesh_path out : path) (s : state) :
  spawned (trace (snd (generate_floorplan_from_mesh v w mesh_path out s)))
  = spawned (trace s).
Proof.
  destruct (rasterizer_trace v w mesh_path out s)
    as [->|[->|(mesh & o & n & ->)]]; auto;
    rewrite spawned_app; simpl; apply app_nil_r.
Qed.



(* ================================================================== *)
(** ** The commands of a run *)

Ltac pipeline_cbv_all :=
  cbv -[mkdir_parents exists_ run_process glob_rec glob_ext newest
        FloorplanPipeline.generate_floorplan_from_mesh
        NerfstudioAutomate.generate_floorplan_from_mesh
        Z.eqb app String.append String.concat str_mul str_path str_int
        div_path parent mtime_of sorted last_item is_dir lookup spawned
        paint].

(** Split on the outcome of the next call of a pipeline; the rasterizer is
    taken as a whole, with what [fact] says about it. *)
Ltac any_step w fact :=
  first
    [ match goal with
      | |- context [newest ?files ?st] =>
          rewrite (newest_run st files)
            by (cbn [fs];
                match goal with H : _ = files |- _ => rewrite <- H end;
                first [apply glob_rec_found | apply glob_ext_found]);
          cbn [fs]; cbv beta iota
      end
    | match goal with
      | |- context [FloorplanPipeline.generate_floorplan_from_mesh w ?mp ?od ?st] =>
          let H := fresh "Hgen" in
          pose proof (fact floorplan_pipeline w mp od st) as H;
          cbv beta iota delta [generate_floorplan_from_mesh] in H;
          destruct (FloorplanPipeline.generate_floorplan_from_mesh w mp od st)
            as [[[|]|?] [? ? ? ? ?]];
          cbn [fst snd fs now stdout stderr trace] in H; cbv beta iota
      | |- context [NerfstudioAutomate.generate_floorplan_from_mesh w ?mp ?od ?st] =>
          let H := fresh "Hgen" in
          pose proof (fact nerfstudio_automate w mp od st) as H;
          cbv beta iota delta [generate_floorplan_from_mesh] in H;
          destruct (NerfstudioAutomate.generate_floorplan_from_mesh w mp od st)
            as [[[|]|?] [? ? ? ? ?]];
          cbn [fst snd fs now stdout stderr trace] in H; cbv beta iota
      end
    | split_head ].

(** X8. Whatever the tools and the libraries answer,
    [train_and_export_floorplan] runs at most two commands, in this order:
    the trainer, with the arguments built from the data directory, the
    output directory and the number of iterations, then the exporter on
    some configuration. *)
Theorem at_most_two_subprocesses (v : script) (w : World)
        (data colmap out : path) (iters : Z) (s : state) :
  exists cmds,
    spawned (trace (snd (train_and_export_floorplan v w data colmap out iters s)))
    = spawned (trace s) ++ cmds /\
    (cmds = [] \/
     cmds = [train_cmd data out iters] \/
     exists config, cmds = [train_cmd data out iters; export_cmd config]).
Proof.
  destruct s as [f0 t0 o0 e0 tr0]. cbn [trace].
  destruct v; pipeline_cbv_all;
    repeat any_step w rasterizer_spawns_nothing;
    rewrite ?Hgen, ?spawned_app; cbn [spawned]; rewrite <- ?app_assoc;
    cbn [app];
    first
      [ exists []; split; [symmetry; apply app_nil_r | now left]
      | eexists; split; [reflexivity|];
        first [ right; left; reflexivity
              | right; right; eexists; reflexivity ] ].
Qed.

(** A run of the rasterizer that returns [True] leaves both files. *)
Lemma returns_true_files (v : script) (w : World) (mesh_path out : path)
      (s s' : state) :
  generate_floorplan_from_mesh v w mesh_path out s = (Ok true, s') ->
  exists slice_2d img,
    lookup (fs s') (svg_path out) = Some (File (now s) (SvgOf slice_2d)) /\
    lookup (fs s') (png_path out) = Some (File (now s) (PngOf img)) /\
    paint w slice_2d = Ok img.
Proof.
  unfold svg_path, png_path.
  destruct v; run_script w; intros H; try discriminate;
    injection H as <-; simpl; do 2 eexists; (split; [|split; [|eauto]]);
    match goal with
    | Hs : write_file _ _ (div_path out "floorplan.svg") _ = Ok ?f2,
      Hp : write_file _ ?f2 (div_path out "floorplan.png") _ = Ok _ |- _ =>
        first
          [ exact (write_file_same _ _ _ _ _ Hp)
          | rewrite (write_file_other _ _ _ _ _ _ Hp)
              by (intros Heq; apply app_inv_head in Heq; discriminate);
            exact (write_file_same _ _ _ _ _ Hs) ]
    end.
Qed.

(** The same, for the final state of any run. *)
Lemma returns_true_files_snd (v : script) (w : World) (mesh_path out : path)
      (s : state) :
  fst (generate_floorplan_from_mesh v w mesh_path out s) = Ok true ->
  exists slice_2d img,
    lookup (fs (snd (generate_floorplan_from_mesh v w mesh_path out s)))
           (svg_path out) = Some (File (now s) (SvgOf slice_2d)) /\
    lookup (fs (snd (generate_floorplan_from_mesh v w mesh_path out s)))
           (png_path out) = Some (File (now s) (PngOf img)) /\
    paint w slice_2d = Ok img.
Proof.
  intros H. apply (returns_true_files v w mesh_path out s).
  apply run_pair, H.
Qed.

(** X9. A pipeline that returns [True] has run the trainer and the
    exporter and nothing else, and has left [floorplan.svg] and
    [floorplan.png] in [<output>/floorplan], written at the time the run
    ends; the PNG is the painting of the slice that the SVG holds. *)
Theorem success_leaves_both_files (v : script) (w : World)
        (data colmap out : path) (iters : Z) (s s' : state) :
  train_and_export_floorplan v w data colmap out iters s = (Ok true, s') ->
  exists config slice_2d img t,
    spawned (trace s')
    = spawned (trace s) ++ [train_cmd data out iters; export_cmd config] /\
    lookup (fs s') (svg_path (div_path out "floorplan"))
    = Some (File t (SvgOf slice_2d)) /\
    lookup (fs s') (png_path (div_path out "floorplan"))
    = Some (File t (PngOf img)) /\
    paint w slice_2d = Ok img /\
    now s' = t.
Proof.
  destruct s as [f0 t0 o0 e0 tr0]. cbn [trace].
  pose proof rasterizer_spawns_nothing as Hsp.
  pose proof rasterizer_clock as Hclk.
  pose proof returns_true_files_snd as Hfiles.
  destruct v; pipeline_cbv_all;
    repeat any_step w (fun v w mp od st =>
                         conj (Hsp v w mp od st)
                              (conj (Hclk v w mp od st) (Hfiles v w mp od st)));
    intros Hrun; try discriminate; injection Hrun; intros; subst;
    cbn [fs now trace];
    destruct Hgen as (Hs & Hc & Hf);
    destruct (Hf eq_refl) as (slice_2d & img & Hsvg & Hpng & Hpaint);
    cbn [now] in *;
    eexists; exists slice_2d, img; eexists;
    (split; [|split; [exact Hsvg|split; [exact Hpng|split; [exact Hpaint|exact Hc]]]]);
    rewrite Hs, !spawned_app; cbn [spawned]; rewrite <- ?app_assoc;
    cbn [app]; rewrite ?app_nil_r; reflexivity.
Qed.

Lemma success_leaves_both_files_witness :
  exists config slice_2d img,
    spawned (trace (snd (train_and_export_floorplan floorplan_pipeline
                           (studio 0 0 true) room_data room_colmap room_out
                           10000 ready_state)))
    = [train_cmd room_data room_out 10000; export_cmd config] /\
    lookup (fs (snd (train_and_export_floorplan floorplan_pipeline
                       (studio 0 0 true) room_data room_colmap room_out
                       10000 ready_state)))
           (png_path (div_path room_out "floorplan"))
    = Some (File 9 (PngOf img)) /\
    paint (studio 0 0 true) slice_2d = Ok img.
Proof.
  destruct (success_leaves_both_files floorplan_pipeline (studio 0 0 true)
              room_data room_colmap room_out 10000 ready_state
              (snd (train_and_export_floorplan floorplan_pipeline
                      (studio 0 0 true) room_data room_colmap room_out
                      10000 ready_state))
              (run_pair (train_and_export_floorplan floorplan_pipeline
                           (studio 0 0 true) room_data room_colmap room_out
                           10000)
                        ready_state (Ok true) eq_refl))
    as (config & slice_2d & img & t & Hsp & _ & Hpng & Hpaint & Ht).
  exists config, slice_2d, img. split; [exact Hsp|]. split; [|exact Hpaint].
  rewrite Hpng, <- Ht. reflexivity.
Defined.

(* ================================================================== *)
(** ** The two entry points *)

(** X10. [main] of [floorplan_pipeline.py] runs one command before the
    pipeline, the GPU probe, whose outcome changes nothing but what is
    printed: whether the probe succeeds, fails or cannot be started, the
    pipeline is run next, on the disk the probe left.  The exit status is
    0 when the pipeline returns [True] and 1 when it returns [False]; an
    exception of the pipeline leaves [main]. *)
Theorem main_exit_status (w : World) (args : FloorplanPipeline.Args)
        (s0 : state) :
  exists s1,
    trace s1 = trace s0 ++ [Spawn ["nvidia-smi"]] /\
    stderr s1 = stderr s0 /\
    (fs s1, now s1)
    = match run_process w ["nvidia-smi"] (fs s0) (now s0) with
      | Ok (_, f, t) => (f, t)
      | Raise _ => (fs s0, now s0)
      end /\
    match FloorplanPipeline.train_and_export_floorplan w
            (FloorplanPipeline.args_data args)
            (FloorplanPipeline.args_data args ++ ["colmap"; "sparse"; "0"])
            (FloorplanPipeline.args_output args)
            (FloorplanPipeline.args_iterations args) s1 with
    | (Ok success, s2) =>
        exists s3,
          FloorplanPipeline.main w args s0
          = (Ok (if success : bool then 0 else 1), s3) /\
          same_but_stdout s3 s2
    | (Raise e, s2) => FloorplanPipeline.main w args s0 = (Raise e, s2)
    end.
Proof.
  destruct s0 as [f0 t0 o0 e0 tr0]. destruct args as [data out iters].
  cbv -[FloorplanPipeline.train_and_export_floorplan exists_ run_process
        Z.eqb app String.append str_mul str_path str_int].
  destruct (exists_ f0 _);
    destruct (run_process w _ f0 t0) as [[[rc f] t]|e];
    try destruct (rc =? 0);
    cbv beta iota;
    match goal with
    | |- context [FloorplanPipeline.train_and_export_floorplan _ ?d ?c ?o ?i ?st] =>
        exists st;
        destruct (FloorplanPipeline.train_and_export_floorplan w d c o i st)
          as [[[|]|x] [? ? ? ? ?]]
    end;
    cbv beta iota;
    repeat first [ reflexivity | split | eexists ].
Qed.

(** X11. [main] of [nerfstudio_automate.py] runs nothing before the
    pipeline, which it calls on its fixed paths, and ends with status 0
    whatever the pipeline returned, [False] included. *)
Theorem main_always_exits_zero (w : World) (s0 : state) :
  exists s1,
    same_but_stdout s1 s0 /\
    match NerfstudioAutomate.train_and_export_floorplan w
            ["data"; "room_1"] ["data"; "room_1"; "colmap"; "sparse"; "0"]
            ["output"; "room_1"] 10000 s1 with
    | (Ok _, s2) =>
        exists s3,
          NerfstudioAutomate.main w s0 = (Ok 0, s3) /\ same_but_stdout s3 s2
    | (Raise e, s2) => NerfstudioAutomate.main w s0 = (Raise e, s2)
    end.
Proof.
  destruct s0 as [f0 t0 o0 e0 tr0].
  unfold NerfstudioAutomate.main. cbv zeta.
  change (Path "./data/room_1") with ["data"; "room_1"].
  change (Path "./data/room_1/colmap/sparse/0")
    with ["data"; "room_1"; "colmap"; "sparse"; "0"].
  change (Path "./output/room_1") with ["output"; "room_1"].
  cbv -[NerfstudioAutomate.train_and_export_floorplan
        Z.eqb app String.append str_mul str_path str_int].
  match goal with
  | |- context [NerfstudioAutomate.train_and_export_floorplan _ ?d ?c ?o ?i ?st] =>
      exists st;
      destruct (NerfstudioAutomate.train_and_export_floorplan w d c o i st)
        as [[[|]|x] [? ? ? ? ?]]
  end;
    cbv beta iota;
    repeat first [ reflexivity | split | eexists ].
Qed.

(* ================================================================== *)
(** ** Failures inside the rasterizer *)

(** X12. A mesh without bounds (an empty mesh, for which [mesh.bounds]
    is [None]) makes the rasterizer return [False]: the subscript raises a
    [TypeError] that is caught and reported, on stdout by the error line
    and on stderr by its traceback as the script renders it; the mesh has
    been loaded, but no section is computed and no file is written. *)
Theorem mesh_without_bounds_fails (v : script) (w : World)
        (mesh_path out : path) (s : state) (f1 : filesystem) (mesh : Mesh) :
  mkdir_parents (now s) (fs s) [] out = Ok f1 ->
  trimesh_load w f1 mesh_path = Ok mesh ->
  mesh_bounds mesh = None ->
  exists s' e,
    generate_floorplan_from_mesh v w mesh_path out s = (Ok false, s') /\
    exn_class e = "TypeError" /\
    fs s' = f1 /\
    trace s' = trace s ++ [MeshLoad mesh_path] /\
    stderr s' = stderr s ++ format_exc w (script_file v) e /\
    exists printed, stdout s' = printed ++ [error_line v e].
Proof.
  intros Hmk Hload Hb.
  destruct v; run_script w;
    eexists; exists (Exn "TypeError" "'NoneType' object is not subscriptable");
    repeat split; eexists; reflexivity.
Qed.

Lemma mesh_without_bounds_fails_witness :
  fst (generate_floorplan_from_mesh floorplan_pipeline empty_mesh_world
         ["mesh.ply"] ["out"; "floorplan"] blank_state) = Ok false.
Proof.
  destruct (mesh_without_bounds_fails floorplan_pipeline empty_mesh_world
              ["mesh.ply"] ["out"; "floorplan"] blank_state
              [(["out"], Dir 7); (["out"; "floorplan"], Dir 7)] empty_mesh
              eq_refl eq_refl eq_refl)
    as (s' & e & Hrun & _).
  now rewrite Hrun.
Defined.

Lemma np_take_raise (a : list point) (idx : list Z) (i : Z) :
  In i idx -> out_of_bounds (List.length a) i ->
  exists e, np_take a idx = Raise e.
Proof.
  intros Hin Hout. induction idx as [|j rest IH]; [contradiction|].
  simpl. destruct (np_item a j) as [p|e] eqn:Ej; [|eauto].
  destruct Hin as [->|Hin].
  - exfalso. revert Ej. unfold np_item, out_of_bounds in *.
    destruct (i <? 0) eqn:Ei;
      [apply Z.ltb_lt in Ei | apply Z.ltb_ge in Ei];
      match goal with
      | |- context [if ?c then _ else _] =>
          assert (c = false) as ->
            by (apply andb_false_iff;
                rewrite Z.leb_gt, Z.ltb_ge; lia)
      end; discriminate.
  - destruct (IH Hin) as (e & ->). eauto.
Qed.

Lemma fold_result_raise {A S} (f : A -> S -> result S) (l : list A) (x : A) :
  In x l -> (forall acc, exists e, f x acc = Raise e) ->
  forall acc, exists e, fold_result f l acc = Raise e.
Proof.
  intros Hin Hx. induction l as [|y ys IH]; [contradiction|].
  intros acc. simpl. destruct (f y acc) as [acc'|e] eqn:Ey; [|eauto].
  destruct Hin as [->|Hin].
  - destruct (Hx acc) as (e & He). congruence.
  - apply IH, Hin.
Qed.

(** An index out of range stops the drawing, whichever entity lists it. *)
Lemma paint_bad_index (w : World) (p : Path2D) (entity : list Z) (i : Z) :
  vertices p <> [] -> In entity (entities p) -> In i entity ->
  out_of_bounds (List.length (vertices p)) i ->
  exists e, paint w p = Raise e.
Proof.
  intros Hne Hent Hi Hout. unfold paint.
  destruct (vertices p) as [|v0 vs] eqn:Ev; [congruence|].
  change (0 <? List.length (v0 :: vs))%nat with true. cbv iota.
  change (amin (v0 :: vs))
    with (Ok (np_min (fst v0) (map fst vs), np_min (snd v0) (map snd vs))).
  change (amax (v0 :: vs))
    with (Ok (np_max (fst v0) (map fst vs), np_max (snd v0) (map snd vs))).
  cbv iota.
  apply (fold_result_raise _ _ entity Hent). intros acc.
  unfold draw_entity.
  destruct (np_take_raise
              (to_image_space (v0 :: vs)
                 (np_min (fst v0) (map fst vs), np_min (snd v0) (map snd vs))
                 (np_max (fst v0) (map fst vs), np_max (snd v0) (map snd vs)))
              entity i Hi) as (e & ->); [|eauto].
  rewrite to_image_space_map, length_map. exact Hout.
Qed.

(** A failure of the drawing part, after the SVG is written. *)
Lemma drawing_failure (v : script) (w : World) (mesh_path out : path)
      (s : state) (slice_2d : Path2D) (f2 : filesystem) (e : exn) :
  sliced w s mesh_path out slice_2d f2 ->
  paint w slice_2d = Raise e ->
  exists s',
    generate_floorplan_from_mesh v w mesh_path out s = (Ok false, s') /\
    fs s' = f2 /\
    stderr s'
    = stderr s ++ normalization_warnings w (script_file v) slice_2d
      ++ format_exc w (script_file v) e /\
    exists printed, stdout s' = printed ++ [error_line v e].
Proof.
  intros H Hpaint. open_sliced H.
  destruct v; run_script w;
    eexists; repeat split; try (eexists; reflexivity);
    simpl; rewrite <- app_assoc; reflexivity.
Qed.

(** X13. When the slice has vertices and an entity lists an index that
    is out of range for them, the drawing fails: the rasterizer returns
    [False]; stderr receives the warnings of the normalization, if any,
    and then the traceback; the SVG written before stays on disk, and no
    PNG is written ([floorplan.png] is what it was before the run). *)
Theorem bad_index_fails_after_svg (v : script) (w : World)
        (mesh_path out : path) (s : state) (slice_2d : Path2D)
        (f2 : filesystem) (entity : list Z) (i : Z) :
  sliced w s mesh_path out slice_2d f2 ->
  vertices slice_2d <> [] ->
  In entity (entities slice_2d) -> In i entity ->
  out_of_bounds (List.length (vertices slice_2d)) i ->
  exists s' e,
    generate_floorplan_from_mesh v w mesh_path out s = (Ok false, s') /\
    stderr s'
    = stderr s ++ normalization_warnings w (script_file v) slice_2d
      ++ format_exc w (script_file v) e /\
    lookup (fs s') (svg_path out) = Some (File (now s) (SvgOf slice_2d)) /\
    lookup (fs s') (png_path out) = lookup (fs s) (png_path out).
Proof.
  intros Hsl Hne Hent Hi Hout.
  destruct (paint_bad_index w slice_2d entity i Hne Hent Hi Hout) as (e & Hp).
  destruct (drawing_failure v w mesh_path out s slice_2d f2 e Hsl Hp)
    as (s' & Hrun & Hfs & Herr & _).
  exists s', e. split; [exact Hrun|]. split; [exact Herr|].
  rewrite Hfs. open_sliced Hsl. unfold svg_path, png_path. split.
  - exact (write_file_same _ _ _ _ _ Hsvg).
  - rewrite (write_file_other _ _ _ _ _ _ Hsvg)
      by (intros Heq; apply app_inv_head in Heq; discriminate).
    apply (mkdir_parents_other _ _ _ _ _ _ Hmk).
    apply is_prefix_longer.
Qed.

Lemma stray_index_world_sliced :
  sliced stray_index_world blank_state ["mesh.ply"] ["out"; "floorplan"]
    stray_index_slice
    [(["out"], Dir 7); (["out"; "floorplan"], Dir 7);
     (["out"; "floorplan"; "floorplan.svg"], File 7 (SvgOf stray_index_slice))].
Proof.
  exists [(["out"], Dir 7); (["out"; "floorplan"], Dir 7)], unit_cube,
    (0, 0, 0)%Q, (1, 1, 1)%Q, {| p3_vertices := []; p3_entities := [] |}.
  repeat split.
Defined.

Lemma bad_index_fails_after_svg_witness :
  exists s',
    generate_floorplan_from_mesh nerfstudio_automate stray_index_world
      ["mesh.ply"] ["out"; "floorplan"] blank_state = (Ok false, s') /\
    lookup (fs s') (png_path ["out"; "floorplan"]) = None.
Proof.
  destruct (bad_index_fails_after_svg nerfstudio_automate stray_index_world
              ["mesh.ply"] ["out"; "floorplan"] blank_state stray_index_slice
              _ [1; 2] 2 stray_index_world_sliced)
    as (s' & e & Hrun & _ & _ & Hpng).
  - discriminate.
  - simpl; auto.
  - simpl; auto.
  - right. simpl. lia.
  - exists s'. split; [exact Hrun | exact Hpng].
Defined.

(** X14. How a run of the rasterizer reports: either [mkdir] fails and
    its exception leaves the function with the state untouched; or no
    exception is raised inside the [try], the run returns a boolean, stdout
    has only grown and stderr has received nothing but the warnings of the
    normalization of the slice, if the run got that far; or an exception
    is caught, the run returns [False], stderr receives those warnings and
    then the traceback of that exception as the script renders it, and the
    last line on stdout is the script's error line with its message. *)
Theorem errors_are_reported (v : script) (w : World) (mesh_path out : path)
        (s : state) :
  (exists e,
      mkdir_parents (now s) (fs s) [] out = Raise e /\
      generate_floorplan_from_mesh v w mesh_path out s = (Raise e, s)) \/
  (exists b printed warned,
      fst (generate_floorplan_from_mesh v w mesh_path out s) = Ok b /\
      stderr (snd (generate_floorplan_from_mesh v w mesh_path out s))
      = stderr s ++ stderr_report w (script_file v) warned None /\
      stdout (snd (generate_floorplan_from_mesh v w mesh_path out s))
      = stdout s ++ printed /\
      reached_drawing w s mesh_path out warned) \/
  (exists e printed warned,
      fst (generate_floorplan_from_mesh v w mesh_path out s) = Ok false /\
      stderr (snd (generate_floorplan_from_mesh v w mesh_path out s))
      = stderr s ++ stderr_report w (script_file v) warned (Some e) /\
      stdout (snd (generate_floorplan_from_mesh v w mesh_path out s))
      = printed ++ [error_line v e] /\
      reached_drawing w s mesh_path out warned).
Proof.
  unfold reached_drawing, sliced, stderr_report.
  destruct v; run_script w;
    first
      [ solve [left; eexists; split; reflexivity]
      | solve
          [ right; right;
            first
              [ match goal with
                | |- context [exn_msg ?e] => exists e
                end
              | exists (Exn "TypeError" "'NoneType' object is not subscriptable") ];
            eexists;
            first
              [ match goal with
                | |- context [normalization_warnings w _ ?p] => exists (Some p)
                end;
                (split; [reflexivity|]);
                (split; [cbn [app]; rewrite <- ?app_assoc; reflexivity|]);
                (split; [reflexivity|]);
                do 6 eexists; repeat split; eauto
              | exists None;
                (split; [reflexivity|]);
                (split; [reflexivity|]);
                (split; [reflexivity | exact I]) ] ]
      | solve
          [ right; left; do 2 eexists;
            first
              [ match goal with
                | |- context [normalization_warnings w _ ?p] => exists (Some p)
                end;
                (split; [reflexivity|]);
                (split; [cbn [app]; rewrite ?app_nil_r; reflexivity|]);
                (split; [rewrite <- ?app_assoc; reflexivity|]);
                do 6 eexists; repeat split; eauto
              | exists None;
                (split; [reflexivity|]);
                (split; [cbn [app]; rewrite ?app_nil_r; reflexivity|]);
                (split; [rewrite <- ?app_assoc; reflexivity|]);
                exact I ] ] ].
Qed.

(* ================================================================== *)
(** ** The normalization and the validation *)

Lemma np_min_In (xs : list Q) : forall x0 : Q, In (np_min x0 xs) (x0 :: xs).
Proof.
  induction xs as [|y ys IH]; intros x0; [now left|].
  change (np_min x0 (y :: ys)) with (np_min (Qmin x0 y) ys).
  destruct (IH (Qmin x0 y)) as [H|H].
  - rewrite <- H. unfold Qmin, GenericMinMax.gmin.
    destruct (x0 ?= y)%Q; simpl; auto.
  - right. now right.
Qed.

Lemma np_max_In (xs : list Q) : forall x0 : Q, In (np_max x0 xs) (x0 :: xs).
Proof.
  induction xs as [|y ys IH]; intros x0; [now left|].
  change (np_max x0 (y :: ys)) with (np_max (Qmax x0 y) ys).
  destruct (IH (Qmax x0 y)) as [H|H].
  - rewrite <- H. unfold Qmax, GenericMinMax.gmax.
    destruct (x0 ?= y)%Q; simpl; auto.
  - right. now right.
Qed.

(** The column minima and maxima are coordinates of vertices. *)
Lemma amin_amax_attained (vs : list (Q * Q)) (lo hi : Q * Q) :
  amin vs = Ok lo -> amax vs = Ok hi ->
  (exists v, In v vs /\ fst v = fst lo) /\
  (exists v, In v vs /\ fst v = fst hi) /\
  (exists v, In v vs /\ snd v = snd lo) /\
  (exists v, In v vs /\ snd v = snd hi).
Proof.
  destruct vs as [|v0 vs]; [discriminate|]. simpl.
  intros Hlo Hhi. injection Hlo as <-. injection Hhi as <-. simpl.
  assert (Hcol : forall (f : Q * Q -> Q) x,
             In x (f v0 :: map f vs) ->
             exists v, (v0 = v \/ In v vs) /\ f v = x).
  { intros f x [<-|Hin]; [eauto|].
    apply in_map_iff in Hin. destruct Hin as (v & <- & Hv). eauto. }
  repeat split; apply Hcol; auto using np_min_In, np_max_In.
Qed.

Lemma rescale_lo (lo hi : Q) :
  finite_extent lo hi -> exists x, rescale lo lo hi = Fin x /\ (x == 50)%Q.
Proof.
  intros Hext.
  assert (Hin : (lo <= lo <= hi)%Q)
    by (destruct Hext; split; [apply Qle_refl | now apply Qlt_le_weak]).
  rewrite (rescale_exact lo lo hi Hext Hin).
  eexists. split; [reflexivity|].
  change (inject_Z 1900) with 1900%Q. change (inject_Z 50) with 50%Q.
  destruct Hext as [Hlt _].
  assert (H0 : ((lo - lo) / (hi - lo) == 0)%Q) by (field; lra).
  rewrite H0. lra.
Qed.

Lemma rescale_hi (lo hi : Q) :
  finite_extent lo hi -> exists x, rescale hi lo hi = Fin x /\ (x == 1950)%Q.
Proof.
  intros Hext.
  assert (Hin : (lo <= hi <= hi)%Q)
    by (destruct Hext; split; [now apply Qlt_le_weak | apply Qle_refl]).
  rewrite (rescale_exact hi lo hi Hext Hin).
  eexists. split; [reflexivity|].
  change (inject_Z 1900) with 1900%Q. change (inject_Z 50) with 50%Q.
  destruct Hext as [Hlt _].
  assert (H1 : ((hi - lo) / (hi - lo) == 1)%Q) by (field; lra).
  rewrite H1. lra.
Qed.

(** X15. The normalization stretches each axis on its own to the full
    canvas inside the margin: when the extent on both axes is positive
    and does not overflow float64, some vertex lands on X = 50, some on
    X = 1950, some on Y = 50 and some on Y = 1950, so that the aspect ratio
    of the slice is not kept.  (These four values are exact in float64,
    too: [0 * 1900 + 50] and [1 * 1900 + 50].) *)
Theorem drawing_fills_canvas (vs : list (Q * Q)) (lo hi : Q * Q) :
  amin vs = Ok lo -> amax vs = Ok hi ->
  finite_extent (fst lo) (fst hi) -> finite_extent (snd lo) (snd hi) ->
  (exists p x, In p (to_image_space vs lo hi) /\ fst p = Fin x /\ (x == 50)%Q) /\
  (exists p x, In p (to_image_space vs lo hi) /\ fst p = Fin x /\ (x == 1950)%Q) /\
  (exists p y, In p (to_image_space vs lo hi) /\ snd p = Fin y /\ (y == 50)%Q) /\
  (exists p y, In p (to_image_space vs lo hi) /\ snd p = Fin y /\ (y == 1950)%Q).
Proof.
  intros Hlo Hhi Hx Hy. rewrite to_image_space_map.
  destruct (amin_amax_attained vs lo hi Hlo Hhi)
    as ((a & Ha & Ea) & (b & Hb & Eb) & (c & Hc & Ec) & (d & Hd & Ed)).
  destruct (rescale_lo _ _ Hx) as (x0 & Hx0 & Ex0).
  destruct (rescale_hi _ _ Hx) as (x1 & Hx1 & Ex1).
  destruct (rescale_lo _ _ Hy) as (y0 & Hy0 & Ey0).
  destruct (rescale_hi _ _ Hy) as (y1 & Hy1 & Ey1).
  repeat split.
  - eexists; exists x0. split; [apply in_map, Ha|]. simpl. rewrite Ea. auto.
  - eexists; exists x1. split; [apply in_map, Hb|]. simpl. rewrite Eb. auto.
  - eexists; exists y0. split; [apply in_map, Hc|]. simpl. rewrite Ec. auto.
  - eexists; exists y1. split; [apply in_map, Hd|]. simpl. rewrite Ed. auto.
Qed.

Lemma drawing_fills_canvas_witness :
  exists p x,
    In p (to_image_space (vertices unit_square) (0, 0)%Q (1, 1)%Q) /\
    fst p = Fin x /\ (x == 50)%Q.
Proof.
  exact (proj1 (drawing_fills_canvas (vertices unit_square)
                  (0, 0)%Q (1, 1)%Q eq_refl eq_refl
                  (conj eq_refl eq_refl) (conj eq_refl eq_refl))).
Defined.

(** X16. The validation of [floorplan_pipeline.py] checks the data
    directory first and reports one missing input only: when the data
    directory is missing the line names it, whether or not the COLMAP path
    exists; the COLMAP line is printed only when the data directory is
    there.  Nothing else is printed, and the state is otherwise the one
    [mkdir] left. *)
Theorem validation_reports_first_missing (w : World)
        (data colmap out : path) (iters : Z) (s : state) (f1 : filesystem) :
  mkdir_parents (now s) (fs s) [] out = Ok f1 ->
  exists_ f1 data = false \/ exists_ f1 colmap = false ->
  FloorplanPipeline.train_and_export_floorplan w data colmap out iters s
  = (Ok false,
     mkState f1 (now s)
       (stdout s ++ [if exists_ f1 data then colmap_not_found colmap
                     else data_not_found data])
       (stderr s) (trace s)).
Proof.
  intros Hmk Hmiss.
  exact (validation_fails w data colmap out iters s f1 Hmk Hmiss).
Qed.

Lemma validation_reports_first_missing_witness :
  FloorplanPipeline.train_and_export_floorplan fair_world
    room_data room_colmap room_out 10000 blank_state
  = (Ok false,
     mkState [(["output"], Dir 7); (room_out, Dir 7)] 7
             [data_not_found room_data] [] []).
Proof.
  exact (validation_reports_first_missing fair_world
           room_data room_colmap room_out 10000 blank_state
           [(["output"], Dir 7); (room_out, Dir 7)]
           eq_refl (or_introl eq_refl)).
Defined.
